(** * Daily aggregation and rolling correlation of the sentiment tracker

    A shallow embedding of the processor services
    ([daily_aggregator.py], [daily_correlation.py],
    [timeseries_builder.py], [sentiment_worker.py]), of the timeseries
    endpoint of [api/main.py] and of the upserts of the ingestors
    ([price_fetcher.py], [fetch_news.py]), followed by the properties
    proved about them.

    MongoDB documents are finite maps from field names to values,
    collections are lists of documents in natural order, Python
    exceptions are an error monad, and the database together with the
    wall clock is threaded through a state monad. *)

From Stdlib Require Import ZArith Floats.
From stdpp Require Import base option list list_monad strings pretty sorting gmap.

Local Open Scope Z_scope.
#[local] Set Warnings "-inexact-float,-clear-no-such-hyp".

(** ** Python runtime fragments *)
Module Py.

Inductive exn : Type :=
| NameError (name : string)
| KeyError (key : string)
| TypeError
| ValueError
| AttributeError
| ZeroDivisionError
| OverflowError
| HTTPException (status_code : Z) (detail : string).

Inductive result (A : Type) : Type :=
| Ok (a : A)
| Raise (e : exn).
Global Arguments Ok {A} a.
Global Arguments Raise {A} e.

Global Instance result_ret : MRet result := @Ok.
Global Instance result_bind : MBind result := λ A B f m,
  match m with
  | Ok a => f a
  | Raise e => Raise e
  end.
Global Instance result_fmap : FMap result := λ A B f m,
  match m with
  | Ok a => Ok (f a)
  | Raise e => Raise e
  end.

Definition raised {A} (m : result A) : bool :=
  match m with
  | Ok _ => false
  | Raise _ => true
  end.

(** Naive datetimes are counted in microseconds and dates in days, both
    from the day before 0001-01-01, so that a date is its ordinal
    ([date.toordinal()]); [timedelta(days=n)] is [n] days.  The stored
    datetimes and the readings of the clock are values of Python, inside
    its calendar, and so is the day after a stored date; where a date is
    computed from an argument of a run ([days_back]), the ends of the
    calendar are checked as Python checks them. *)
Abbreviation datetime := Z (only parsing).
Abbreviation date := Z (only parsing).

(** The calendar: [date.min] is 0001-01-01 and [date.max] is
    9999-12-31. *)
Definition date_min : date := 1.
Definition date_max : date := 3652059.

(** [d - timedelta(days=n)] on a date: an [OverflowError] when the day
    is outside the calendar.  [timedelta] itself refuses more than
    999999999 days with the same exception, and that many days lead
    out of the calendar from every date. *)
Definition date_sub_days (d : date) (n : Z) : result date :=
  if bool_decide (date_min ≤ d - n ≤ date_max) then Ok (d - n)
  else Raise OverflowError.

Definition us_per_day : Z := 86400000000.

(** [ts.date()] *)
Definition datetime_date (ts : datetime) : date := ts `div` us_per_day.

(** [datetime(d.year, d.month, d.day)] *)
Definition datetime_at_midnight (d : date) : datetime := d * us_per_day.

(** [timedelta(days=n)] added to a datetime *)
Definition timedelta_days (n : Z) : Z := n * us_per_day.

(** Float arithmetic of the interpreter.  The operations are kept
    abstract: their results depend on the platform's [libm] and, for
    [sum], on the interpreter version.  [fpow] is [float.__pow__], which
    reports an out-of-range result as [OverflowError]; [fdiv] is the
    quotient computed once the divisor is known to be non-zero;
    [float_of_str] is [float(s)] on a string, a [ValueError] when the
    text is no number. *)
Class PyFloat (F : Type) : Type := {
  float_of_int : Z → F;
  float_of_str : string → result F;
  float_half : F;
  fadd : F → F → F;
  fsub : F → F → F;
  fmul : F → F → F;
  fdiv : F → F → F;
  fpow : F → F → result F;
  feqb : F → F → bool;
  fsum : list F → F;
}.

Global Hint Mode PyFloat ! : typeclass_instances.

Section float_ops.
Context {F : Type} `{!PyFloat F}.

(** [x == 0] with the integer literal coerced to a float *)
Definition feq_zero (x : F) : bool := feqb x (float_of_int 0).

(** [x / y] on floats *)
Definition float_truediv (x y : F) : result F :=
  if feq_zero y then Raise ZeroDivisionError else Ok (fdiv x y).

(** [x / n] with [n] an [int]: [float(n)] is zero exactly when [n] is *)
Definition float_truediv_int (x : F) (n : Z) : result F :=
  if bool_decide (n = 0) then Raise ZeroDivisionError
  else Ok (fdiv x (float_of_int n)).

End float_ops.

(** Values stored in documents: [None], floats, integers, strings,
    datetimes and object ids. *)
Inductive value (F : Type) : Type :=
| VNull
| VFloat (x : F)
| VInt (n : Z)
| VStr (s : string)
| VDate (t : datetime)
| VId (oid : N).
Global Arguments VNull {F}.
Global Arguments VFloat {F} x.
Global Arguments VInt {F} n.
Global Arguments VStr {F} s.
Global Arguments VDate {F} t.
Global Arguments VId {F} oid.

Abbreviation document F := (gmap string (value F)).

Section dicts.
Context {F : Type}.

(** [doc[key]] *)
Definition getitem (d : document F) (key : string) : result (value F) :=
  match d !! key with
  | Some v => Ok v
  | None => Raise (KeyError key)
  end.

(** [doc.get(key)] *)
Definition dict_get (d : document F) (key : string) : value F :=
  default VNull (d !! key).

(** [doc.get(key, dflt)] *)
Definition dict_get_or (d : document F) (key : string) (dflt : value F) : value F :=
  default dflt (d !! key).

(** [v is not None] *)
Definition is_not_none (v : value F) : bool :=
  match v with
  | VNull => false
  | _ => true
  end.

(** A datetime read out of a document; any other value has no
    [.date()] or [.strftime()]. *)
Definition as_datetime (v : value F) : result datetime :=
  match v with
  | VDate t => Ok t
  | _ => Raise AttributeError
  end.

Definition of_option {A} (inj : A → value F) (o : option A) : value F :=
  match o with
  | Some a => inj a
  | None => VNull
  end.

End dicts.

(** Name resolution.  A function body loads a free name from the
    globals of its module, then from the builtins; a name bound in
    neither raises [NameError]. *)
Definition builtins : list string :=
  ["float"; "int"; "len"; "list"; "print"; "sorted"; "sum"; "zip";
   "str"; "dict"; "any"; "range"; "None"; "True"; "False";
   "Exception"; "__name__"; "__file__"].

Definition load_name (globals : list string) (name : string) : result () :=
  if bool_decide (name ∈ globals ++ builtins) then Ok ()
  else Raise (NameError name).

End Py.
Export Py.

(** ** The document store *)
Module Mongo.

Section queries.
Context {F : Type} `{!PyFloat F}.

(** Equality of stored values as a query sees it. *)
Definition value_eqb (u v : value F) : bool :=
  match u, v with
  | VNull, VNull => true
  | VFloat x, VFloat y => feqb x y
  | VInt m, VInt n => bool_decide (m = n)
  | VStr s, VStr t => bool_decide (s = t)
  | VDate s, VDate t => bool_decide (s = t)
  | VId i, VId j => bool_decide (i = j)
  | _, _ => false
  end.

(** The conditions the services put on a field: [{k: v}],
    [{k: {"$gte": t}}], [{k: {"$lt": t}}] and [{k: {"$ne": None}}]. *)
Inductive cond : Type :=
| CEq (v : value F)
| CGte (t : datetime)
| CLt (t : datetime)
| CNeNull.

(** A missing field compares like null; range conditions on a date
    only match dates; [$ne: null] needs the field present and set. *)
Definition cond_holds (c : cond) (field : option (value F)) : bool :=
  match c, field with
  | CEq v, Some u => value_eqb u v
  | CEq v, None => value_eqb VNull v
  | CGte t, Some (VDate u) => bool_decide (t ≤ u)
  | CLt t, Some (VDate u) => bool_decide (u < t)
  | CNeNull, Some u => is_not_none u
  | _, _ => false
  end.

Definition matches (q : list (string * cond)) (d : document F) : bool :=
  forallb (λ kc, cond_holds kc.2 (d !! kc.1)) q.

(** [coll.find(q)]: the matching documents in natural order. *)
Definition find (q : list (string * cond)) (coll : list (document F)) : list (document F) :=
  filter (λ d, matches q d) coll.

(** Projection [{k: 1, ...}]: the listed fields and [_id]. *)
Definition project (keys : list string) (d : document F) : document F :=
  filter (λ kv, kv.1 ∈ "_id" :: keys) d.

(** Sort key of a document on a date field.  Values of every other
    type, null and a missing field sort before all dates; their mutual
    order is left as found. *)
Definition sort_key (field : string) (d : document F) : option Z :=
  match d !! field with
  | Some (VDate t) => Some t
  | _ => None
  end.

Definition key_le (a b : option Z) : bool :=
  match a, b with
  | None, _ => true
  | Some _, None => false
  | Some x, Some y => bool_decide (x ≤ y)
  end.

End queries.

Section sorting.
Context {A : Type} (le : A → A → bool).

Fixpoint insert_sorted (x : A) (l : list A) : list A :=
  match l with
  | [] => [x]
  | y :: l' => if le x y then x :: l else y :: insert_sorted x l'
  end.

(** A stable sort: of two elements neither of which is below the
    other, the one met first stays first. *)
Definition sort_with (l : list A) : list A := foldr insert_sorted [] l.

End sorting.

Section updates.
Context {F : Type} `{!PyFloat F}.

(** [sort=[(field, ASCENDING)]] and [sort=[(field, -1)]] *)
Definition sort_asc (field : string) (l : list (document F)) : list (document F) :=
  sort_with (λ a b, key_le (sort_key field a) (sort_key field b)) l.

Definition sort_desc (field : string) (l : list (document F)) : list (document F) :=
  sort_with (λ a b, key_le (sort_key field b) (sort_key field a)) l.

(** [{"$set": fields}] applied to a document *)
Definition set_fields (fields : document F) (d : document F) : document F := fields ∪ d.

(** The first matching document is updated in place. *)
Fixpoint update_first (q : list (string * cond)) (fields : document F)
    (coll : list (document F)) : option (list (document F)) :=
  match coll with
  | [] => None
  | d :: rest =>
      if matches q d then Some (set_fields fields d :: rest)
      else (d ::.) <$> update_first q fields rest
  end.

Definition oid_of (d : document F) : N :=
  match d !! "_id" with
  | Some (VId i) => i
  | _ => 0%N
  end.

Definition fresh_oid (coll : list (document F)) : N :=
  N.succ (foldr N.max 0%N (oid_of <$> coll)).

(** The equality conditions of a filter, as fields of the inserted
    document. *)
Definition eq_fields (q : list (string * cond)) : document F :=
  foldr (λ kc acc,
           match kc.2 with
           | CEq v => <[kc.1 := v]> acc
           | _ => acc
           end) ∅ q.

(** [coll.update_one(q, {"$set": fields}, upsert=upsert)] *)
Definition update_one (q : list (string * cond)) (fields : document F)
    (upsert : bool) (coll : list (document F)) : list (document F) :=
  match update_first q fields coll with
  | Some coll' => coll'
  | None =>
      if upsert
      then coll ++ [set_fields fields (<["_id" := VId (fresh_oid coll)]> (eq_fields q))]
      else coll
  end.

(** [coll.update_one(q, {"$setOnInsert": fields}, upsert=True)], with
    the [upserted_id] of its result: a document that matches is left as
    it is; without one, a document made of the equality conditions of
    [q] and of [fields] is inserted under a fresh [_id]. *)
Definition upsert_on_insert (q : list (string * cond)) (fields : document F)
    (coll : list (document F)) : list (document F) * option N :=
  if existsb (matches q) coll then (coll, None)
  else
    (coll ++ [set_fields fields (<["_id" := VId (fresh_oid coll)]> (eq_fields q))],
     Some (fresh_oid coll)).

(** [cursor.limit(n)]: no limit for [0].  The services pass no negative
    limit; it is read here as its absolute value. *)
Definition limit (n : Z) (l : list (document F)) : list (document F) :=
  if bool_decide (n = 0) then l else take (Z.to_nat (Z.abs n)) l.

End updates.

End Mongo.

(** ** The world the services run in *)
Module World.

Section world.
Context {F : Type}.

(** The three collections of the database and the wall clock:
    [wall_clock k] is what the [k]-th reading of the clock returns. *)
Record world : Type := {
  news_events : list (document F);
  price_snapshots : list (document F);
  daily_ticker_metrics : list (document F);
  wall_clock : nat → datetime;
  clock_reads : nat;
}.

Definition M (A : Type) : Type := world → result A * world.

Definition ret {A} (a : A) : M A := λ w, (Ok a, w).

Definition bind {A B} (m : M A) (k : A → M B) : M B := λ w,
  match m w with
  | (Ok a, w') => k a w'
  | (Raise e, w') => (Raise e, w')
  end.

(** An exception of a pure computation, raised in the world. *)
Definition lift {A} (r : result A) : M A := λ w, (r, w).

Definition get_daily : M (list (document F)) := λ w, (Ok (daily_ticker_metrics w), w).

Definition put_daily (coll : list (document F)) : M () := λ w,
  (Ok (),
   {| news_events := news_events w;
      price_snapshots := price_snapshots w;
      daily_ticker_metrics := coll;
      wall_clock := wall_clock w;
      clock_reads := clock_reads w |}).

Definition get_prices : M (list (document F)) := λ w, (Ok (price_snapshots w), w).

Definition put_prices (coll : list (document F)) : M () := λ w,
  (Ok (),
   {| news_events := news_events w;
      price_snapshots := coll;
      daily_ticker_metrics := daily_ticker_metrics w;
      wall_clock := wall_clock w;
      clock_reads := clock_reads w |}).

Definition get_news : M (list (document F)) := λ w, (Ok (news_events w), w).

Definition put_news (coll : list (document F)) : M () := λ w,
  (Ok (),
   {| news_events := coll;
      price_snapshots := price_snapshots w;
      daily_ticker_metrics := daily_ticker_metrics w;
      wall_clock := wall_clock w;
      clock_reads := clock_reads w |}).

(** One reading of the clock. *)
Definition read_clock : M datetime := λ w,
  (Ok (wall_clock w (clock_reads w)),
   {| news_events := news_events w;
      price_snapshots := price_snapshots w;
      daily_ticker_metrics := daily_ticker_metrics w;
      wall_clock := wall_clock w;
      clock_reads := S (clock_reads w) |}).

(** [datetime.now(UTC)]: both names are loaded before the call. *)
Definition datetime_now_UTC (globals : list string) : M datetime :=
  bind (lift (load_name globals "datetime")) (λ _,
  bind (lift (load_name globals "UTC")) (λ _,
  read_clock)).

(** [for x in xs: body(x)] *)
Fixpoint for_each {A} (xs : list A) (body : A → M ()) : M () :=
  match xs with
  | [] => ret ()
  | x :: rest => bind (body x) (λ _, for_each rest body)
  end.

End world.

Global Arguments world F : clear implicits.
Global Arguments M F A : clear implicits.

End World.
Export World.

(** ** [services/processor/daily_aggregator.py] *)
Module DailyAggregator.

(** The names bound at module level: the imports of lines 1 to 6, the
    module constants and the functions. *)
Definition module_globals : list string :=
  ["os"; "datetime"; "timedelta"; "date"; "Counter"; "load_dotenv";
   "MongoClient"; "ASCENDING"; "BASE_DIR"; "env_path"; "MONGO_URI";
   "MONGO_DB_NAME"; "TICKERS"; "get_collections"; "start_of_day";
   "build_price_series"; "aggregate_sentiment_for_day";
   "upsert_daily_metric"; "run_daily_aggregation"].

Definition TICKERS : list string := ["AAPL"; "MSFT"; "TSLA"; "NVDA"].

Section aggregator.
Context {F : Type} `{!PyFloat F}.

Definition start_of_day (d : date) : datetime := datetime_at_midnight d.

(** [float(v)] *)
Definition to_float (v : value F) : result F :=
  match v with
  | VFloat x => Ok x
  | VInt n => Ok (float_of_int n)
  | VStr s => float_of_str s
  | _ => Raise TypeError
  end.

(** The entries of the dict that [build_price_series] returns. *)
Record price_info : Type := {
  close_price : F;
  daily_return : option F;
}.

(** First loop: [(ts.date(), float(doc["close"]))] of one candle. *)
Definition candle_point (d : document F) : result (date * F) :=
  ts ← getitem d "ts";
  t ← as_datetime ts;
  c ← getitem d "close";
  close ← to_float c;
  Ok (datetime_date t, close).

(** Second loop, with [prev_close] and the dict built so far. *)
Fixpoint returns_loop (series : list (date * F)) (prev_close : option F)
    (result : gmap Z price_info) : gmap Z price_info :=
  match series with
  | [] => result
  | (d, close) :: rest =>
      let daily_ret :=
        match prev_close with
        | None => None
        | Some p =>
            if negb (feq_zero p) then Some (fdiv (fsub close p) p) else None
        end in
      returns_loop rest (Some close)
        (<[d := {| close_price := close; daily_return := daily_ret |}]> result)
  end.

Definition build_price_series (prices_coll : list (document F)) (ticker : string)
    : result (gmap Z price_info) :=
  let rows :=
    Mongo.sort_asc "ts" (Mongo.find [("ticker", Mongo.CEq (VStr ticker))] prices_coll) in
  match rows with
  | [] => Ok ∅
  | _ =>
      series ← mapM candle_point rows;
      Ok (returns_loop series None ∅)
  end.

(** Truth value of a stored value, as [if v] tests it. *)
Definition truthy (v : value F) : bool :=
  match v with
  | VNull => false
  | VFloat x => negb (feq_zero x)
  | VInt n => negb (bool_decide (n = 0))
  | VStr s => negb (bool_decide (s = ""))
  | VDate _ => true
  | VId _ => true
  end.

(** [==] on values used as dictionary keys. *)
Definition py_eqb (u v : value F) : bool :=
  match u, v with
  | VInt m, VFloat y => feqb (float_of_int m) y
  | VFloat x, VInt n => feqb x (float_of_int n)
  | _, _ => Mongo.value_eqb u v
  end.

(** [Counter(labels)]: counts kept in order of first occurrence. *)
Fixpoint counter_add (x : value F) (c : list (value F * Z)) : list (value F * Z) :=
  match c with
  | [] => [(x, 1)]
  | (y, n) :: c' =>
      if py_eqb y x then (y, n + 1) :: c' else (y, n) :: counter_add x c'
  end.

Definition Counter (labels : list (value F)) : list (value F * Z) :=
  foldl (λ c x, counter_add x c) [] labels.

(** [max(items, key=count)]: a later item replaces the best one only
    when its count is strictly larger. *)
Fixpoint max_by_count (best : value F * Z) (items : list (value F * Z))
    : value F * Z :=
  match items with
  | [] => best
  | it :: rest =>
      max_by_count (if bool_decide (best.2 < it.2) then it else best) rest
  end.

(** [counter.most_common(1)] *)
Definition most_common_1 (c : list (value F * Z)) : list (value F * Z) :=
  match c with
  | [] => []
  | it :: rest => [max_by_count it rest]
  end.

Definition aggregate_sentiment_for_day (news_coll : list (document F))
    (ticker : string) (d : date) : result (option F * value F * Z) :=
  let day_start := start_of_day d in
  let day_end := day_start + timedelta_days 1 in
  let docs :=
    Mongo.project ["sentiment_score"; "sentiment_label"] <$>
    Mongo.find [("ticker", Mongo.CEq (VStr ticker));
                ("published_at", Mongo.CGte day_start);
                ("published_at", Mongo.CLt day_end);
                ("sentiment_score", Mongo.CNeNull)] news_coll in
  match docs with
  | [] => Ok (None, VNull, 0)
  | _ =>
      scores ←
        mapM (λ doc, v ← getitem doc "sentiment_score"; to_float v)
             (filter (λ doc : document F, is_Some (doc !! "sentiment_score")) docs);
      let labels :=
        (λ doc, dict_get doc "sentiment_label") <$>
        filter (λ doc : document F, truthy (dict_get doc "sentiment_label")) docs in
      avg_score ←
        match scores with
        | [] => Ok None
        | _ => Some <$> float_truediv_int (fsum scores) (Z.of_nat (length scores))
        end;
      let dominant :=
        match labels with
        | [] => VNull
        | _ =>
            match most_common_1 (Counter labels) with
            | it :: _ => it.1
            | [] => VNull
            end
        end in
      Ok (avg_score, dominant, Z.of_nat (length docs))
  end.

(** The [$set] document of the upsert. *)
Definition daily_metric_fields (ticker : string) (date_dt : datetime)
    (close_price : F) (daily_return avg_sentiment : option F)
    (dominant_label : value F) (article_count : Z) (now : datetime) : document F :=
  {[ "ticker" := VStr ticker;
     "date" := VDate date_dt;
     "close_price" := VFloat close_price;
     "daily_return" := of_option VFloat daily_return;
     "avg_sentiment_score" := of_option VFloat avg_sentiment;
     "dominant_sentiment_label" := dominant_label;
     "article_count" := VInt article_count;
     "updated_at" := VDate now ]}.

(** The arguments of [update_one] are evaluated before the call, the
    [$set] document last, and in it [datetime.now(UTC)]. *)
Definition upsert_daily_metric (ticker : string) (d : date)
    (close_price : F) (daily_return avg_sentiment : option F)
    (dominant_label : value F) (article_count : Z) : M F () :=
  let date_dt := start_of_day d in
  World.bind (datetime_now_UTC module_globals) (λ now,
  World.bind get_daily (λ daily_coll,
  put_daily
    (Mongo.update_one
       [("ticker", Mongo.CEq (VStr ticker)); ("date", Mongo.CEq (VDate date_dt))]
       (daily_metric_fields ticker date_dt close_price daily_return
          avg_sentiment dominant_label article_count now)
       true daily_coll))).

(** [sorted(price_series.keys())] *)
Definition sorted_keys (price_series : gmap Z price_info) : list date :=
  Mongo.sort_with (λ a b : Z, bool_decide (a ≤ b)) (map_to_list price_series).*1.

(** The body of [for d in sorted(price_series.keys())]. *)
Definition aggregate_date (ticker : string) (price_series : gmap Z price_info)
    (start_date d : date) : M F () :=
  if bool_decide (d < start_date) then World.ret ()
  else
    match price_series !! d with
    | None => lift (Raise (KeyError "date"))
    | Some price_info =>
        World.bind (λ w, (aggregate_sentiment_for_day (news_events w) ticker d, w))
          (λ '(avg_sentiment, dominant_label, article_count),
             upsert_daily_metric ticker d (close_price price_info)
               (daily_return price_info) avg_sentiment dominant_label
               article_count)
    end.

(** [datetime.utcnow().date()] *)
Definition utcnow_date : M F date :=
  World.bind read_clock (λ now, World.ret (datetime_date now)).

(** The collection handles are obtained first; creating the index
    writes no document. *)
Definition run_daily_aggregation (days_back : Z) : M F () :=
  World.bind utcnow_date (λ today,
  World.bind (lift (date_sub_days today days_back)) (λ start_date,
  for_each TICKERS (λ ticker,
    World.bind (λ w, (build_price_series (price_snapshots w) ticker, w))
      (λ price_series,
         if bool_decide (price_series = ∅) then World.ret ()
         else for_each (sorted_keys price_series)
                (aggregate_date ticker price_series start_date))))).

End aggregator.

Global Arguments price_info F : clear implicits.

End DailyAggregator.

(** ** [services/processor/daily_correlation.py] *)
Module DailyCorrelation.

(** The names bound at module level; line 2 imports [UTC]. *)
Definition module_globals : list string :=
  ["os"; "datetime"; "timedelta"; "UTC"; "List"; "Tuple"; "Optional";
   "load_dotenv"; "MongoClient"; "ASCENDING"; "BASE_DIR"; "env_path";
   "MONGO_URI"; "MONGO_DB_NAME"; "TICKERS"; "get_daily_collection";
   "pearson_corr"; "update_rolling_corr_for_ticker"; "run_rolling_corr"].

Definition TICKERS : list string := ["AAPL"; "MSFT"; "TSLA"; "NVDA"].

Section correlation.
Context {F : Type} `{!PyFloat F}.

(** A value of a pair as the arithmetic of [pearson_corr] takes it: a
    float as it is and an integer as the float of its value, which is
    what Python computes as long as the integers and their sums are
    below [2 ** 53].  A value of another type stops the first sum with
    a [TypeError]. *)
Definition as_float (v : value F) : result F :=
  match v with
  | VFloat x => Ok x
  | VInt n => Ok (float_of_int n)
  | _ => Raise TypeError
  end.

(** [sum((x - mean) ** 2 for x in xs)] *)
Definition sum_sq_dev (mean : F) (xs : list F) : result F :=
  fsum <$> mapM (λ x, fpow (fsub x mean) (float_of_int 2)) xs.

(** The values of the pairs are first used by the sums, after the test
    on their number. *)
Definition pearson_corr (pairs : list (value F * value F)) : result (option F) :=
  let n := Z.of_nat (length pairs) in
  if bool_decide (n < 2) then Ok None
  else
    xs ← mapM as_float pairs.*1;
    ys ← mapM as_float pairs.*2;
    mean_x ← float_truediv_int (fsum xs) n;
    mean_y ← float_truediv_int (fsum ys) n;
    let num :=
      fsum ((λ xy, fmul (fsub xy.1 mean_x) (fsub xy.2 mean_y)) <$> zip xs ys) in
    den_x ← sum_sq_dev mean_x xs;
    den_y ← sum_sq_dev mean_y ys;
    if feq_zero den_x || feq_zero den_y then Ok None
    else
      root ← fpow (fmul den_x den_y) float_half;
      Some <$> float_truediv num root.

(** The entries of [history]. *)
Record hist_entry : Type := {
  h_date : value F;
  ret : value F;
  sent : value F;
}.

(** The valid [(ret, sent)] of the current window. *)
Definition window_pairs (history : list hist_entry) : list (value F * value F) :=
  (λ h, (ret h, sent h))
    <$> filter (λ h, is_not_none (ret h) && is_not_none (sent h)) history.

(** [pearson_corr(pairs) if pairs else None] *)
Definition window_corr (history : list hist_entry) : result (option F) :=
  match window_pairs history with
  | [] => Ok None
  | pairs => pearson_corr pairs
  end.

(** [history.append(...)], then [history.pop(0)] when over capacity. *)
Definition push_history (window : Z) (history : list hist_entry)
    (h : hist_entry) : list hist_entry :=
  let history := history ++ [h] in
  if bool_decide (window < Z.of_nat (length history)) then drop 1 history
  else history.

(** The [$set] document of the correlation write. *)
Definition corr_fields (corr : option F) (now : datetime) : document F :=
  {[ "rolling_corr_7d" := of_option VFloat corr;
     "corr_updated_at" := VDate now ]}.

(** [for doc in docs], with [history] and [updated] carried along. *)
Fixpoint corr_loop (window : Z) (docs : list (document F))
    (history : list hist_entry) (updated : Z) : M F Z :=
  match docs with
  | [] => World.ret updated
  | doc :: rest =>
      World.bind (lift (getitem doc "date")) (λ d,
      let daily_ret := dict_get doc "daily_return" in
      let sent := dict_get doc "avg_sentiment_score" in
      let history :=
        push_history window history
          {| h_date := d; ret := daily_ret; sent := sent |} in
      World.bind (lift (window_corr history)) (λ corr,
      World.bind (lift (getitem doc "_id")) (λ oid,
      World.bind (datetime_now_UTC module_globals) (λ now,
      World.bind get_daily (λ coll,
      World.bind
        (put_daily
           (Mongo.update_one [("_id", Mongo.CEq oid)] (corr_fields corr now)
              false coll)) (λ _,
      corr_loop window rest history (updated + 1)))))))
  end.

(** The rows of one ticker, ascending by date. *)
Definition ticker_rows (ticker : string) (coll : list (document F)) : list (document F) :=
  Mongo.sort_asc "date" (Mongo.find [("ticker", Mongo.CEq (VStr ticker))] coll).

Definition update_rolling_corr_for_ticker (ticker : string) (window : Z)
    : M F () :=
  World.bind get_daily (λ coll,
  let docs := ticker_rows ticker coll in
  match docs with
  | [] => World.ret ()
  | _ => World.bind (corr_loop window docs [] 0) (λ _, World.ret ())
  end).

(** Creating the index of [get_daily_collection] writes no document. *)
Definition run_rolling_corr (window : Z) : M F () :=
  for_each TICKERS (λ ticker, update_rolling_corr_for_ticker ticker window).

End correlation.

Global Arguments hist_entry F : clear implicits.

End DailyCorrelation.

(** Formatting and case conversion of the standard library, kept
    abstract: [strftime_ymd d] is [d.strftime("%Y-%m-%d")] and
    [str_upper s] is [s.upper()]. *)
Class PyText : Type := {
  strftime_ymd : date → string;
  str_upper : string → string;
}.

(** ** [services/processor/timeseries_builder.py] *)
Module TimeseriesBuilder.

Section reader.
Context {F : Type} `{!PyFloat F} `{!PyText}.

Definition get_latest_date_for_ticker (coll : list (document F)) (ticker : string)
    : result (option date) :=
  match
    head (Mongo.project ["date"] <$>
          Mongo.sort_desc "date"
            (Mongo.find [("ticker", Mongo.CEq (VStr ticker))] coll))
  with
  | None => Ok None
  | Some doc =>
      d ← getitem doc "date";
      t ← as_datetime d;
      Ok (Some (datetime_date t))
  end.

(** The dict that [build_ticker_timeseries] returns; [from_date] and
    [to_date] are absent from the early return. *)
Record timeseries : Type := {
  ticker : string;
  from_date : option string;
  to_date : option string;
  points : list (document F);
}.

(** One element of [points]. *)
Definition point_of (doc : document F) : result (document F) :=
  dv ← getitem doc "date";
  d ← as_datetime dv;
  Ok ({[ "date" := VStr (strftime_ymd (datetime_date d));
         "close_price" := dict_get doc "close_price";
         "daily_return" := dict_get doc "daily_return";
         "avg_sentiment" := dict_get doc "avg_sentiment_score";
         "dominant_sentiment" := dict_get doc "dominant_sentiment_label";
         "article_count" := dict_get_or doc "article_count" (VInt 0);
         "rolling_corr_7d" := dict_get doc "rolling_corr_7d" ]} : document F).

Definition build_ticker_timeseries (ticker : string) (days_back : Z)
    : M F timeseries :=
  World.bind get_daily (λ coll,
  World.bind (lift (get_latest_date_for_ticker coll ticker)) (λ latest,
  match latest with
  | None =>
      World.ret {| ticker := ticker; from_date := None; to_date := None;
                   points := [] |}
  | Some latest_date =>
      World.bind (lift (date_sub_days latest_date (days_back - 1))) (λ start_date,
      let start_dt := datetime_at_midnight start_date in
      let cursor :=
        Mongo.sort_asc "date"
          (Mongo.find [("ticker", Mongo.CEq (VStr ticker));
                       ("date", Mongo.CGte start_dt)] coll) in
      World.bind (lift (mapM point_of cursor)) (λ points,
      World.ret {| ticker := ticker;
                   from_date := Some (strftime_ymd start_date);
                   to_date := Some (strftime_ymd latest_date);
                   points := points |}))
  end)).

End reader.

Global Arguments timeseries F : clear implicits.

End TimeseriesBuilder.

(** ** [services/api/main.py] *)
Module Api.

Definition TICKERS : list string := ["AAPL"; "MSFT"; "TSLA"; "NVDA"].

Section endpoint.
Context {F : Type} `{!PyFloat F} `{!PyText}.

(** The function behind the endpoint.  The framework calls it only
    with [1 <= days <= 90], the bounds its signature declares for the
    query parameter, and answers any other request itself with the
    status 422; that answer is not part of the model, and what is stated
    of the endpoint is stated for [days] within the bounds. *)
Definition get_ticker_timeseries (ticker : string) (days : Z)
    : M F (TimeseriesBuilder.timeseries F) :=
  let ticker := str_upper ticker in
  if bool_decide (ticker ∉ TICKERS)
  then lift (Raise (HTTPException 404 ("Ticker " +:+ ticker +:+ " is not supported")))
  else
    World.bind (TimeseriesBuilder.build_ticker_timeseries ticker days) (λ data,
    match TimeseriesBuilder.points data with
    | [] =>
        lift (Raise (HTTPException 404
                       ("No daily metrics found for ticker " +:+ ticker)))
    | _ => World.ret data
    end).

End endpoint.

End Api.

(** ** [services/ingestor/price_fetcher.py] *)
Module PriceFetcher.

Section fetcher.
Context {F : Type} `{!PyFloat F}.

(** [for candle in candles], with [inserted] carried along; a candle is
    the dict that [fetch_daily_prices_yf] has built. *)
Fixpoint upsert_loop (candles : list (document F)) (inserted : Z) : M F Z :=
  match candles with
  | [] => World.ret inserted
  | candle :: rest =>
      World.bind (lift (getitem candle "ticker")) (λ ticker,
      World.bind (lift (getitem candle "ts")) (λ ts,
      World.bind get_prices (λ coll,
      let result :=
        Mongo.upsert_on_insert
          [("ticker", Mongo.CEq ticker); ("ts", Mongo.CEq ts)] candle coll in
      World.bind (put_prices result.1) (λ _,
      upsert_loop rest
        (match result.2 with
         | Some _ => inserted + 1
         | None => inserted
         end)))))
  end.

Definition upsert_candles (candles : list (document F)) : M F Z :=
  upsert_loop candles 0.

End fetcher.

End PriceFetcher.

(** ** [services/processor/sentiment_worker.py] *)
Module SentimentWorker.

Section worker.
Context {F : Type} `{!PyFloat F}.

(** [analyze_headline] of [finbert_model.py] on a string; the
    classifier behind it is not modelled. *)
Variable analyze_headline : string → string * F.

(** The argument of [analyze_headline] is stripped first: it has to be
    a string. *)
Definition headline_text (v : value F) : result string :=
  match v with
  | VStr s => Ok s
  | _ => Raise AttributeError
  end.

(** [ObjectId(_id)] of an object id is that id; the ids of stored
    documents are object ids. *)
Definition object_id (v : value F) : result (value F) :=
  match v with
  | VId i => Ok (VId i)
  | _ => Raise TypeError
  end.

(** The cursor sorts the documents, then projects them. *)
Definition fetch_unscored_batch (coll : list (document F)) (batch_size : Z)
    : list (document F) :=
  Mongo.limit batch_size
    (Mongo.project ["headline"] <$>
     Mongo.sort_asc "published_at"
       (Mongo.find [("sentiment_score", Mongo.CEq VNull)] coll)).

(** The [$set] document of the worker. *)
Definition score_fields (label : string) (score : F) (now : datetime) : document F :=
  {[ "sentiment_label" := VStr label;
     "sentiment_score" := VFloat score;
     "sentiment_updated_at" := VDate now ]}.

(** [for doc in docs], with [updated_count] carried along. *)
Fixpoint score_loop (docs : list (document F)) (updated_count : Z) : M F Z :=
  match docs with
  | [] => World.ret updated_count
  | doc :: rest =>
      World.bind (lift (getitem doc "_id")) (λ _id,
      World.bind
        (lift (headline_text (dict_get_or doc "headline" (VStr EmptyString))))
        (λ headline,
      let label_score := analyze_headline headline in
      World.bind (lift (object_id _id)) (λ oid,
      World.bind read_clock (λ now,
      World.bind get_news (λ coll,
      World.bind
        (put_news
           (Mongo.update_one [("_id", Mongo.CEq oid)]
              (score_fields label_score.1 label_score.2 now) false coll)) (λ _,
      score_loop rest (updated_count + 1)))))))
  end.

Definition process_batch (batch_size : Z) : M F Z :=
  World.bind get_news (λ coll,
  match fetch_unscored_batch coll batch_size with
  | [] => World.ret 0
  | docs => score_loop docs 0
  end).

(** [for i in range(max_loops)], with [total_updated] carried along;
    the function prints the total, which is returned here. *)
Fixpoint worker_loop (loops : nat) (batch_size total_updated : Z) : M F Z :=
  match loops with
  | O => World.ret total_updated
  | S loops' =>
      World.bind (process_batch batch_size) (λ updated,
      let total_updated := total_updated + updated in
      if bool_decide (updated = 0) then World.ret total_updated
      else worker_loop loops' batch_size total_updated)
  end.

Definition run_worker (max_loops batch_size : Z) : M F Z :=
  worker_loop (Z.to_nat max_loops) batch_size 0.

End worker.

End SentimentWorker.

(** ** [services/ingestor/fetch_news.py] *)
Module NewsIngestor.

Section ingestor.
Context {F : Type} `{!PyFloat F}.

(** [datetime.fromtimestamp(t, tz=timezone.utc)]: the conversion of
    the library, with the exceptions it raises, is not modelled. *)
Variable fromtimestamp : value F → result datetime.

(** [item.get("headline") or ""] *)
Definition headline_or_empty (item : document F) : value F :=
  let headline := dict_get item "headline" in
  if DailyAggregator.truthy headline then headline else VStr EmptyString.

(** The document of [$setOnInsert]. *)
Definition news_doc (ticker : string) (headline source url : value F)
    (published_at now : datetime) : document F :=
  {[ "source" := source;
     "ticker" := VStr ticker;
     "headline" := headline;
     "summary" := VNull;
     "sentiment_label" := VNull;
     "sentiment_score" := VNull;
     "published_at" := VDate published_at;
     "ingested_at" := VDate now;
     "url" := url ]}.

(** [for item in items], with [inserted] carried along; an item is an
    object of the feed. *)
Fixpoint insert_loop (ticker : string) (items : list (document F)) (inserted : Z)
    : M F Z :=
  match items with
  | [] => World.ret inserted
  | item :: rest =>
      let headline := headline_or_empty item in
      if negb (DailyAggregator.truthy headline) then insert_loop ticker rest inserted
      else
        World.bind (lift (getitem item "datetime")) (λ t,
        World.bind (lift (fromtimestamp t)) (λ published_at,
        let url := dict_get item "url" in
        let source := dict_get_or item "source" (VStr "unknown") in
        World.bind read_clock (λ now,
        World.bind get_news (λ coll,
        let result :=
          Mongo.upsert_on_insert
            [("ticker", Mongo.CEq (VStr ticker));
             ("headline", Mongo.CEq headline);
             ("published_at", Mongo.CEq (VDate published_at))]
            (news_doc ticker headline source url published_at now) coll in
        World.bind (put_news result.1) (λ _,
        insert_loop ticker rest
          (match result.2 with
           | Some _ => inserted + 1
           | None => inserted
           end))))))
  end.

Definition insert_news_batch (ticker : string) (items : list (document F)) : M F Z :=
  insert_loop ticker items 0.

End ingestor.

End NewsIngestor.

(** ** An interpretation on binary64 numbers

    The services are run below on the kernel's binary64 floats:
    [x ** 2] is the rounded product with the range check of
    [float.__pow__], [x ** 0.5] the rounded square root, and [sum] adds
    from the left.  No other exponent occurs in the services and no
    string is parsed as a number. *)
Module Binary64.

Definition of_int (n : Z) : float :=
  if bool_decide (n < 0)
  then PrimFloat.opp (PrimFloat.of_uint63 (Uint63.of_Z (- n)))
  else PrimFloat.of_uint63 (Uint63.of_Z n).

Definition is_finite (x : float) : bool :=
  negb (PrimFloat.is_nan x) && negb (PrimFloat.is_infinity x).

Definition pow (x y : float) : result float :=
  if PrimFloat.eqb y 2 then
    let r := PrimFloat.mul x x in
    if is_finite x && PrimFloat.is_infinity r then Raise OverflowError else Ok r
  else if PrimFloat.eqb y 0.5 then Ok (PrimFloat.sqrt x)
  else Raise ValueError.

#[export] Instance binary64 : PyFloat float := {|
  float_of_int := of_int;
  float_of_str := λ _, Raise ValueError;
  float_half := 0.5%float;
  fadd := PrimFloat.add;
  fsub := PrimFloat.sub;
  fmul := PrimFloat.mul;
  fdiv := PrimFloat.div;
  fpow := pow;
  feqb := PrimFloat.eqb;
  fsum := foldl PrimFloat.add 0%float;
|}.

(** Year, month and day of a day count in the proleptic Gregorian
    calendar, day 1 being 0001-01-01. *)
Definition ymd_of_ordinal (n : Z) : Z * Z * Z :=
  let z := n + 305 in
  let era := z `div` 146097 in
  let doe := z - era * 146097 in
  let yoe := (doe - doe `div` 1460 + doe `div` 36524 - doe `div` 146096) `div` 365 in
  let doy := doe - (365 * yoe + yoe `div` 4 - yoe `div` 100) in
  let mp := (5 * doy + 2) `div` 153 in
  let d := doy - (153 * mp + 2) `div` 5 + 1 in
  let m := if bool_decide (mp < 10) then mp + 3 else mp - 9 in
  let y := yoe + era * 400 + (if bool_decide (m ≤ 2) then 1 else 0) in
  (y, m, d).

Definition pad (width : nat) (n : Z) : string :=
  let s := pretty (Z.to_N n) in
  String.concat "" (replicate (width - String.length s) "0") +:+ s.

Definition iso_date (n : Z) : string :=
  let '(y, m, d) := ymd_of_ordinal n in
  pad 4 y +:+ "-" +:+ pad 2 m +:+ "-" +:+ pad 2 d.

Definition upper_ascii (c : Ascii.ascii) : Ascii.ascii :=
  let n := Ascii.nat_of_ascii c in
  if bool_decide (97 ≤ n ≤ 122)%nat then Ascii.ascii_of_nat (n - 32) else c.

Fixpoint upper (s : string) : string :=
  match s with
  | EmptyString => EmptyString
  | String c s' => String (upper_ascii c) (upper s')
  end.

#[export] Instance ascii_text : PyText := {|
  strftime_ymd := iso_date;
  str_upper := upper;
|}.

End Binary64.

(** ** Sample data on binary64 numbers *)
Module Samples.
Import Binary64.

(** A datetime: day [d] at [h] o'clock. *)
Definition at_hour (d : date) (h : Z) : datetime :=
  d * us_per_day + h * 3600000000.

(** A clock that starts on 2024-01-09 (day 738894) at noon and moves
    one second between readings. *)
Definition clock (k : nat) : datetime :=
  at_hour 738894 12 + Z.of_nat k * 1000000.

Definition world_of (news prices daily : list (document float)) : world float :=
  {| news_events := news;
     price_snapshots := prices;
     daily_ticker_metrics := daily;
     wall_clock := clock;
     clock_reads := 0 |}.

Definition empty_world : world float := world_of [] [] [].

(** A candle as [upsert_candles] stores it. *)
Definition candle (oid : N) (ticker : string) (ts : datetime) (close : float)
    : document float :=
  {[ "_id" := VId oid;
     "ticker" := VStr ticker;
     "ts" := VDate ts;
     "close" := VFloat close;
     "source" := VStr "yfinance_history" ]}.

(** Three trading days of AAPL around a weekend (2024-01-05,
    2024-01-08, 2024-01-09) and one candle of MSFT. *)
Definition prices : list (document float) :=
  [ candle 1 "AAPL" (at_hour 738890 5) 100;
    candle 2 "MSFT" (at_hour 738890 5) 370;
    candle 3 "AAPL" (at_hour 738893 5) 110;
    candle 4 "AAPL" (at_hour 738894 5) 99 ].

(** A candle as [fetch_daily_prices_yf] builds it. *)
Definition fetched (ticker : string) (ts : datetime) (close : float)
    : document float :=
  {[ "ticker" := VStr ticker;
     "ts" := VDate ts;
     "open" := VFloat close;
     "high" := VFloat close;
     "low" := VFloat close;
     "close" := VFloat close;
     "volume" := VFloat 0%float;
     "source" := VStr "yfinance_history" ]}.

(** A batch for AAPL: one candle that is stored already, one new
    candle, and the new candle once more. *)
Definition batch : list (document float) :=
  [ fetched "AAPL" (at_hour 738894 5) 99;
    fetched "AAPL" (at_hour 738895 5) 101;
    fetched "AAPL" (at_hour 738895 5) 101 ].

(** Two candles of AAPL stamped on the same day, at 14:00 and 20:00. *)
Definition prices_same_day : list (document float) :=
  [ candle 1 "AAPL" (at_hour 738890 14) 100;
    candle 2 "AAPL" (at_hour 738890 20) 110 ].


(** A news event as the collector and the sentiment worker store it. *)
Definition headline (oid : N) (ticker : string) (published_at : datetime)
    (label : value float) (score : value float) : document float :=
  {[ "_id" := VId oid;
     "source" := VStr "finnhub";
     "ticker" := VStr ticker;
     "headline" := VStr "headline";
     "published_at" := VDate published_at;
     "sentiment_label" := label;
     "sentiment_score" := score ]}.

(** Two scored events of AAPL on 2024-01-05 (bullish 0.4, bearish
    -0.2), one not scored yet, one of the next day and one of MSFT. *)
Definition news : list (document float) :=
  [ headline 1 "AAPL" (at_hour 738890 9) (VStr "bullish") (VFloat 0.4%float);
    headline 2 "MSFT" (at_hour 738890 10) (VStr "neutral") (VFloat 0%float);
    headline 3 "AAPL" (at_hour 738890 15) (VStr "bearish") (VFloat (-0.2)%float);
    headline 4 "AAPL" (at_hour 738890 18) VNull VNull;
    headline 5 "AAPL" (at_hour 738891 0) (VStr "bearish") (VFloat (-0.5)%float) ].

(** A stand-in for the conversion of the library: whole seconds after
    1970-01-01, which is day 719163.  The examples convert nothing
    else. *)
Definition utc_seconds (v : value float) : result datetime :=
  match v with
  | VInt n => Ok (719163 * us_per_day + n * 1000000)
  | _ => Raise TypeError
  end.

(** An item of the feed. *)
Definition feed_item (text : string) (seconds : Z) : document float :=
  {[ "headline" := VStr text;
     "datetime" := VInt seconds;
     "source" := VStr "Reuters";
     "url" := VStr "https://example.org/article";
     "id" := VInt 7 ]}.

(** A feed for AAPL: the event that [news] stores fourth (2024-01-05
    at 18:00), an item of 2024-01-09 at 9:00, an item without headline
    and timestamp, an item with an empty headline, and the second item
    once more. *)
Definition feed : list (document float) :=
  [ feed_item "headline" 1704477600;
    feed_item "Apple beats" 1704790800;
    {[ "source" := VStr "Reuters" ]};
    {[ "headline" := VStr EmptyString; "datetime" := VNull ]};
    feed_item "Apple beats" 1704790800 ].

(** The feed followed by an item that has a headline and no
    timestamp. *)
Definition feed_undated : list (document float) :=
  feed ++ [ {[ "headline" := VStr "Apple falls" ]} ].

(** A stand-in for the classifier: neutral on the empty text, as
    [analyze_headline] answers it, and bullish on every other. *)
Definition classifier (text : string) : string * float :=
  if bool_decide (text = EmptyString) then ("neutral", 0%float)
  else ("bullish", 0.5%float).

(** A row of the daily metrics. *)
Definition metric (oid : N) (ticker : string) (d : date) (close : float)
    (ret sent : option float) : document float :=
  {[ "_id" := VId oid;
     "ticker" := VStr ticker;
     "date" := VDate (datetime_at_midnight d);
     "close_price" := VFloat close;
     "daily_return" := of_option VFloat ret;
     "avg_sentiment_score" := of_option VFloat sent;
     "dominant_sentiment_label" := VNull;
     "article_count" := VInt 0;
     "updated_at" := VDate (at_hour 738897 6) ]}.

(** Six rows of AAPL, stored out of order and with a weekend between
    the first two dates, and one row of MSFT.  Four rows of AAPL carry
    both a return and a sentiment. *)
Definition daily : list (document float) :=
  [ metric 1 "AAPL" 738893 101 (Some 0.01%float) (Some 0.3%float);
    metric 2 "AAPL" 738890 100 None (Some 0.2%float);
    metric 3 "MSFT" 738890 370 None None;
    metric 4 "AAPL" 738894 99 (Some (-0.02)%float) (Some (-0.1)%float);
    metric 5 "AAPL" 738895 99 (Some 0%float) (Some 0%float);
    metric 6 "AAPL" 738896 100.5 (Some 0.015%float) (Some 0.25%float);
    metric 7 "AAPL" 738897 102.5 (Some 0.02%float) None ].

(** The sample store after a run of the correlation engine. *)
Definition correlated : world float :=
  (DailyCorrelation.run_rolling_corr 7 (world_of [] [] daily)).2.

(** The same store with other returns on the last two days. *)
Definition daily_other_future : list (document float) :=
  [ metric 1 "AAPL" 738893 101 (Some 0.01%float) (Some 0.3%float);
    metric 2 "AAPL" 738890 100 None (Some 0.2%float);
    metric 3 "MSFT" 738890 370 None None;
    metric 4 "AAPL" 738894 99 (Some (-0.02)%float) (Some (-0.1)%float);
    metric 5 "AAPL" 738895 99 (Some 0%float) (Some 0%float);
    metric 6 "AAPL" 738896 90 (Some (-0.09)%float) (Some (-0.7)%float);
    metric 7 "AAPL" 738897 95 (Some 0.05%float) (Some 0.6%float) ].

(** Three rows of AAPL whose returns are too large to be squared. *)
Definition daily_overflow : list (document float) :=
  [ metric 1 "AAPL" 738890 100 (Some 1e200%float) (Some 0.1%float);
    metric 2 "AAPL" 738891 100 (Some (-1e200)%float) (Some 0.2%float);
    metric 3 "AAPL" 738892 100 (Some 0.01%float) (Some 0.3%float) ].



End Samples.

(** * Vocabulary of the statements *)

Section vocabulary.
Context {F : Type} `{!PyFloat F}.

(** A computation that leaves the daily metrics as they were. *)
Definition keeps_daily {A} (m : M F A) : Prop :=
  ∀ w, daily_ticker_metrics (m w).2 = daily_ticker_metrics w.


(** The day is a date of the calendar. *)
Definition in_calendar (d : date) : Prop := date_min ≤ d ≤ date_max.

#[global] Instance in_calendar_dec (d : date) : Decision (in_calendar d).
Proof. unfold in_calendar. apply _. Defined.

(** The mean of a series: [sum(xs) / n]. *)
Definition mean (xs : list F) : F :=
  fdiv (fsum xs) (float_of_int (Z.of_nat (length xs))).

End vocabulary.

Section endpoint_vocabulary.
Context {F : Type} `{!PyFloat F} `{!PyText}.

(** The request is answered with a result whose [points] are empty. *)
Definition answers_empty_result (w : world F) (ticker : string) (days : Z) : Prop :=
  ∃ data,
    (Api.get_ticker_timeseries ticker days w).1 = Ok data
    ∧ TimeseriesBuilder.points data = [].

End endpoint_vocabulary.

Section series_vocabulary.
Context {F : Type} `{!PyFloat F}.

(** The candles of a ticker as [build_price_series] reads them. *)
Definition candles (ticker : string) (prices_coll : list (document F))
    : list (document F) :=
  Mongo.sort_asc "ts" (Mongo.find [("ticker", Mongo.CEq (VStr ticker))] prices_coll).

(** A candle as the price fetcher stores it: a timestamp and a float
    close. *)
Definition candle_ok (doc : document F) : Prop :=
  ∃ t c, doc !! "ts" = Some (VDate t) ∧ doc !! "close" = Some (VFloat c).

Definition candle_date (doc : document F) : option date :=
  match doc !! "ts" with
  | Some (VDate t) => Some (datetime_date t)
  | _ => None
  end.

(** [d] is the first date of the series. *)
Definition first_date (s : gmap Z (DailyAggregator.price_info F)) (d : date) : Prop :=
  is_Some (s !! d) ∧ ∀ e, is_Some (s !! e) → d ≤ e.

(** [d'] is the date of the series immediately before [d]. *)
Definition preceding_date (s : gmap Z (DailyAggregator.price_info F))
    (d' d : date) : Prop :=
  is_Some (s !! d') ∧ d' < d ∧ ∀ e, is_Some (s !! e) → e < d → e ≤ d'.

(** [(close - prev_close) / prev_close], null when [prev_close == 0]. *)
Definition return_on (prev_close close : F) : option F :=
  if feq_zero prev_close then None
  else Some (fdiv (fsub close prev_close) prev_close).

(** The returns of a series: null at its first date, and at every later
    date the return on the close of the date immediately before. *)
Definition daily_return_law (s : gmap Z (DailyAggregator.price_info F)) : Prop :=
  (∀ d info,
     s !! d = Some info → first_date s d →
     DailyAggregator.daily_return info = None)
  ∧ (∀ d' d prev info,
       s !! d' = Some prev → s !! d = Some info → preceding_date s d' d →
       DailyAggregator.daily_return info
       = return_on (DailyAggregator.close_price prev)
           (DailyAggregator.close_price info)).

(** Every candle has an entry at its date, holding its close. *)
Definition covers_candles (rows : list (document F))
    (s : gmap Z (DailyAggregator.price_info F)) : Prop :=
  ∀ doc t c,
    doc ∈ rows → doc !! "ts" = Some (VDate t) → doc !! "close" = Some (VFloat c) →
    ∃ info, s !! datetime_date t = Some info
            ∧ DailyAggregator.close_price info = c.

(** The return the second loop of [build_price_series] computes at
    position [i] of the series, [prev] being the close it starts from. *)
Definition return_at (pts : list (Z * F)) (prev : option F) (i : nat)
    (close : F) : option F :=
  match i with
  | O => prev ≫= (λ p, return_on p close)
  | S j => pts !! j ≫= (λ dc, return_on dc.2 close)
  end.

(** What the first loop makes of a well-formed candle. *)
Definition point_matches (doc : document F) (p : Z * F) : Prop :=
  ∃ t, doc !! "ts" = Some (VDate t) ∧ p.1 = datetime_date t
       ∧ doc !! "close" = Some (VFloat p.2).

End series_vocabulary.

Section sentiment_vocabulary.
Context {F : Type} `{!PyFloat F}.

(** The events of a ticker published within the day [d] that carry a
    score, in retrieval order. *)
Definition qualifying_events (news_coll : list (document F)) (ticker : string)
    (d : date) : list (document F) :=
  Mongo.find [("ticker", Mongo.CEq (VStr ticker));
              ("published_at", Mongo.CGte (datetime_at_midnight d));
              ("published_at", Mongo.CLt (datetime_at_midnight d + us_per_day));
              ("sentiment_score", Mongo.CNeNull)] news_coll.

(** A label as the sentiment worker stores it: absent, null, or a
    non-empty string. *)
Definition label_ok (field : option (value F)) : Prop :=
  field = None ∨ field = Some VNull ∨ ∃ s, field = Some (VStr s) ∧ s ≠ "".

(** A scored event: a float score and a label. *)
Definition event_ok (doc : document F) : Prop :=
  (∃ x, doc !! "sentiment_score" = Some (VFloat x))
  ∧ label_ok (doc !! "sentiment_label").

Definition event_score (doc : document F) : option F :=
  match doc !! "sentiment_score" with
  | Some (VFloat x) => Some x
  | _ => None
  end.

Definition event_label (doc : document F) : option string :=
  match doc !! "sentiment_label" with
  | Some (VStr s) => Some s
  | _ => None
  end.

(** How often a label occurs. *)
Definition occurrences (x : string) (labels : list string) : nat :=
  length (filter (x =.) labels).

(** [x] is the dominant label: no label occurs more often, and every
    label met before the first [x] occurs strictly less often. *)
Definition dominant_of (labels : list string) (x : string) : Prop :=
  ∃ l1 l2,
    labels = l1 ++ x :: l2
    ∧ (x ∉ l1)
    ∧ (∀ y, y ∈ labels → (occurrences y labels ≤ occurrences x labels)%nat)
    ∧ (∀ y, y ∈ l1 → (occurrences y labels < occurrences x labels)%nat).

(** The counter on string labels, for the proofs. *)
Definition label_item (sn : string * Z) : value F * Z := (VStr sn.1, sn.2).

Fixpoint tally_add (x : string) (c : list (string * Z)) : list (string * Z) :=
  match c with
  | [] => [(x, 1)]
  | (y, n) :: c' =>
      if bool_decide (y = x) then (y, n + 1) :: c' else (y, n) :: tally_add x c'
  end.

Definition tally (labels : list string) : list (string * Z) :=
  foldl (λ c x, tally_add x c) [] labels.

Fixpoint best_of (best : string * Z) (items : list (string * Z)) : string * Z :=
  match items with
  | [] => best
  | it :: rest => best_of (if bool_decide (best.2 < it.2) then it else best) rest
  end.

(** The projection of the query of the aggregator. *)
Definition projected (doc : document F) : document F :=
  Mongo.project ["sentiment_score"; "sentiment_label"] doc.


(** What the counter holds after the labels [pre]. *)
Record tally_inv (c : list (string * Z)) (pre : list string) : Prop := {
  tally_nodup : NoDup c.*1;
  tally_keys : ∀ s, s ∈ c.*1 ↔ s ∈ pre;
  tally_counts : ∀ s n, (s, n) ∈ c → n = Z.of_nat (occurrences s pre);
  tally_order :
    ∀ l1 x l2, pre = l1 ++ x :: l2 → x ∉ l1 →
      ∃ k1 k2, c.*1 = k1 ++ x :: k2 ∧ ∀ y, y ∈ l1 → y ∈ k1;
}.

End sentiment_vocabulary.

Section reader_vocabulary.
Context {F : Type} `{!PyFloat F} `{!PyText}.

(** The rows stored for a ticker. *)
Definition rows_of (ticker : string) (coll : list (document F)) : list (document F) :=
  Mongo.find [("ticker", Mongo.CEq (VStr ticker))] coll.

(** The calendar date of a row. *)
Definition row_date (doc : document F) : option date :=
  match doc !! "date" with
  | Some (VDate t) => Some (datetime_date t)
  | _ => None
  end.

(** A row carries a datetime in its [date] field. *)
Definition dated (doc : document F) : Prop :=
  ∃ t, doc !! "date" = Some (VDate t).

(** [latest] is the latest date stored among the rows. *)
Definition latest_date_of (rows : list (document F)) (latest : date) : Prop :=
  (∃ doc, doc ∈ rows ∧ row_date doc = Some latest)
  ∧ ∀ doc d, doc ∈ rows → row_date doc = Some d → d ≤ latest.

(** The row belongs to the ticker and its date is [start] or later. *)
Definition on_or_after (ticker : string) (start : date) (doc : document F) : bool :=
  match doc !! "ticker" with
  | Some (VStr s) => bool_decide (s = ticker)
  | _ => false
  end
  && match row_date doc with
     | Some d => bool_decide (start ≤ d)
     | None => false
     end.

(** Ascending order of dates. *)
Definition date_le (a b : document F) : Prop :=
  ∃ da db, row_date a = Some da ∧ row_date b = Some db ∧ da ≤ db.

(** The value stored under [field] is the value of the point under
    [key], whatever it is, null included. *)
Definition passes (doc pt : document F) (field key : string) : Prop :=
  ∀ v, doc !! field = Some v → pt !! key = Some v.

(** The point renders the row: its date as text and its stored values
    as they are. *)
Definition renders (doc pt : document F) : Prop :=
  (∃ d, row_date doc = Some d ∧ pt !! "date" = Some (VStr (strftime_ymd d)))
  ∧ passes doc pt "close_price" "close_price"
  ∧ passes doc pt "daily_return" "daily_return"
  ∧ passes doc pt "avg_sentiment_score" "avg_sentiment"
  ∧ passes doc pt "dominant_sentiment_label" "dominant_sentiment"
  ∧ passes doc pt "article_count" "article_count"
  ∧ passes doc pt "rolling_corr_7d" "rolling_corr_7d".

End reader_vocabulary.

Section correlation_vocabulary.
Context {F : Type} `{!PyFloat F}.

(** The entry [history] keeps of a row. *)
Definition entry_of (doc : document F) : DailyCorrelation.hist_entry F :=
  {| DailyCorrelation.h_date := dict_get doc "date";
     DailyCorrelation.ret := dict_get doc "daily_return";
     DailyCorrelation.sent := dict_get doc "avg_sentiment_score" |}.

(** The last [n] elements of a list. *)
Definition last_rows {A} (n : nat) (l : list A) : list A :=
  drop (length l - n) l.

(** The rows of the window when the pass visits position [i]: the last
    [min(i + 1, window)] rows of the sequence up to [i]. *)
Definition window_rows (window : Z) (docs : list (document F)) (i : nat)
    : list (document F) :=
  last_rows (Z.to_nat (Z.min (Z.of_nat i + 1) window)) (take (S i) docs).

(** A metric field holds a float or null, or is absent. *)
Definition metric_ok (field : option (value F)) : Prop :=
  field = None ∨ field = Some VNull ∨ ∃ x, field = Some (VFloat x).

Definition metrics_typed (doc : document F) : Prop :=
  metric_ok (doc !! "daily_return") ∧ metric_ok (doc !! "avg_sentiment_score").

(** The pair of a row whose return and sentiment are both non-null. *)
Definition valid_pair (doc : document F) : option (F * F) :=
  match doc !! "daily_return", doc !! "avg_sentiment_score" with
  | Some (VFloat x), Some (VFloat y) => Some (x, y)
  | _, _ => None
  end.

(** The pairs of floats as values. *)
Definition float_values (pairs : list (F * F)) : list (value F * value F) :=
  (λ xy, (VFloat xy.1, VFloat xy.2)) <$> pairs.

(** [Σ(x-x̄)(y-ȳ)] *)
Definition sum_products (pairs : list (F * F)) : F :=
  fsum ((λ xy, fmul (fsub xy.1 (mean pairs.*1)) (fsub xy.2 (mean pairs.*2)))
          <$> pairs).

(** The squares [(x-m)²] of a series, each taken with the power of the
    interpreter, which refuses a square out of the range of the
    floats. *)
Fixpoint squared_deviations (m : F) (xs : list F) : result (list F) :=
  match xs with
  | [] => Ok []
  | x :: rest =>
      match fpow (fsub x m) (float_of_int 2), squared_deviations m rest with
      | Ok square, Ok squares => Ok (square :: squares)
      | Raise e, _ => Raise e
      | Ok _, Raise e => Raise e
      end
  end.

(** [Σ(x-x̄)²] of a series *)
Definition sum_squares (xs : list F) : result F :=
  match squared_deviations (mean xs) xs with
  | Ok squares => Ok (fsum squares)
  | Raise e => Raise e
  end.

(** Pearson's coefficient as the specification writes it,
    [r = Σ(x-x̄)(y-ȳ) / sqrt(Σ(x-x̄)² · Σ(y-ȳ)²)]: the root is the power
    one half of the interpreter and the quotient is the quotient of
    the floats. *)
Definition pearson_r (pairs : list (F * F)) : result F :=
  match sum_squares pairs.*1, sum_squares pairs.*2 with
  | Ok sxx, Ok syy =>
      match fpow (fmul sxx syy) float_half with
      | Ok root => Ok (fdiv (sum_products pairs) root)
      | Raise e => Raise e
      end
  | Raise e, _ => Raise e
  | Ok _, Raise e => Raise e
  end.

(** The policy of the specification: null with fewer than two valid
    pairs or when either sum of squares is exactly zero, and the
    coefficient otherwise. *)
Definition pearson_or_null (pairs : list (F * F)) : result (option F) :=
  if bool_decide (length pairs < 2)%nat then Ok None
  else
    match sum_squares pairs.*1, sum_squares pairs.*2 with
    | Ok sxx, Ok syy =>
        if feq_zero sxx || feq_zero syy then Ok None
        else
          match pearson_r pairs with
          | Ok r => Ok (Some r)
          | Raise e => Raise e
          end
    | Raise e, _ => Raise e
    | Ok _, Raise e => Raise e
    end.

(** The correlation the pass computes at position [k] of the rows. *)
Definition corr_at (window : Z) (docs : list (document F)) (k : nat)
    : result (option F) :=
  DailyCorrelation.window_corr (entry_of <$> window_rows window docs k).

(** What the loop body does at position [k] before it writes: the
    object id it addresses and the correlation, or the exception. *)
Definition row_outcome (window : Z) (docs : list (document F)) (k : nat)
    : result (value F * option F) :=
  match docs !! k with
  | None => Raise (KeyError "row")
  | Some doc =>
      _ ← getitem doc "date";
      corr ← corr_at window docs k;
      oid ← getitem doc "_id";
      Ok (oid, corr)
  end.

(** No row from position [a] on, up to [b], raises. *)
Definition rows_fine (window : Z) (docs : list (document F)) (a b : nat) : bool :=
  forallb (λ j, negb (raised (row_outcome window docs j))) (seq a (S b - a)).

(** Every row carries an object id and no two rows share one. *)
Definition has_oid (doc : document F) : Prop :=
  ∃ i, doc !! "_id" = Some (VId i).

Definition store_ok (coll : list (document F)) : Prop :=
  Forall has_oid coll ∧ NoDup (Mongo.oid_of <$> coll).

(** The correlation the pass over [docs] writes on the row [d], with
    the position of the row: none when the row is not among [docs] or
    the loop stops before it has written the row. *)
Definition corr_target (window : Z) (docs : list (document F)) (from : nat)
    (d : document F) : option (nat * option F) :=
  match list_find (λ doc, Mongo.oid_of doc = Mongo.oid_of d) (drop from docs) with
  | Some (k, _) =>
      if rows_fine window docs from (from + k)
      then match corr_at window docs (from + k) with
           | Ok c => Some (k, c)
           | Raise _ => None
           end
      else None
  | None => None
  end.

(** The row after the pass. *)
Definition corr_written (window : Z) (docs : list (document F)) (from : nat)
    (clock : nat → datetime) (reads : nat) (d : document F) : document F :=
  match corr_target window docs from d with
  | Some (k, c) => DailyCorrelation.corr_fields c (clock (reads + k)%nat) ∪ d
  | None => d
  end.

(** The rewrite of a row by the [$set] of [fields]. *)
Definition set_on (i : N) (fields : document F) (d : document F) : document F :=
  if bool_decide (Mongo.oid_of d = i) then Mongo.set_fields fields d else d.


(** The world after the write of one row. *)
Definition after_write (w : world F) (oid : value F) (corr : option F) : world F :=
  {| news_events := news_events w;
     price_snapshots := price_snapshots w;
     daily_ticker_metrics :=
       Mongo.update_one [("_id", Mongo.CEq oid)]
         (DailyCorrelation.corr_fields corr (wall_clock w (clock_reads w)))
         false (daily_ticker_metrics w);
     wall_clock := wall_clock w;
     clock_reads := S (clock_reads w) |}.

End correlation_vocabulary.

Section rerun_vocabulary.
Context {F : Type} `{!PyFloat F}.

(** Two rows that hold the same value in every field outside [keys]. *)
Definition agree_off (keys : list string) (a b : document F) : Prop :=
  ∀ k, k ∉ keys → a !! k = b !! k.

(** The fields the correlation pass writes, and the fields it does not
    read. *)
Definition corr_keys : list string := ["rolling_corr_7d"; "corr_updated_at"].

Definition unread_keys : list string :=
  ["rolling_corr_7d"; "corr_updated_at"; "updated_at"].

(** No row of the rows from position [from] on raises. *)
Definition all_fine (window : Z) (docs : list (document F)) (from : nat) : bool :=
  forallb (λ j, negb (raised (row_outcome window docs j)))
    (seq from (length docs - from)).

(** Two rows before a run and after it: either the run has left both
    as they were, or it has written the same correlation on both. *)
Definition same_write (d d' e e' : document F) : Prop :=
  (e = d ∧ e' = d') ∨ e !! "rolling_corr_7d" = e' !! "rolling_corr_7d".


End rerun_vocabulary.

Section aggregation_vocabulary.
Context {F : Type} `{!PyFloat F}.

(** The event belongs to the ticker, is published on the calendar day
    [d] and carries a score. *)
Definition scored_on (ticker : string) (d : date) (doc : document F) : bool :=
  match doc !! "ticker" with
  | Some (VStr s) => bool_decide (s = ticker)
  | _ => false
  end
  && match doc !! "published_at" with
     | Some (VDate t) => bool_decide (datetime_date t = d)
     | _ => false
     end
  && match doc !! "sentiment_score" with
     | Some v => is_not_none v
     | None => false
     end.

(** The float close of a candle. *)
Definition candle_close (doc : document F) : option F :=
  match doc !! "close" with
  | Some (VFloat c) => Some c
  | _ => None
  end.

(** The return against the candle met just before the candle at
    position [i]; there is none at the first position. *)
Definition return_on_previous (rows : list (document F)) (i : nat) (close : F)
    : option F :=
  match i with
  | O => None
  | S k =>
      match rows !! k with
      | Some prev =>
          match candle_close prev with
          | Some p => return_on p close
          | None => None
          end
      | None => None
      end
  end.

(** The ticker has a candle dated [start] or later. *)
Definition has_recent_candle (prices_coll : list (document F)) (start : date)
    (ticker : string) : bool :=
  existsb (λ doc, match candle_date doc with
                  | Some d => bool_decide (start ≤ d)
                  | None => false
                  end)
    (candles ticker prices_coll).

End aggregation_vocabulary.

Section ingestion_vocabulary.
Context {F : Type} `{!PyFloat F}.

(** The key of the unique index of the price snapshots. *)
Definition key_of (doc : document F) : option (string * Z) :=
  match doc !! "ticker", doc !! "ts" with
  | Some (VStr s), Some (VDate t) => Some (s, t)
  | _, _ => None
  end.

(** A candle as [fetch_daily_prices_yf] builds it: a ticker, a
    timestamp, and no [_id] yet. *)
Definition new_candle (c : document F) : Prop :=
  is_Some (key_of c) ∧ c !! "_id" = None.

(** The document the upsert inserts for a candle. *)
Definition stored_candle (coll : list (document F)) (c : document F) : document F :=
  Mongo.set_fields c
    (<["_id" := VId (Mongo.fresh_oid coll)]>
       (Mongo.eq_fields [("ticker", Mongo.CEq (dict_get c "ticker"));
                         ("ts", Mongo.CEq (dict_get c "ts"))])).

(** The documents a batch of candles adds to a collection, in order. *)
Fixpoint added (coll candles : list (document F)) : list (document F) :=
  match candles with
  | [] => []
  | c :: rest =>
      if bool_decide (key_of c ∈ key_of <$> coll) then added coll rest
      else stored_candle coll c :: added (coll ++ [stored_candle coll c]) rest
  end.

Definition with_prices (w : world F) (coll : list (document F)) : world F :=
  {| news_events := news_events w;
     price_snapshots := coll;
     daily_ticker_metrics := daily_ticker_metrics w;
     wall_clock := wall_clock w;
     clock_reads := clock_reads w |}.

End ingestion_vocabulary.

Section worker_vocabulary.
Context {F : Type} `{!PyFloat F}.
Context (analyze_headline : string → string * F).

(** The documents the worker has still to score. *)
Definition unscored (coll : list (document F)) : list (document F) :=
  Mongo.find [("sentiment_score", Mongo.CEq VNull)] coll.

(** The document carries a score. *)
Definition has_score (doc : document F) : Prop :=
  ∃ v, doc !! "sentiment_score" = Some v ∧ v ≠ VNull.

(** The text the worker hands to the classifier: the headline, or the
    empty string when the document has none; a headline that is not a
    string makes the worker raise. *)
Definition headline_of (doc : document F) : option string :=
  match doc !! "headline" with
  | Some (VStr s) => Some s
  | None => Some EmptyString
  | Some _ => None
  end.

(** What the loop over [docs] makes of the stored document [d]: the
    document that [docs] lists at position [k] is scored at the
    [k]-th reading of the clock. *)
Definition scored_row (docs : list (document F)) (clock : nat → datetime)
    (reads : nat) (d : document F) : document F :=
  match list_find (λ doc, Mongo.oid_of doc = Mongo.oid_of d) docs with
  | Some (k, doc) =>
      match headline_of doc with
      | Some text =>
          SentimentWorker.score_fields (analyze_headline text).1
            (analyze_headline text).2 (clock (reads + k)%nat) ∪ d
      | None => d
      end
  | None => d
  end.

(** The number of documents a batch takes of those that wait: all of
    them with a batch size of [0]. *)
Definition batch_count (batch_size : Z) (waiting : nat) : nat :=
  if bool_decide (batch_size = 0) then waiting
  else (Z.to_nat (Z.abs batch_size) `min` waiting)%nat.

End worker_vocabulary.

Section news_vocabulary.
Context {F : Type} `{!PyFloat F}.
Context (fromtimestamp : value F → result datetime).

(** The item has a headline; the ingestor skips every other item. *)
Definition with_headline (item : document F) : bool :=
  DailyAggregator.truthy (dict_get item "headline").

(** The headline of the item, when it has one, is a string. *)
Definition text_item (item : document F) : Prop :=
  with_headline item = true → ∃ s : string, item !! "headline" = Some (VStr s).

(** The item, when it has a headline, carries a timestamp that the
    library converts. *)
Definition converts (item : document F) : Prop :=
  with_headline item = true →
  ∃ ts (t : Z), item !! "datetime" = Some ts ∧ fromtimestamp ts = Ok t.

(** The filter of the upsert: the key of the unique index of the news
    events. *)
Definition news_filter (ticker : string) (headline : value F) (published_at : datetime)
    : list (string * Mongo.cond (F:=F)) :=
  [("ticker", Mongo.CEq (VStr ticker));
   ("headline", Mongo.CEq headline);
   ("published_at", Mongo.CEq (VDate published_at))].

(** The item is stored for the ticker, its timestamp being converted
    to [t]. *)
Definition stored_item (ticker : string) (item : document F) (t : datetime)
    (coll : list (document F)) : bool :=
  existsb (Mongo.matches (news_filter ticker (dict_get item "headline") t)) coll.

(** The document the upsert inserts for an item. *)
Definition stored_news (ticker : string) (item : document F) (t now : datetime)
    (coll : list (document F)) : document F :=
  Mongo.set_fields
    (NewsIngestor.news_doc ticker (dict_get item "headline")
       (dict_get_or item "source" (VStr "unknown")) (dict_get item "url") t now)
    (<["_id" := VId (Mongo.fresh_oid coll)]>
       (Mongo.eq_fields (news_filter ticker (dict_get item "headline") t))).

(** The document [d] was made of the item for the ticker: it carries
    the headline, the converted timestamp, the url and the source of
    the item, and no sentiment yet. *)
Definition ingested (ticker : string) (item d : document F) : Prop :=
  with_headline item = true
  ∧ d !! "ticker" = Some (VStr ticker)
  ∧ d !! "headline" = item !! "headline"
  ∧ (∃ ts (t : Z), item !! "datetime" = Some ts ∧ fromtimestamp ts = Ok t
                   ∧ d !! "published_at" = Some (VDate t))
  ∧ d !! "url" = Some (dict_get item "url")
  ∧ d !! "source" = Some (dict_get_or item "source" (VStr "unknown"))
  ∧ d !! "sentiment_label" = Some VNull
  ∧ d !! "sentiment_score" = Some VNull.

End news_vocabulary.

(** * Tactics *)

(** Closed decidable statements are settled by evaluation. *)
Ltac by_evaluation := refine (bool_decide_unpack _ _); vm_compute; exact I.

(** Lookup of a field in a document written out field by field. *)
Ltac lookup_literal :=
  repeat first
    [ rewrite lookup_insert_eq
    | rewrite lookup_singleton_eq
    | rewrite lookup_insert_ne by discriminate
    | rewrite lookup_singleton_ne by discriminate ].

(** * Properties *)

(** ** The error monad *)
Lemma mapM_result_cons {A B} (f : A → result B) (x : A) (l : list A) :
  mapM f (x :: l) = y ← f x; k ← mapM f l; Ok (y :: k).
Proof. done. Qed.

Lemma result_bind_Ok {A B} (a : A) (f : A → result B) : (Ok a ≫= f) = f a.
Proof. done. Qed.

Lemma result_fmap_Ok {A B} (a : A) (f : A → B) : f <$> Ok a = Ok (f a).
Proof. done. Qed.

Lemma getitem_Some {F} (d : document F) (k : string) (v : value F) :
  d !! k = Some v → getitem d k = Ok v.
Proof. intros Hk. unfold getitem. by rewrite Hk. Qed.

Lemma getitem_None {F} (d : document F) (k : string) :
  d !! k = None → getitem d k = Raise (KeyError k).
Proof. intros Hk. unfold getitem. by rewrite Hk. Qed.

Lemma date_sub_days_in (d n : Z) :
  in_calendar (d - n) → date_sub_days d n = Ok (d - n).
Proof. intros Hin. unfold date_sub_days. by rewrite bool_decide_eq_true_2. Qed.

Lemma date_sub_days_out (d n : Z) :
  ¬ in_calendar (d - n) → date_sub_days d n = Raise OverflowError.
Proof. intros Hout. unfold date_sub_days. by rewrite bool_decide_eq_false_2. Qed.

(** ** The state monad *)
Section monad_facts.
Context {F : Type}.

Lemma keeps_daily_ret {A} (a : A) : keeps_daily (F:=F) (World.ret a).
Proof. by intros w. Qed.

Lemma keeps_daily_lift {A} (r : result A) : keeps_daily (F:=F) (lift r).
Proof. by intros w. Qed.

Lemma keeps_daily_read_clock : keeps_daily (@read_clock F).
Proof. by intros w. Qed.

Lemma keeps_daily_bind {A B} (m : M F A) (k : A → M F B) :
  keeps_daily m → (∀ a, keeps_daily (k a)) → keeps_daily (World.bind m k).
Proof.
  intros Hm Hk w. unfold World.bind.
  specialize (Hm w). destruct (m w) as [[a|e] w']; simpl in *.
  - by rewrite Hk.
  - done.
Qed.

Lemma keeps_daily_for_each {A} (xs : list A) (body : A → M F ()) :
  (∀ x, keeps_daily (body x)) → keeps_daily (for_each xs body).
Proof.
  intros Hbody. induction xs as [|x xs IH]; simpl.
  - apply keeps_daily_ret.
  - apply keeps_daily_bind; [apply Hbody | by intros _].
Qed.

Lemma keeps_daily_reader {A} (f : world F → result A) :
  keeps_daily (F:=F) (λ w, (f w, w)).
Proof. by intros w. Qed.







End monad_facts.

(** ** The upsert of [daily_aggregator.py] *)
Section upsert_facts.
Context {F : Type} `{!PyFloat F}.

Lemma UTC_unbound :
  load_name DailyAggregator.module_globals "UTC" = Raise (NameError "UTC").
Proof. by vm_compute. Qed.

Lemma aggregator_now_raises (w : world F) :
  datetime_now_UTC DailyAggregator.module_globals w = (Raise (NameError "UTC"), w).
Proof. by vm_compute. Qed.

Lemma upsert_raises (w : world F) ticker d close dret avg dom cnt :
  DailyAggregator.upsert_daily_metric ticker d close dret avg dom cnt w
  = (Raise (NameError "UTC"), w).
Proof.
  unfold DailyAggregator.upsert_daily_metric, World.bind.
  by rewrite aggregator_now_raises.
Qed.

Lemma upsert_keeps_daily ticker d close dret avg dom cnt :
  keeps_daily (F:=F)
    (DailyAggregator.upsert_daily_metric ticker d close dret avg dom cnt).
Proof. intros w. by rewrite upsert_raises. Qed.

Lemma aggregation_keeps_daily days_back :
  keeps_daily (F:=F) (DailyAggregator.run_daily_aggregation days_back).
Proof.
  unfold DailyAggregator.run_daily_aggregation, DailyAggregator.utcnow_date.
  apply keeps_daily_bind.
  { apply keeps_daily_bind; [apply keeps_daily_read_clock|].
    intros. apply keeps_daily_ret. }
  intros today. apply keeps_daily_bind; [apply keeps_daily_lift|].
  intros start_date. apply keeps_daily_for_each. intros ticker.
  apply keeps_daily_bind; [apply keeps_daily_reader|].
  intros series. case_bool_decide; [apply keeps_daily_ret|].
  apply keeps_daily_for_each. intros d.
  unfold DailyAggregator.aggregate_date.
  case_bool_decide; [apply keeps_daily_ret|].
  destruct (series !! d); [|apply keeps_daily_lift].
  apply keeps_daily_bind; [apply keeps_daily_reader|].
  intros [[avg dom] cnt]. apply upsert_keeps_daily.
Qed.


(** C1: every call of [upsert_daily_metric] raises [NameError] for
    [UTC], whatever its arguments and the state of the store, and
    changes nothing; hence [run_daily_aggregation] leaves the daily
    metrics as they were: it writes or overwrites no row. *)
Theorem upsert_daily_metric_raises_NameError :
  (∀ (w : world F) ticker d close dret avg dom cnt,
     DailyAggregator.upsert_daily_metric ticker d close dret avg dom cnt w
     = (Raise (NameError "UTC"), w))
  ∧ (∀ (w : world F) days_back,
       daily_ticker_metrics (DailyAggregator.run_daily_aggregation days_back w).2
       = daily_ticker_metrics w).
Proof.
  split.
  - intros. apply upsert_raises.
  - intros w days_back. apply aggregation_keeps_daily.
Qed.

End upsert_facts.

(** ** Pearson correlation of a window *)
Section pearson_facts.
Context {F : Type} `{!PyFloat F}.

Lemma float_truediv_int_pos (x : F) (n : nat) :
  (0 < n)%nat →
  float_truediv_int x (Z.of_nat n) = Ok (fdiv x (float_of_int (Z.of_nat n))).
Proof.
  intros Hn. unfold float_truediv_int.
  rewrite bool_decide_eq_false_2; [done | lia].
Qed.

Lemma pearson_corr_few (pairs : list (value F * value F)) :
  (length pairs < 2)%nat → DailyCorrelation.pearson_corr pairs = Ok None.
Proof.
  intros Hn. unfold DailyCorrelation.pearson_corr.
  rewrite bool_decide_eq_true_2; [done | lia].
Qed.











End pearson_facts.

(** ** Sorting *)
Section sort_facts.
Context {A : Type} (le : A → A → bool).

Lemma insert_sorted_perm (x : A) (l : list A) :
  Mongo.insert_sorted le x l ≡ₚ x :: l.
Proof.
  induction l as [|y l IH]; simpl; [done|].
  destruct (le x y); [done|].
  rewrite IH. apply Permutation_swap.
Qed.

Lemma sort_with_perm (l : list A) : Mongo.sort_with le l ≡ₚ l.
Proof.
  induction l as [|x l IH]; simpl; [done|].
  rewrite insert_sorted_perm. by rewrite IH.
Qed.

Lemma sort_with_elem_of (x : A) (l : list A) :
  x ∈ Mongo.sort_with le l ↔ x ∈ l.
Proof. by rewrite sort_with_perm. Qed.

Lemma sort_with_length (l : list A) : length (Mongo.sort_with le l) = length l.
Proof. by rewrite sort_with_perm. Qed.

Lemma sort_with_nil_inv (l : list A) : Mongo.sort_with le l = [] → l = [].
Proof.
  intros Hs. apply Permutation_nil_r. by rewrite <- Hs, sort_with_perm.
Qed.

Hypothesis le_total : ∀ x y, le x y = true ∨ le y x = true.
Hypothesis le_trans : ∀ x y z, le x y = true → le y z = true → le x z = true.

Lemma insert_sorted_sorted (x : A) (l : list A) :
  StronglySorted (λ a b, le a b = true) l →
  StronglySorted (λ a b, le a b = true) (Mongo.insert_sorted le x l).
Proof.
  induction 1 as [|y l Hl IH Hy]; simpl.
  - repeat constructor.
  - destruct (le x y) eqn:Hxy.
    + constructor; [by constructor|].
      constructor; [done|].
      eapply Forall_impl; [exact Hy|]. intros z Hz. by eapply le_trans.
    + constructor; [done|].
      rewrite insert_sorted_perm. constructor; [|done].
      destruct (le_total x y); congruence.
Qed.

Lemma sort_with_sorted (l : list A) :
  StronglySorted (λ a b, le a b = true) (Mongo.sort_with le l).
Proof.
  induction l as [|x l IH]; simpl; [constructor|].
  by apply insert_sorted_sorted.
Qed.

(** The head of a sorted list is below every element. *)
Lemma sort_with_head (l : list A) (x : A) :
  head (Mongo.sort_with le l) = Some x →
  x ∈ l ∧ ∀ y, y ∈ l → le x y = true.
Proof.
  intros Hhead. pose proof (sort_with_sorted l) as Hs.
  destruct (Mongo.sort_with le l) as [|x' s] eqn:Heq; [done|].
  simplify_eq/=. split.
  - apply sort_with_elem_of. rewrite Heq. left.
  - intros y Hy. apply sort_with_elem_of in Hy. rewrite Heq in Hy.
    apply StronglySorted_inv in Hs as [_ Hall].
    apply elem_of_cons in Hy as [->|Hy].
    + destruct (le_total x x); done.
    + rewrite Forall_forall in Hall. by apply Hall.
Qed.

End sort_facts.

(** Sorting related lists by keys that agree keeps them related. *)
Section sort_related.
Context {A B : Type} (R : A → B → Prop).
Context (leA : A → A → bool) (leB : B → B → bool).
Hypothesis le_agree :
  ∀ x x' y y', R x x' → R y y' → leA x y = leB x' y'.

Lemma insert_sorted_related x x' l l' :
  R x x' → Forall2 R l l' →
  Forall2 R (Mongo.insert_sorted leA x l) (Mongo.insert_sorted leB x' l').
Proof.
  intros Hx Hl. induction Hl as [|y y' l l' Hy Hl IH]; simpl.
  - by repeat constructor.
  - rewrite <- (le_agree x x' y y') by done.
    destruct (leA x y); by repeat constructor.
Qed.

Lemma sort_with_related l l' :
  Forall2 R l l' →
  Forall2 R (Mongo.sort_with leA l) (Mongo.sort_with leB l').
Proof.
  induction 1; simpl; [constructor|]. by apply insert_sorted_related.
Qed.

End sort_related.

Lemma key_le_total (a b : option Z) :
  Mongo.key_le a b = true ∨ Mongo.key_le b a = true.
Proof.
  destruct a as [x|], b as [y|]; simpl; auto.
  destruct (decide (x ≤ y)).
  - left. by apply bool_decide_eq_true_2.
  - right. apply bool_decide_eq_true_2. lia.
Qed.

Lemma key_le_trans (a b c : option Z) :
  Mongo.key_le a b = true → Mongo.key_le b c = true → Mongo.key_le a c = true.
Proof.
  destruct a as [x|], b as [y|], c as [z|]; simpl; try done.
  rewrite !bool_decide_eq_true. lia.
Qed.

(** ** The timeseries endpoint *)
Section endpoint_facts.
Context {F : Type} `{!PyFloat F} `{!PyText}.

Lemma latest_date_no_rows (coll : list (document F)) (ticker : string) :
  Mongo.find [("ticker", Mongo.CEq (VStr ticker))] coll = [] →
  TimeseriesBuilder.get_latest_date_for_ticker coll ticker = Ok None.
Proof.
  intros Hnone. unfold TimeseriesBuilder.get_latest_date_for_ticker.
  by rewrite Hnone.
Qed.

Lemma timeseries_no_rows (w : world F) (ticker : string) (days_back : Z) :
  Mongo.find [("ticker", Mongo.CEq (VStr ticker))] (daily_ticker_metrics w) = [] →
  TimeseriesBuilder.build_ticker_timeseries ticker days_back w
  = (Ok {| TimeseriesBuilder.ticker := ticker;
           TimeseriesBuilder.from_date := None;
           TimeseriesBuilder.to_date := None;
           TimeseriesBuilder.points := [] |}, w).
Proof.
  intros Hnone.
  unfold TimeseriesBuilder.build_ticker_timeseries, World.bind, get_daily, lift.
  by rewrite latest_date_no_rows.
Qed.

Lemma details_differ (t t' : string) :
  "Ticker " +:+ t +:+ " is not supported"
  ≠ "No daily metrics found for ticker " +:+ t'.
Proof. simpl. discriminate. Qed.

(** C10, amended: for [days] within the bounds the endpoint declares
    (1 to 90), the endpoint answers an unsupported ticker with the
    error 404 "Ticker X is not supported" and a supported ticker that
    has no row with the error 404 "No daily metrics found for ticker
    X".  Both carry the status code 404; the two outcomes differ in
    the detail message only, and neither is a result with empty
    points. *)
Theorem endpoint_errors_differ_in_detail
    (w : world F) (ticker : string) (days : Z) :
  let t := str_upper ticker in
  1 ≤ days ≤ 90 →
  (t ∉ Api.TICKERS →
   Api.get_ticker_timeseries ticker days w
   = (Raise (HTTPException 404 ("Ticker " +:+ t +:+ " is not supported")), w))
  ∧ (t ∈ Api.TICKERS →
     Mongo.find [("ticker", Mongo.CEq (VStr t))] (daily_ticker_metrics w) = [] →
     Api.get_ticker_timeseries ticker days w
     = (Raise (HTTPException 404 ("No daily metrics found for ticker " +:+ t)), w))
  ∧ (∀ t', "Ticker " +:+ t +:+ " is not supported"
           ≠ "No daily metrics found for ticker " +:+ t').
Proof.
  intros t Hdays. split; [|split].
  - intros Hout. unfold Api.get_ticker_timeseries. fold t.
    by rewrite bool_decide_eq_true_2.
  - intros Hin Hnone. unfold Api.get_ticker_timeseries. fold t.
    rewrite bool_decide_eq_false_2 by (by intros ?).
    unfold World.bind. by rewrite timeseries_no_rows.
  - intros t'. apply details_differ.
Qed.

End endpoint_facts.


(** ** The daily series *)
Section series_facts.
Context {F : Type} `{!PyFloat F}.

Implicit Types pts : list (Z * F).

Lemma returns_loop_notin pts prev m d :
  d ∉ pts.*1 → DailyAggregator.returns_loop pts prev m !! d = m !! d.
Proof.
  revert prev m. induction pts as [|[d0 c0] pts IH]; intros prev m Hd; [done|].
  simpl in *. apply not_elem_of_cons in Hd as [Hne Hd].
  rewrite IH by done. by rewrite lookup_insert_ne.
Qed.

Lemma returns_loop_lookup pts prev m i d c :
  NoDup pts.*1 → pts !! i = Some (d, c) →
  DailyAggregator.returns_loop pts prev m !! d
  = Some {| DailyAggregator.close_price := c;
            DailyAggregator.daily_return := return_at pts prev i c |}.
Proof.
  revert prev m i. induction pts as [|[d0 c0] pts IH]; intros prev m i Hnd Hi; [done|].
  simpl in Hnd. apply NoDup_cons in Hnd as [Hd0 Hnd].
  destruct i as [|i]; simpl in *.
  - simplify_eq. rewrite returns_loop_notin by done.
    rewrite lookup_insert_eq. f_equal. f_equal.
    unfold return_on. destruct prev as [p|]; simpl; [|done].
    by destruct (feq_zero p).
  - rewrite (IH _ _ i) by done. f_equal. f_equal.
    destruct i as [|i]; simpl; [done|]. done.
Qed.

Lemma returns_loop_dom pts prev d :
  is_Some (DailyAggregator.returns_loop pts prev ∅ !! d) → d ∈ pts.*1.
Proof.
  intros Hsome. destruct (decide (d ∈ pts.*1)) as [|Hnot]; [done|].
  rewrite returns_loop_notin in Hsome by done.
  rewrite lookup_empty in Hsome. by destruct Hsome.
Qed.

Lemma sorted_lt_lookup (l : list Z) i j a b :
  StronglySorted Z.lt l → l !! i = Some a → l !! j = Some b →
  (i < j)%nat → a < b.
Proof.
  intros Hs. revert i j. induction Hs as [|x l Hs IH Hx]; intros i j Hi Hj Hij; [done|].
  destruct i as [|i], j as [|j]; simpl in *; try lia.
  - simplify_eq. rewrite Forall_forall in Hx. apply Hx.
    by eapply list_elem_of_lookup_2.
  - eapply IH; [done..|lia].
Qed.

Lemma sorted_lt_lookup_inv (l : list Z) i j a b :
  StronglySorted Z.lt l → l !! i = Some a → l !! j = Some b →
  a < b → (i < j)%nat.
Proof.
  intros Hs Hi Hj Hab.
  destruct (decide (i < j)%nat) as [|Hge]; [done|].
  destruct (decide (i = j)) as [->|Hne]; [simplify_eq; lia|].
  pose proof (sorted_lt_lookup l j i b a Hs Hj Hi). lia.
Qed.

(** On strictly increasing dates the second loop obeys the law. *)
Lemma returns_loop_law pts :
  StronglySorted Z.lt pts.*1 →
  daily_return_law (DailyAggregator.returns_loop pts None ∅).
Proof.
  intros Hs.
  assert (NoDup pts.*1) as Hnd.
  { clear -Hs. induction Hs as [|x l Hs IH Hx]; constructor; [|done].
    intros Hin. rewrite Forall_forall in Hx. specialize (Hx _ Hin). lia. }
  assert (∀ d, is_Some (DailyAggregator.returns_loop pts None ∅ !! d) →
               ∃ i c, pts !! i = Some (d, c)) as Hidx.
  { intros d Hd. apply returns_loop_dom in Hd.
    apply list_elem_of_fmap in Hd as ([d' c] & -> & Hin).
    apply list_elem_of_lookup in Hin as [i Hi]. eauto. }
  assert (∀ i d c, pts !! i = Some (d, c) → pts.*1 !! i = Some d) as Hfst.
  { intros i d c Hi. by rewrite list_lookup_fmap, Hi. }
  split.
  - intros d info Hd [_ Hmin].
    destruct (Hidx d) as (i & c & Hi); [by eexists|].
    rewrite (returns_loop_lookup _ _ _ i d c) in Hd by done. simplify_eq/=.
    destruct i as [|i]; [done|]. exfalso.
    destruct (pts !! 0%nat) as [[d0 c0]|] eqn:H0;
      [|apply lookup_ge_None in H0; apply lookup_lt_Some in Hi; lia].
    assert (d0 < d) by (eapply (sorted_lt_lookup _ 0 (S i)); eauto; lia).
    assert (d ≤ d0); [|lia].
    apply Hmin. erewrite returns_loop_lookup; eauto.
  - intros d' d prev info Hd' Hd (_ & Hlt & Hmax).
    destruct (Hidx d) as (i & c & Hi); [by eexists|].
    destruct (Hidx d') as (j & c' & Hj); [by eexists|].
    rewrite (returns_loop_lookup _ _ _ i d c) in Hd by done.
    rewrite (returns_loop_lookup _ _ _ j d' c') in Hd' by done.
    simplify_eq/=.
    assert (j < i)%nat as Hji by (eapply sorted_lt_lookup_inv; eauto).
    destruct i as [|i]; [lia|]. simpl.
    destruct (pts !! i) as [[e ce]|] eqn:He;
      [|apply lookup_ge_None in He; apply lookup_lt_Some in Hi; lia].
    simpl. assert (e ≤ d').
    { apply Hmax; [erewrite returns_loop_lookup; eauto|].
      eapply (sorted_lt_lookup _ i (S i)); eauto. }
    destruct (decide (j = i)) as [->|Hne]; [by simplify_eq|].
    assert (d' < e); [|lia].
    eapply (sorted_lt_lookup _ j i); eauto. lia.
Qed.

End series_facts.

Section series_of_candles.
Context {F : Type} `{!PyFloat F}.

Lemma candle_point_ok (doc : document F) t c :
  doc !! "ts" = Some (VDate t) → doc !! "close" = Some (VFloat c) →
  DailyAggregator.candle_point doc = Ok (datetime_date t, c).
Proof.
  intros Hts Hclose. unfold DailyAggregator.candle_point, getitem.
  by rewrite Hts, Hclose.
Qed.

Lemma candle_points (rows : list (document F)) :
  Forall candle_ok rows →
  ∃ pts, mapM DailyAggregator.candle_point rows = Ok pts
         ∧ Forall2 point_matches rows pts.
Proof.
  induction 1 as [|doc rows (t & c & Hts & Hclose) _ (pts & Hpts & Hall)].
  - by exists [].
  - exists ((datetime_date t, c) :: pts). split.
    + simpl. rewrite (candle_point_ok doc t c), Hpts; done.
    + constructor; [|done]. by exists t.
Qed.

Lemma sorted_transport {A B} (R : A → A → Prop) (R' : B → B → Prop)
    (Q : A → B → Prop) (l : list A) (l' : list B) :
  (∀ x y x' y', R x y → Q x x' → Q y y' → R' x' y') →
  Forall2 Q l l' → StronglySorted R l → StronglySorted R' l'.
Proof.
  intros HR HQ. induction HQ as [|x x' l l' Hx HQ IH]; intros Hs; [constructor|].
  apply StronglySorted_inv in Hs as [Hs Hall]. constructor; [by apply IH|].
  clear IH Hs. induction HQ as [|y y' l l' Hy HQ IH]; [constructor|].
  apply Forall_cons in Hall as [Hxy Hall]. constructor; [by eapply HR|by apply IH].
Qed.

Lemma sorted_le_NoDup_lt (l : list Z) :
  StronglySorted Z.le l → NoDup l → StronglySorted Z.lt l.
Proof.
  induction 1 as [|x l Hs IH Hx]; intros Hnd; [constructor|].
  apply NoDup_cons in Hnd as [Hx' Hnd]. constructor; [by apply IH|].
  rewrite Forall_forall in Hx |- *. intros y Hy.
  specialize (Hx y Hy). assert (x ≠ y) by (by intros ->). lia.
Qed.

Lemma datetime_date_mono (t u : Z) : t ≤ u → datetime_date t ≤ datetime_date u.
Proof. intros. unfold datetime_date. by apply Z.div_le_mono. Qed.

Lemma candle_dates_of_points (rows : list (document F)) (pts : list (Z * F)) :
  Forall2 point_matches rows pts → candle_date <$> rows = Some <$> pts.*1.
Proof.
  induction 1 as [|doc p rows pts (t & Hts & Hd & _) _ IH]; [done|].
  simpl. unfold candle_date at 1. rewrite Hts, Hd. by f_equal.
Qed.

Lemma candle_points_sorted (rows : list (document F)) (pts : list (Z * F)) :
  StronglySorted
    (λ a b, Mongo.key_le (Mongo.sort_key "ts" a) (Mongo.sort_key "ts" b) = true)
    rows →
  Forall2 point_matches rows pts →
  StronglySorted Z.le pts.*1.
Proof.
  intros Hs Hall.
  eapply (sorted_transport _ _ (λ doc d, ∃ p, point_matches doc p ∧ d = p.1));
    [| |exact Hs].
  - intros a b d e Hle (p & (t & Hts & Hp & _) & ->) (q & (u & Hus & Hq & _) & ->).
    unfold Mongo.sort_key in Hle. rewrite Hts, Hus in Hle. simpl in Hle.
    apply bool_decide_eq_true in Hle. rewrite Hp, Hq.
    by apply datetime_date_mono.
  - clear Hs. induction Hall; simpl; constructor; eauto.
Qed.

(** C5, amended: when the candles of a ticker, taken in ascending
    timestamp order, fall on pairwise distinct calendar dates, the
    series has an entry for every candle at its date with its close,
    [daily_return] is null at the first date and, at every later date,
    it is [(close - prev_close) / prev_close] on the close of the date
    immediately before in the series, null when that close is zero. *)
Theorem daily_return_law_on_distinct_dates
    (prices_coll : list (document F)) (ticker : string) :
  Forall candle_ok (candles ticker prices_coll) →
  NoDup (candle_date <$> candles ticker prices_coll) →
  ∃ series,
    DailyAggregator.build_price_series prices_coll ticker = Ok series
    ∧ covers_candles (candles ticker prices_coll) series
    ∧ daily_return_law series.
Proof.
  intros Hok Hnd. unfold DailyAggregator.build_price_series.
  fold (candles ticker prices_coll).
  destruct (candle_points _ Hok) as (pts & Hpts & Hall).
  assert (StronglySorted Z.lt pts.*1) as Hlt.
  { apply sorted_le_NoDup_lt.
    - eapply candle_points_sorted; [|done].
      apply sort_with_sorted.
      + intros a b. apply key_le_total.
      + intros a b c. apply key_le_trans.
    - rewrite (candle_dates_of_points _ _ Hall) in Hnd.
      by apply (NoDup_fmap_1 Some). }
  exists (DailyAggregator.returns_loop pts None ∅).
  split; [|split].
  - destruct (candles ticker prices_coll) as [|doc rows] eqn:Hrows.
    + apply Forall2_nil_inv_l in Hall as ->. done.
    + rewrite Hpts. done.
  - intros doc t c Hin Hts Hclose.
    apply list_elem_of_lookup in Hin as [i Hi].
    destruct (Forall2_lookup_l _ _ _ _ _ Hall Hi) as ([d c'] & Hp & (t' & Hts' & Hd & Hc)).
    simpl in *. simplify_eq.
    assert (NoDup pts.*1) as Hnd'.
    { clear -Hlt. induction Hlt as [|x l Hs IH Hx]; constructor; [|done].
      intros Hin. rewrite Forall_forall in Hx. specialize (Hx _ Hin). lia. }
    erewrite (returns_loop_lookup pts None ∅ i) by done.
    by eexists.
  - by apply returns_loop_law.
Qed.

End series_of_candles.


(** ** Counting labels *)
Section tally_facts.

Implicit Types c : list (string * Z).
Implicit Types labels pre : list string.

Lemma occurrences_snoc x pre z :
  occurrences x (pre ++ [z])
  = (occurrences x pre + if bool_decide (x = z) then 1 else 0)%nat.
Proof.
  unfold occurrences. rewrite filter_app, length_app. f_equal.
  rewrite filter_cons. case_bool_decide; case_decide; simpl; done.
Qed.

Lemma occurrences_pos x labels : x ∈ labels → (0 < occurrences x labels)%nat.
Proof.
  intros Hin. unfold occurrences.
  assert (x ∈ filter (x =.) labels) as Hf by (by apply list_elem_of_filter).
  destruct (filter (x =.) labels); [by apply elem_of_nil in Hf | simpl; lia].
Qed.

Lemma tally_add_fresh x c : x ∉ c.*1 → tally_add x c = c ++ [(x, 1)].
Proof.
  induction c as [|[y n] c IH]; intros Hx; simpl in *; [done|].
  apply not_elem_of_cons in Hx as [Hne Hx].
  rewrite bool_decide_eq_false_2 by done. by rewrite IH.
Qed.

Lemma tally_add_keys x c : x ∈ c.*1 → (tally_add x c).*1 = c.*1.
Proof.
  induction c as [|[y n] c IH]; intros Hx; simpl in *; [by apply elem_of_nil in Hx|].
  case_bool_decide as Hy; simpl; [done|].
  apply elem_of_cons in Hx as [->|Hx]; [done|]. f_equal. by apply IH.
Qed.

Lemma tally_add_elem_of x c s n :
  NoDup c.*1 →
  (s, n) ∈ tally_add x c ↔
    (s ≠ x ∧ (s, n) ∈ c)
    ∨ (s = x ∧ (((x ∉ c.*1) ∧ n = 1) ∨ ∃ m, (x, m) ∈ c ∧ n = m + 1)).
Proof.
  induction c as [|[y k] c IH]; intros Hnd; simpl in *.
  - set_unfold. naive_solver.
  - apply NoDup_cons in Hnd as [Hy Hnd]. specialize (IH Hnd).
    case_bool_decide as Hyx; [subst y|]; set_unfold.
    + assert (∀ m, (x, m) ∈ c → False) as Hno.
      { intros m Hm. apply Hy. by exists (x, m). }
      destruct (decide (s = x)) as [->|Hsx]; naive_solver.
    + destruct (decide (s = x)) as [->|Hsx]; naive_solver.
Qed.

Lemma tally_inv_nil : tally_inv [] [].
Proof.
  split; simpl.
  - constructor.
  - done.
  - intros s n Hin. by apply elem_of_nil in Hin.
  - intros l1 x l2 Heq. by destruct l1.
Qed.

Lemma snoc_split {A} (pre l1 l2 : list A) (z x : A) :
  pre ++ [z] = l1 ++ x :: l2 →
  (l2 = [] ∧ l1 = pre ∧ x = z) ∨ (∃ l2', l2 = l2' ++ [z] ∧ pre = l1 ++ x :: l2').
Proof.
  intros Heq. destruct (decide (l2 = [])) as [->|Hne].
  - left. apply app_inj_tail in Heq as [-> ->]. done.
  - right. destruct (exists_last Hne) as (l2' & z' & ->).
    rewrite app_comm_cons, app_assoc in Heq.
    apply app_inj_tail in Heq as [-> ->]. by exists l2'.
Qed.

Lemma tally_inv_step c pre z :
  tally_inv c pre → tally_inv (tally_add z c) (pre ++ [z]).
Proof.
  intros [Hnd Hkeys Hcounts Horder].
  destruct (decide (z ∈ c.*1)) as [Hin|Hnot].
  - assert ((tally_add z c).*1 = c.*1) as Hk by (by apply tally_add_keys).
    split.
    + by rewrite Hk.
    + intros s. rewrite Hk, Hkeys, elem_of_app, list_elem_of_singleton.
      split; [auto|]. intros [? | ->]; [done|]. by apply Hkeys.
    + intros s n Hs. apply tally_add_elem_of in Hs; [|done].
      rewrite occurrences_snoc.
      destruct Hs as [[Hne Hs]|[-> [[? _]|(m & Hm & ->)]]]; [| done |].
      * rewrite bool_decide_eq_false_2 by done. rewrite (Hcounts _ _ Hs). lia.
      * rewrite bool_decide_eq_true_2 by done. rewrite (Hcounts _ _ Hm). lia.
    + intros l1 x l2 Heq Hx. rewrite Hk.
      apply snoc_split in Heq as [(-> & -> & ->)|(l2' & -> & ->)].
      * exfalso. apply Hx. by apply Hkeys.
      * by apply (Horder l1 x l2').
  - rewrite tally_add_fresh by done. split.
    + rewrite fmap_app. simpl. apply NoDup_app. split; [done|].
      split; [|apply NoDup_singleton].
      intros s Hs Hz%list_elem_of_singleton. by subst.
    + intros s. rewrite fmap_app, !elem_of_app, Hkeys. simpl. done.
    + intros s n. rewrite elem_of_app, list_elem_of_singleton, occurrences_snoc.
      intros [Hs|[= -> ->]].
      * rewrite bool_decide_eq_false_2.
        -- rewrite (Hcounts _ _ Hs). lia.
        -- intros ->. apply Hnot. apply list_elem_of_fmap. by exists (z, n).
      * rewrite bool_decide_eq_true_2 by done.
        assert (occurrences z pre = 0%nat) as ->; [|done].
        destruct (occurrences z pre) eqn:Hocc; [done|]. exfalso.
        apply Hnot, Hkeys. unfold occurrences in Hocc.
        destruct (filter (z =.) pre) as [|y l] eqn:Hf; [done|].
        assert (y ∈ filter (z =.) pre) as Hy by (rewrite Hf; left).
        apply list_elem_of_filter in Hy as [<- Hy]. done.
    + intros l1 x l2 Heq Hx. rewrite fmap_app. simpl.
      apply snoc_split in Heq as [(-> & -> & ->)|(l2' & -> & ->)].
      * exists c.*1, []. split; [done|]. intros y Hy. by apply Hkeys.
      * destruct (Horder l1 x l2' eq_refl Hx) as (k1 & k2 & Hc & Hsub).
        exists k1, (k2 ++ [z]). split; [|done].
        rewrite Hc. by rewrite <- app_assoc.
Qed.

Lemma tally_inv_foldl c pre labels :
  tally_inv c pre →
  tally_inv (foldl (λ c x, tally_add x c) c labels) (pre ++ labels).
Proof.
  revert c pre. induction labels as [|z labels IH]; intros c pre Hinv; simpl.
  - by rewrite app_nil_r.
  - rewrite cons_middle, app_assoc. apply IH. by apply tally_inv_step.
Qed.

Lemma tally_spec labels : tally_inv (tally labels) labels.
Proof. apply (tally_inv_foldl [] [] labels), tally_inv_nil. Qed.

(** The best item is the first one of maximal count. *)
Lemma best_of_split front behind best items :
  (∀ it, it ∈ front → it.2 < best.2) →
  (∀ it, it ∈ behind → it.2 ≤ best.2) →
  ∃ k1 k2,
    front ++ best :: behind ++ items = k1 ++ best_of best items :: k2
    ∧ (∀ it, it ∈ k1 → it.2 < (best_of best items).2)
    ∧ (∀ it, it ∈ k2 → it.2 ≤ (best_of best items).2).
Proof.
  revert front behind best. induction items as [|it items IH]; intros front behind best Hfront Hbehind.
  - exists front, behind. by rewrite app_nil_r.
  - simpl. case_bool_decide as Hlt.
    + destruct (IH (front ++ best :: behind) [] it) as (k1 & k2 & Heq & H1 & H2).
      * intros it' [Hin|[->|Hin]%elem_of_cons]%elem_of_app.
        -- specialize (Hfront _ Hin). lia.
        -- lia.
        -- specialize (Hbehind _ Hin). lia.
      * intros it' Hin. by apply elem_of_nil in Hin.
      * exists k1, k2. split; [|done]. rewrite <- Heq. by rewrite <- app_assoc.
    + destruct (IH front (behind ++ [it]) best) as (k1 & k2 & Heq & H1 & H2).
      * done.
      * intros it' [Hin|Hit%list_elem_of_singleton]%elem_of_app;
          [by apply Hbehind|subst; lia].
      * exists k1, k2. split; [|done]. rewrite <- Heq. by rewrite <- app_assoc.
Qed.

Lemma NoDup_split_unique {A} (k1 k2 k1' k2' : list A) (x : A) :
  NoDup (k1 ++ x :: k2) → k1 ++ x :: k2 = k1' ++ x :: k2' → k1 = k1'.
Proof.
  revert k1'. induction k1 as [|a k1 IH]; intros k1' Hnd Heq.
  - destruct k1' as [|b k1']; [done|]. simpl in *. simplify_eq.
    apply NoDup_cons in Hnd as [Hx _]. exfalso. apply Hx.
    rewrite elem_of_app, elem_of_cons. auto.
  - destruct k1' as [|b k1']; simpl in *; simplify_eq.
    + apply NoDup_cons in Hnd as [Hx _]. exfalso. apply Hx.
      rewrite elem_of_app, elem_of_cons. auto.
    + f_equal. apply NoDup_cons in Hnd as [_ Hnd]. by apply IH.
Qed.

(** The most common label of a non-empty list is its dominant label. *)
Lemma best_of_tally_dominant labels b items :
  tally labels = b :: items →
  dominant_of labels (best_of b items).1
  ∧ (best_of b items).2 = Z.of_nat (occurrences (best_of b items).1 labels).
Proof.
  intros Htally. pose proof (tally_spec labels) as [Hnd Hkeys Hcounts Horder].
  destruct (best_of_split [] [] b items) as (k1 & k2 & Heq & H1 & H2).
  { intros it Hin. by apply elem_of_nil in Hin. }
  { intros it Hin. by apply elem_of_nil in Hin. }
  change ([] ++ b :: [] ++ items) with (b :: items) in Heq.
  rewrite <- Htally in Heq. clear Htally.
  destruct (best_of b items) as [x n]. cbn [fst snd] in *.
  assert ((x, n) ∈ tally labels) as Hxin.
  { rewrite Heq, elem_of_app, elem_of_cons. auto. }
  assert (n = Z.of_nat (occurrences x labels)) as Hn by (by apply Hcounts).
  split; [|done].
  assert (x ∈ labels) as Hx.
  { apply Hkeys. apply list_elem_of_fmap. by exists (x, n). }
  apply list_elem_of_split_l in Hx as (l1 & l2 & Hl & Hxl1).
  exists l1, l2. split; [done|]. split; [done|].
  split.
  - intros y Hy. apply Hkeys in Hy.
    apply list_elem_of_fmap in Hy as ([y' m] & -> & Hym). cbn [fst].
    pose proof (Hcounts _ _ Hym) as Hm. rewrite Heq in Hym.
    apply elem_of_app in Hym as [Hym|[Hym|Hym]%elem_of_cons].
    + specialize (H1 _ Hym). cbn [snd] in H1. lia.
    + by simplify_eq.
    + specialize (H2 _ Hym). cbn [snd] in H2. lia.
  - intros y Hy.
    destruct (Horder l1 x l2 Hl Hxl1) as (k1' & k2' & Hks & Hsub).
    assert (k1.*1 = k1') as <-.
    { eapply (NoDup_split_unique _ k2.*1 _ k2' x).
      - rewrite Heq, fmap_app in Hnd. done.
      - rewrite <- Hks, Heq, fmap_app. done. }
    apply Hsub in Hy. apply list_elem_of_fmap in Hy as ([y' m] & -> & Hym).
    cbn [fst].
    assert ((y', m) ∈ tally labels) as Hin.
    { rewrite Heq, elem_of_app. auto. }
    pose proof (Hcounts _ _ Hin) as Hm. specialize (H1 _ Hym). cbn [snd] in H1. lia.
Qed.

End tally_facts.

(** ** The sentiment of a day *)
Section sentiment_facts.
Context {F : Type} `{!PyFloat F}.

Lemma counter_add_str (x : string) (c : list (string * Z)) :
  DailyAggregator.counter_add (VStr x) (label_item (F:=F) <$> c)
  = label_item <$> tally_add x c.
Proof.
  induction c as [|[y n] c IH]; [done|].
  rewrite fmap_cons. cbn [DailyAggregator.counter_add tally_add label_item fst snd].
  change (DailyAggregator.py_eqb (VStr y) (VStr x)) with (bool_decide (y = x)).
  case_bool_decide; [done|]. rewrite IH. by rewrite fmap_cons.
Qed.

Lemma Counter_str_from (c : list (string * Z)) (labels : list string) :
  foldl (λ c x, DailyAggregator.counter_add x c) (label_item (F:=F) <$> c)
    (VStr <$> labels)
  = label_item <$> foldl (λ c x, tally_add x c) c labels.
Proof.
  revert c. induction labels as [|x labels IH]; intros c; [done|].
  rewrite fmap_cons. cbn [foldl]. rewrite counter_add_str. apply IH.
Qed.

Lemma Counter_str (labels : list string) :
  DailyAggregator.Counter (VStr (F:=F) <$> labels) = label_item <$> tally labels.
Proof. apply (Counter_str_from []). Qed.

Lemma max_by_count_str (b : string * Z) (items : list (string * Z)) :
  DailyAggregator.max_by_count (label_item (F:=F) b) (label_item <$> items)
  = label_item (best_of b items).
Proof.
  revert b. induction items as [|it items IH]; intros b; simpl; [done|].
  rewrite <- IH. by case_bool_decide.
Qed.

Lemma project_lookup (keys : list string) (d : document F) (k : string) :
  k ∈ "_id" :: keys → Mongo.project keys d !! k = d !! k.
Proof.
  intros Hk. unfold Mongo.project. apply option_eq. intros v.
  rewrite map_lookup_filter_Some. naive_solver.
Qed.

Lemma projected_score (doc : document F) :
  projected doc !! "sentiment_score" = doc !! "sentiment_score".
Proof. apply project_lookup. set_solver. Qed.

Lemma projected_label (doc : document F) :
  projected doc !! "sentiment_label" = doc !! "sentiment_label".
Proof. apply project_lookup. set_solver. Qed.

Lemma scores_of_events (events : list (document F)) :
  Forall event_ok events →
  mapM (λ doc, v ← getitem doc "sentiment_score"; DailyAggregator.to_float v)
    (filter (λ doc : document F, is_Some (doc !! "sentiment_score"))
       (projected <$> events))
  = Ok (omap event_score events)
  ∧ length (omap event_score events) = length events.
Proof.
  induction 1 as [|doc events [(x & Hx) _] _ [IH Hlen]]; [done|].
  rewrite fmap_cons, filter_cons_True
    by (cbv beta; rewrite projected_score, Hx; by eexists).
  rewrite mapM_result_cons.
  rewrite (getitem_Some (projected doc) _ (VFloat x))
    by (by rewrite projected_score).
  rewrite IH.
  assert (event_score doc = Some x) as Hs by (unfold event_score; by rewrite Hx).
  cbn [omap list_omap]. rewrite Hs. simpl.
  split; [done|]. by rewrite Hlen.
Qed.

Lemma labels_of_events (events : list (document F)) :
  Forall event_ok events →
  (λ doc, dict_get doc "sentiment_label") <$>
    filter (λ doc : document F,
              DailyAggregator.truthy (dict_get doc "sentiment_label"))
      (projected <$> events)
  = VStr <$> omap event_label events.
Proof.
  induction 1 as [|doc events [_ Hlabel] _ IH]; [done|].
  rewrite fmap_cons. cbn [omap list_omap].
  assert (event_label doc = match doc !! "sentiment_label" with
                            | Some (VStr s) => Some s
                            | _ => None
                            end) as -> by done.
  destruct Hlabel as [Hl|[Hl|(s & Hl & Hs)]]; rewrite Hl.
  - rewrite filter_cons_False; [done|]. cbv beta.
    unfold dict_get. rewrite projected_label, Hl. simpl. by intros [].
  - rewrite filter_cons_False; [done|]. cbv beta.
    unfold dict_get. rewrite projected_label, Hl. simpl. by intros [].
  - rewrite filter_cons_True.
    + rewrite fmap_cons, IH. unfold dict_get at 1. by rewrite projected_label, Hl.
    + cbv beta. unfold dict_get. rewrite projected_label, Hl. simpl.
      by rewrite bool_decide_eq_false_2.
Qed.

Lemma tally_nonempty (labels : list string) : labels ≠ [] → tally labels ≠ [].
Proof.
  intros Hne Hnil. destruct labels as [|x labels]; [done|].
  pose proof (tally_keys _ _ (tally_spec (x :: labels)) x) as Hkeys.
  rewrite Hnil in Hkeys. simpl in Hkeys.
  assert (x ∈ @nil string) as Hx by (apply Hkeys; left).
  by apply elem_of_nil in Hx.
Qed.

(** C6: without qualifying events the aggregate is [(None, None, 0)];
    otherwise it is the mean of the qualifying scores, the dominant
    label (none when no event carries a label) and the number of
    qualifying events. *)
Theorem sentiment_of_the_day
    (news_coll : list (document F)) (ticker : string) (d : date) :
  let events := qualifying_events news_coll ticker d in
  let labels := omap event_label events in
  Forall event_ok events →
  ∃ avg dominant,
    DailyAggregator.aggregate_sentiment_for_day news_coll ticker d
    = Ok (avg, dominant, Z.of_nat (length events))
    ∧ (events = [] → avg = None ∧ dominant = VNull)
    ∧ (events ≠ [] → avg = Some (mean (omap event_score events)))
    ∧ (labels = [] → dominant = VNull)
    ∧ (labels ≠ [] → ∃ x, dominant = VStr x ∧ dominant_of labels x).
Proof.
  intros events labels Hok.
  unfold DailyAggregator.aggregate_sentiment_for_day.
  change (DailyAggregator.start_of_day d + timedelta_days 1)
    with (datetime_at_midnight d + us_per_day).
  change (DailyAggregator.start_of_day d) with (datetime_at_midnight d).
  fold (qualifying_events news_coll ticker d). fold events.
  change (Mongo.project ["sentiment_score"; "sentiment_label"]) with (projected (F:=F)).
  subst labels. clearbody events.
  destruct events as [|e events'].
  { exists None, VNull. simpl.
    split; [done|]. split; [done|]. split; [done|]. split; [done|].
    intros Hl. by destruct Hl. }
  remember (e :: events') as events eqn:Hevents.
  assert (events ≠ []) as Hne by (by subst).
  clear Hevents e events'.
  destruct (scores_of_events events Hok) as [Hscores Hlen].
  pose proof (labels_of_events events Hok) as Hlabels.
  set (labels := omap event_label events) in *.
  assert (projected <$> events ≠ []) as Hne' by (by destruct events).
  destruct (projected <$> events) as [|p ps] eqn:Hproj; [done|].
  rewrite <- Hproj in *. rewrite Hscores, Hlabels. simpl.
  assert (omap event_score events ≠ []) as Hsc.
  { intros Hnil. rewrite Hnil in Hlen. destruct events; done. }
  destruct (omap event_score events) as [|s0 ss] eqn:Hss; [done|].
  rewrite <- Hss in *.
  rewrite float_truediv_int_pos by (rewrite Hlen; destruct events; simpl; [done|lia]).
  rewrite length_fmap.
  simpl. eexists _, _. split; [reflexivity|].
  split; [done|]. split; [done|].
  destruct labels as [|l0 ls] eqn:Hl.
  { split; [done|]. done. }
  rewrite <- Hl in *. split; [intros ->; done|]. intros _.
  assert (labels ≠ []) as Hlne by (intros ->; done).
  destruct (VStr (F:=F) <$> labels) as [|v vs] eqn:Hv; [by destruct labels|].
  rewrite <- Hv. rewrite Counter_str.
  pose proof (tally_nonempty labels Hlne) as Ht.
  destruct (tally labels) as [|b items] eqn:Htally; [done|].
  simpl. rewrite max_by_count_str. simpl.
  exists (best_of b items).1. split; [done|].
  by apply best_of_tally_dominant.
Qed.

End sentiment_facts.

(** ** The timeseries reader *)
Section reader_facts.
Context {F : Type} `{!PyFloat F} `{!PyText}.

Lemma midnight_le (d t : Z) :
  datetime_at_midnight d ≤ t ↔ d ≤ datetime_date t.
Proof.
  unfold datetime_at_midnight, datetime_date, us_per_day. split; intros Hle.
  - apply Z.div_le_lower_bound; lia.
  - pose proof (Z.mul_div_le t 86400000000). nia.
Qed.

Lemma matches_ticker (ticker : string) (doc : document F) :
  Mongo.matches [("ticker", Mongo.CEq (VStr ticker))] doc
  = match doc !! "ticker" with
    | Some (VStr s) => bool_decide (s = ticker)
    | _ => false
    end.
Proof.
  unfold Mongo.matches. simpl. rewrite andb_true_r.
  destruct (doc !! "ticker") as [[]|]; done.
Qed.

Lemma matches_window (ticker : string) (start : date) (doc : document F) :
  Mongo.matches [("ticker", Mongo.CEq (VStr ticker));
                 ("date", Mongo.CGte (datetime_at_midnight start))] doc
  = on_or_after ticker start doc.
Proof.
  unfold Mongo.matches, on_or_after, row_date. cbn [forallb fst snd].
  rewrite andb_true_r.
  destruct (doc !! "ticker") as [[]|]; simpl; try done.
  destruct (doc !! "date") as [[]|]; simpl; try done.
  f_equal. apply bool_decide_ext, midnight_le.
Qed.

Lemma point_of_renders (doc : document F) :
  dated doc →
  ∃ pt, TimeseriesBuilder.point_of doc = Ok pt ∧ renders doc pt.
Proof.
  intros [t Ht]. eexists. unfold TimeseriesBuilder.point_of.
  rewrite (getitem_Some _ _ _ Ht). simpl. split; [done|].
  unfold renders, passes, row_date, dict_get, dict_get_or. rewrite Ht.
  split; [eexists; split; [done|]; by lookup_literal|].
  repeat split; intros v Hv; rewrite Hv; lookup_literal; reflexivity.
Qed.

Lemma points_render (rows : list (document F)) :
  Forall dated rows →
  ∃ pts, mapM TimeseriesBuilder.point_of rows = Ok pts ∧ Forall2 renders rows pts.
Proof.
  induction 1 as [|doc rows Hdoc _ (pts & Hpts & Hall)]; [by exists []|].
  destruct (point_of_renders doc Hdoc) as (pt & Hpt & Hr).
  exists (pt :: pts). rewrite mapM_result_cons, Hpt, Hpts.
  split; [done|]. by constructor.
Qed.

Lemma find_elem_of (q : list (string * Mongo.cond)) (coll : list (document F)) doc :
  doc ∈ Mongo.find q coll ↔ Mongo.matches q doc = true ∧ doc ∈ coll.
Proof.
  unfold Mongo.find. rewrite list_elem_of_filter.
  by rewrite Is_true_true.
Qed.

Lemma latest_date_found (coll : list (document F)) (ticker : string) :
  rows_of ticker coll ≠ [] → Forall dated (rows_of ticker coll) →
  ∃ latest,
    TimeseriesBuilder.get_latest_date_for_ticker coll ticker = Ok (Some latest)
    ∧ latest_date_of (rows_of ticker coll) latest.
Proof.
  intros Hne Hdated. unfold TimeseriesBuilder.get_latest_date_for_ticker.
  fold (rows_of ticker coll).
  set (le := λ a b : document F,
         Mongo.key_le (Mongo.sort_key "date" b) (Mongo.sort_key "date" a)).
  change (Mongo.sort_desc "date" (rows_of ticker coll))
    with (Mongo.sort_with le (rows_of ticker coll)).
  destruct (Mongo.sort_with le (rows_of ticker coll)) as [|top rest] eqn:Hsort.
  { by apply sort_with_nil_inv in Hsort. }
  destruct (sort_with_head le) with (l := rows_of ticker coll) (x := top)
    as [Hin Hmax].
  { intros a b. apply key_le_total. }
  { intros a b c Hab Hbc. eapply key_le_trans; eauto. }
  { by rewrite Hsort. }
  rewrite Forall_forall in Hdated.
  destruct (Hdated _ Hin) as [t Ht].
  exists (datetime_date t). simpl. split.
  - rewrite (getitem_Some _ _ (VDate t)); [done|].
    rewrite project_lookup; [done|set_solver].
  - split.
    + exists top. split; [done|]. unfold row_date. by rewrite Ht.
    + intros doc d Hdoc Hd. specialize (Hmax _ Hdoc).
      unfold le, Mongo.sort_key in Hmax. rewrite Ht in Hmax.
      unfold row_date in Hd.
      destruct (doc !! "date") as [[]|]; simplify_eq/=.
      apply bool_decide_eq_true in Hmax. by apply datetime_date_mono.
Qed.

(** C9, amended: for a ticker with at least one row, and when the
    latest stored date minus [days_back - 1] days is a date of the
    calendar, [to_date] is the latest stored date, [from_date] is that
    date minus [days_back - 1] days, and the points render exactly the
    rows of the ticker dated [from_date] or later, in ascending date
    order, each stored value passed on as it is. *)
Theorem timeseries_trails_latest_date
    (w : world F) (ticker : string) (days_back : Z) :
  let rows := rows_of ticker (daily_ticker_metrics w) in
  rows ≠ [] → Forall dated rows →
  (∀ latest, latest_date_of rows latest → in_calendar (latest - (days_back - 1))) →
  ∃ latest selected pts,
    TimeseriesBuilder.build_ticker_timeseries ticker days_back w
    = (Ok {| TimeseriesBuilder.ticker := ticker;
             TimeseriesBuilder.from_date :=
               Some (strftime_ymd (latest - (days_back - 1)));
             TimeseriesBuilder.to_date := Some (strftime_ymd latest);
             TimeseriesBuilder.points := pts |}, w)
    ∧ latest_date_of rows latest
    ∧ selected ≡ₚ
        filter (λ doc, on_or_after ticker (latest - (days_back - 1)) doc)
          (daily_ticker_metrics w)
    ∧ StronglySorted date_le selected
    ∧ Forall2 renders selected pts.
Proof.
  intros rows Hne Hdated Hcal.
  destruct (latest_date_found _ _ Hne Hdated) as (latest & Hlatest & Hspec).
  specialize (Hcal latest Hspec).
  set (start := latest - (days_back - 1)) in *.
  set (selected :=
         Mongo.sort_asc "date"
           (Mongo.find [("ticker", Mongo.CEq (VStr ticker));
                        ("date", Mongo.CGte (datetime_at_midnight start))]
              (daily_ticker_metrics w))).
  assert (∀ doc, doc ∈ selected → on_or_after ticker start doc = true) as Hsel.
  { intros doc Hdoc. apply sort_with_elem_of, find_elem_of in Hdoc as [Hm _].
    by rewrite matches_window in Hm. }
  assert (Forall dated selected) as Hdsel.
  { apply Forall_forall. intros doc Hdoc. specialize (Hsel _ Hdoc).
    unfold on_or_after, row_date in Hsel. apply andb_true_iff in Hsel as [_ Hd].
    destruct (doc !! "date") as [[]|] eqn:Hdate; try done. by eexists. }
  destruct (points_render selected Hdsel) as (pts & Hpts & Hrender).
  exists latest, selected, pts. split; [|split; [done|split; [|split; [|done]]]].
  - unfold TimeseriesBuilder.build_ticker_timeseries, World.bind, get_daily, lift.
    rewrite Hlatest, date_sub_days_in by done. fold start. fold selected.
    by rewrite Hpts.
  - unfold selected, Mongo.sort_asc. rewrite sort_with_perm. unfold Mongo.find.
    erewrite list_filter_iff; [done|].
    intros doc. by rewrite matches_window.
  - assert (StronglySorted
              (λ a b : document F,
                 Mongo.key_le (Mongo.sort_key "date" a) (Mongo.sort_key "date" b)
                 = true) selected) as Hsorted.
    { apply sort_with_sorted.
      - intros a b. apply key_le_total.
      - intros a b c Hab Hbc. eapply key_le_trans; eauto. }
    eapply (sorted_transport _ _ (λ a b, a = b ∧ dated a)); [| |exact Hsorted].
    + intros a b a' b' Hle [<- [ta Ha]] [<- [tb Hb]].
      cbv beta in Hle. unfold Mongo.sort_key in Hle. rewrite Ha, Hb in Hle.
      apply bool_decide_eq_true in Hle.
      exists (datetime_date ta), (datetime_date tb). unfold row_date.
      rewrite Ha, Hb. split; [done|]. split; [done|]. by apply datetime_date_mono.
    + clear -Hdsel. induction Hdsel; constructor; auto.
Qed.

End reader_facts.

(** ** The sliding window *)
Section window_facts.
Context {F : Type} `{!PyFloat F}.

Lemma last_rows_all {A} (n : nat) (l : list A) :
  (length l ≤ n)%nat → last_rows n l = l.
Proof.
  intros Hn. unfold last_rows.
  by replace (length l - n)%nat with 0%nat by lia.
Qed.

Lemma last_rows_length {A} (n : nat) (l : list A) :
  length (last_rows n l) = (length l `min` n)%nat.
Proof. unfold last_rows. rewrite length_drop. lia. Qed.

(** Appending a row and evicting the oldest one over capacity keeps the
    last [window] rows. *)
Lemma push_history_last (window : Z) (pre : list (DailyCorrelation.hist_entry F))
    (h : DailyCorrelation.hist_entry F) :
  DailyCorrelation.push_history window (last_rows (Z.to_nat window) pre) h
  = last_rows (Z.to_nat window) (pre ++ [h]).
Proof.
  unfold DailyCorrelation.push_history.
  rewrite length_app, last_rows_length. simpl.
  unfold last_rows. rewrite length_app. simpl.
  case_bool_decide as Hover.
  - assert (Z.to_nat window ≤ length pre)%nat as Hle by lia.
    replace (length pre + 1 - Z.to_nat window)%nat
      with (length pre - Z.to_nat window + 1)%nat by lia.
    rewrite <- drop_drop. f_equal. by rewrite drop_app_le by lia.
  - assert (length pre < Z.to_nat window)%nat as Hlt by lia.
    replace (length pre - Z.to_nat window)%nat with 0%nat by lia.
    by replace (length pre + 1 - Z.to_nat window)%nat with 0%nat by lia.
Qed.

Lemma window_rows_last (window : Z) (docs : list (document F)) (i : nat) :
  (i < length docs)%nat →
  window_rows window docs i = last_rows (Z.to_nat window) (take (S i) docs).
Proof.
  intros Hi. unfold window_rows, last_rows.
  rewrite length_take. f_equal. lia.
Qed.

Lemma window_rows_app (window : Z) (pre rest : list (document F)) (doc : document F) :
  window_rows window (pre ++ doc :: rest) (length pre)
  = last_rows (Z.to_nat window) (pre ++ [doc]).
Proof.
  rewrite window_rows_last by (rewrite length_app; simpl; lia).
  f_equal. rewrite take_app_ge by lia.
  replace (S (length pre) - length pre)%nat with 1%nat by lia. done.
Qed.

(** A window depends on the rows up to its position only. *)
Lemma window_rows_prefix (window : Z) (docs docs' : list (document F)) (i : nat) :
  take (S i) docs = take (S i) docs' →
  window_rows window docs i = window_rows window docs' i.
Proof. intros Heq. unfold window_rows. by rewrite Heq. Qed.

End window_facts.

(** ** Updating a row by its object id *)
Section update_facts.
Context {F : Type} `{!PyFloat F}.

Lemma has_oid_of (d : document F) :
  has_oid d → d !! "_id" = Some (VId (Mongo.oid_of d)).
Proof. intros [i Hi]. unfold Mongo.oid_of. by rewrite Hi. Qed.

Lemma matches_oid (i : N) (d : document F) :
  has_oid d →
  Mongo.matches [("_id", Mongo.CEq (VId i))] d = bool_decide (Mongo.oid_of d = i).
Proof.
  intros Hd. unfold Mongo.matches. cbn [forallb fst snd].
  rewrite (has_oid_of d Hd). simpl. by rewrite andb_true_r.
Qed.

Lemma update_first_miss (i : N) (fields : document F) (coll : list (document F)) :
  Forall has_oid coll → i ∉ Mongo.oid_of <$> coll →
  Mongo.update_first [("_id", Mongo.CEq (VId i))] fields coll = None.
Proof.
  induction 1 as [|d coll Hd _ IH]; intros Hi; [done|].
  rewrite fmap_cons in Hi. apply not_elem_of_cons in Hi as [Hne Hi].
  cbn [Mongo.update_first]. rewrite matches_oid by done.
  rewrite bool_decide_eq_false_2 by done. by rewrite IH.
Qed.

Lemma set_on_miss (i : N) (fields : document F) (coll : list (document F)) :
  i ∉ Mongo.oid_of <$> coll → set_on i fields <$> coll = coll.
Proof.
  induction coll as [|d coll IH]; intros Hi; [done|].
  rewrite fmap_cons in Hi. apply not_elem_of_cons in Hi as [Hne Hi].
  rewrite fmap_cons, IH by done. unfold set_on.
  by rewrite bool_decide_eq_false_2.
Qed.

Lemma update_one_by_oid (i : N) (fields : document F) (coll : list (document F)) :
  store_ok coll →
  Mongo.update_one [("_id", Mongo.CEq (VId i))] fields false coll
  = set_on i fields <$> coll.
Proof.
  intros [Hoids Hnd]. unfold Mongo.update_one.
  induction Hoids as [|d coll Hd Hoids IH]; [done|].
  rewrite fmap_cons in Hnd. apply NoDup_cons in Hnd as [Hfresh Hnd].
  cbn [Mongo.update_first]. rewrite matches_oid by done.
  rewrite fmap_cons. unfold set_on at 1. case_bool_decide as Hi.
  - subst i. by rewrite set_on_miss.
  - specialize (IH Hnd).
    destruct (Mongo.update_first _ fields coll) as [coll'|]; simpl in *;
      by f_equal.
Qed.

End update_facts.

(** ** The loop of the correlation pass *)
Section loop_facts.
Context {F : Type} `{!PyFloat F}.
Context (window : Z).

Implicit Types docs rest pre : list (document F).
Implicit Types doc : document F.

Lemma correlation_now (w : world F) :
  datetime_now_UTC DailyCorrelation.module_globals w = read_clock w.
Proof.
  unfold datetime_now_UTC, World.bind, lift.
  assert (load_name DailyCorrelation.module_globals "datetime" = Ok ()) as ->
    by (by vm_compute).
  assert (load_name DailyCorrelation.module_globals "UTC" = Ok ()) as ->
    by (by vm_compute).
  done.
Qed.

Lemma corr_loop_cons doc rest history updated (w : world F) :
  DailyCorrelation.corr_loop window (doc :: rest) history updated w
  = match getitem doc "date" with
    | Raise e => (Raise e, w)
    | Ok dv =>
        let history' :=
          DailyCorrelation.push_history window history
            {| DailyCorrelation.h_date := dv;
               DailyCorrelation.ret := dict_get doc "daily_return";
               DailyCorrelation.sent := dict_get doc "avg_sentiment_score" |} in
        match DailyCorrelation.window_corr history' with
        | Raise e => (Raise e, w)
        | Ok corr =>
            match getitem doc "_id" with
            | Raise e => (Raise e, w)
            | Ok oid =>
                DailyCorrelation.corr_loop window rest history' (updated + 1)
                  (after_write w oid corr)
            end
        end
    end.
Proof.
  cbn [DailyCorrelation.corr_loop]. unfold World.bind at 1, lift at 1.
  destruct (getitem doc "date") as [dv|e]; [|done]. cbv zeta.
  unfold World.bind at 1, lift at 1.
  destruct (DailyCorrelation.window_corr _) as [corr|e]; [|done].
  unfold World.bind at 1, lift at 1.
  destruct (getitem doc "_id") as [oid|e]; [|done].
  unfold World.bind at 1. rewrite correlation_now. done.
Qed.

Lemma last_rows_fmap {A B} (f : A → B) (n : nat) (l : list A) :
  last_rows n (f <$> l) = f <$> last_rows n l.
Proof. unfold last_rows. by rewrite length_fmap, fmap_drop. Qed.

Lemma oid_of_set (fields d : document F) :
  fields !! "_id" = None → Mongo.oid_of (Mongo.set_fields fields d) = Mongo.oid_of d.
Proof.
  intros Hf. unfold Mongo.oid_of, Mongo.set_fields.
  by rewrite lookup_union_r.
Qed.

Lemma has_oid_set (fields d : document F) :
  fields !! "_id" = None → has_oid d → has_oid (Mongo.set_fields fields d).
Proof.
  intros Hf [i Hi]. exists i. unfold Mongo.set_fields.
  by rewrite lookup_union_r.
Qed.

Lemma corr_fields_no_oid (corr : option F) (now : Z) :
  DailyCorrelation.corr_fields corr now !! "_id" = None.
Proof. unfold DailyCorrelation.corr_fields. by lookup_literal. Qed.

Lemma oid_of_set_on (i : N) (fields d : document F) :
  fields !! "_id" = None → Mongo.oid_of (set_on i fields d) = Mongo.oid_of d.
Proof.
  intros Hf. unfold set_on. case_bool_decide; [|done]. by apply oid_of_set.
Qed.

Lemma store_ok_set_on (i : N) (fields : document F) coll :
  fields !! "_id" = None → store_ok coll → store_ok (set_on i fields <$> coll).
Proof.
  intros Hf [Hoids Hnd]. split.
  - apply Forall_fmap. eapply Forall_impl; [exact Hoids|].
    intros d Hd. simpl. unfold set_on. case_bool_decide; [|done].
    by apply has_oid_set.
  - rewrite <- list_fmap_compose.
    erewrite list_fmap_ext; [exact Hnd|].
    intros k d _. simpl. by apply oid_of_set_on.
Qed.

Lemma rows_fine_step docs (a k : nat) :
  rows_fine window docs a (a + S k)
  = negb (raised (row_outcome window docs a))
    && rows_fine window docs (S a) (S a + k).
Proof.
  unfold rows_fine.
  replace (S (a + S k) - a)%nat with (S (S k)) by lia.
  replace (S (S a + k) - S a)%nat with (S k) by lia.
  done.
Qed.

Lemma rows_fine_one docs (a : nat) :
  rows_fine window docs a (a + 0) = negb (raised (row_outcome window docs a)).
Proof.
  unfold rows_fine. replace (S (a + 0) - a)%nat with 1%nat by lia.
  simpl. by rewrite andb_true_r.
Qed.

Lemma corr_at_here pre doc rest :
  corr_at window (pre ++ doc :: rest) (length pre)
  = DailyCorrelation.window_corr
      (last_rows (Z.to_nat window) (entry_of <$> (pre ++ [doc]))).
Proof.
  unfold corr_at. by rewrite window_rows_app, last_rows_fmap.
Qed.

Lemma row_outcome_here pre doc rest :
  row_outcome window (pre ++ doc :: rest) (length pre)
  = (_ ← getitem doc "date";
     corr ← DailyCorrelation.window_corr
               (last_rows (Z.to_nat window) (entry_of <$> (pre ++ [doc])));
     oid ← getitem doc "_id";
     Ok (oid, corr)).
Proof.
  unfold row_outcome. rewrite list_lookup_middle by done.
  by rewrite corr_at_here.
Qed.

Lemma entry_of_dated doc dv :
  getitem doc "date" = Ok dv →
  {| DailyCorrelation.h_date := dv;
     DailyCorrelation.ret := dict_get doc "daily_return";
     DailyCorrelation.sent := dict_get doc "avg_sentiment_score" |}
  = entry_of doc.
Proof.
  unfold getitem, entry_of, dict_get. intros Hd.
  destruct (doc !! "date"); by simplify_eq/=.
Qed.

End loop_facts.

Section loop_spec.
Context {F : Type} `{!PyFloat F}.
Context (window : Z).

Implicit Types docs rest pre : list (document F).
Implicit Types doc d : document F.

Lemma rows_fine_first docs (a k : nat) :
  rows_fine window docs a (a + k) = true →
  raised (row_outcome window docs a) = false.
Proof.
  destruct k as [|k].
  - rewrite rows_fine_one. by intros ?%negb_true_iff.
  - rewrite rows_fine_step. by intros [?%negb_true_iff _]%andb_true_iff.
Qed.

(** Once the loop has stopped at a row, no row is written. *)
Lemma corr_written_stuck docs (from : nat) clock reads d :
  raised (row_outcome window docs from) = true →
  corr_written window docs from clock reads d = d.
Proof.
  intros Hstop. unfold corr_written, corr_target.
  destruct (list_find _ _) as [[k x]|]; [|done].
  destruct (rows_fine window docs from (from + k)) eqn:Hfine; [|done].
  apply rows_fine_first in Hfine. congruence.
Qed.

Lemma corr_written_done docs (from : nat) clock reads d :
  drop from docs = [] → corr_written window docs from clock reads d = d.
Proof. intros Hdone. unfold corr_written, corr_target. by rewrite Hdone. Qed.

(** One turn of the loop: the row just written is left alone by the
    rest of the loop, every other row is treated as before. *)
Lemma corr_written_step pre doc rest clock reads (i0 : N) corr d :
  doc !! "_id" = Some (VId i0) →
  i0 ∉ Mongo.oid_of <$> rest →
  row_outcome window (pre ++ doc :: rest) (length pre) = Ok (VId i0, corr) →
  corr_written window (pre ++ doc :: rest) (S (length pre)) clock (S reads)
    (set_on i0 (DailyCorrelation.corr_fields corr (clock reads)) d)
  = corr_written window (pre ++ doc :: rest) (length pre) clock reads d.
Proof.
  intros Hid Hfresh Hrow.
  assert (Mongo.oid_of doc = i0) as Hdoc by (unfold Mongo.oid_of; by rewrite Hid).
  assert (corr_at window (pre ++ doc :: rest) (length pre) = Ok corr) as Hcorr.
  { unfold row_outcome in Hrow. rewrite list_lookup_middle in Hrow by done.
    destruct (getitem doc "date"); [|done]. simpl in Hrow.
    destruct (corr_at window _ _); [|done]. simpl in Hrow.
    destruct (getitem doc "_id"); [|done]. by simplify_eq/=. }
  assert (drop (S (length pre)) (pre ++ doc :: rest) = rest) as Hdrop.
  { replace (pre ++ doc :: rest) with ((pre ++ [doc]) ++ rest)
      by (by rewrite <- app_assoc).
    apply drop_app_length'. rewrite length_app. simpl. lia. }
  unfold corr_written at 2. unfold corr_target.
  rewrite drop_app_length. cbn [list_find].
  unfold set_on. case_bool_decide as Hd.
  - (* the row just written *)
    rewrite decide_True by congruence.
    rewrite rows_fine_one, Hrow, !Nat.add_0_r, Hcorr. cbn [raised negb].
    unfold corr_written, corr_target. rewrite Hdrop.
    rewrite oid_of_set by apply corr_fields_no_oid. rewrite Hd.
    rewrite (Nat.add_0_r reads).
    destruct (list_find _ rest) as [[k x]|] eqn:Hfind; [|reflexivity].
    apply list_find_Some in Hfind as (Hx & <- & _).
    exfalso. apply Hfresh. apply list_elem_of_fmap. exists x. split; [done|].
    by eapply list_elem_of_lookup_2.
  - (* another row *)
    rewrite decide_False by congruence.
    unfold corr_written, corr_target. rewrite Hdrop.
    destruct (list_find _ rest) as [[k x]|]; [|reflexivity].
    cbn [fmap option_fmap option_map prod_map fst snd id].
    rewrite (rows_fine_step _ _ (length pre) k), Hrow. cbn [raised negb andb].
    replace (length pre + S k)%nat with (S (length pre) + k)%nat by lia.
    destruct (rows_fine window (pre ++ doc :: rest) (S (length pre))
                (S (length pre) + k)); [|reflexivity].
    destruct (corr_at window (pre ++ doc :: rest) (S (length pre) + k)) as [c|];
      [|reflexivity].
    replace (S reads + k)%nat with (reads + S k)%nat by lia. reflexivity.
Qed.

(** The daily metrics after the loop: every row the loop has written
    carries its correlation and the time of the write, every other row
    is as it was. *)
Lemma corr_loop_daily rest :
  ∀ pre history updated (w : world F),
    history = last_rows (Z.to_nat window) (entry_of <$> pre) →
    store_ok (daily_ticker_metrics w) →
    Forall has_oid rest → NoDup (Mongo.oid_of <$> rest) →
    daily_ticker_metrics
      (DailyCorrelation.corr_loop window rest history updated w).2
    = corr_written window (pre ++ rest) (length pre) (wall_clock w)
        (clock_reads w) <$> daily_ticker_metrics w.
Proof.
  induction rest as [|doc rest IH]; intros pre history updated w Hhist Hok Hoids Hnd.
  { simpl. rewrite <- (list_fmap_id (daily_ticker_metrics w)) at 1.
    apply list_fmap_ext. intros k d _. simpl.
    symmetry. apply corr_written_done. rewrite app_nil_r. apply drop_all. }
  apply Forall_cons in Hoids as [[i0 Hid] Hoids].
  rewrite fmap_cons in Hnd. apply NoDup_cons in Hnd as [Hfresh Hnd].
  assert (Mongo.oid_of doc = i0) as Hdoc by (unfold Mongo.oid_of; by rewrite Hid).
  rewrite Hdoc in Hfresh.
  pose proof (row_outcome_here window pre doc rest) as Hrow.
  assert (∀ e, row_outcome window (pre ++ doc :: rest) (length pre) = Raise e →
     daily_ticker_metrics w
     = corr_written window (pre ++ doc :: rest) (length pre) (wall_clock w)
         (clock_reads w) <$> daily_ticker_metrics w) as Hstuck.
  { intros e He. rewrite <- (list_fmap_id (daily_ticker_metrics w)) at 1.
    apply list_fmap_ext. intros k d _. simpl. symmetry.
    apply corr_written_stuck. by rewrite He. }
  rewrite corr_loop_cons.
  destruct (getitem doc "date") as [dv|e] eqn:Hdate; [|by eapply Hstuck].
  cbv zeta. rewrite (entry_of_dated doc dv Hdate), Hhist.
  rewrite push_history_last.
  replace ((entry_of <$> pre) ++ [entry_of doc]) with (entry_of <$> (pre ++ [doc]))
    by (by rewrite fmap_app).
  rewrite result_bind_Ok in Hrow.
  destruct (DailyCorrelation.window_corr _) as [corr|e] eqn:Hcorr;
    [|by eapply Hstuck].
  rewrite (getitem_Some _ _ _ Hid) in Hrow |- *. simpl in Hrow.
  rewrite (IH (pre ++ [doc])); [| done | | done | done].
  - simpl. rewrite update_one_by_oid by done.
    rewrite <- list_fmap_compose. apply list_fmap_ext. intros k d _. simpl.
    rewrite <- app_assoc, length_app. simpl.
    replace (length pre + 1)%nat with (S (length pre)) by lia.
    by apply corr_written_step.
  - simpl. rewrite update_one_by_oid by done.
    apply store_ok_set_on; [apply corr_fields_no_oid|done].
Qed.

End loop_spec.

(** ** The correlation pass over one ticker *)
Section pass_facts.
Context {F : Type} `{!PyFloat F}.

Implicit Types docs coll : list (document F).
Implicit Types doc d : document F.

Lemma ticker_rows_perm (ticker : string) coll :
  DailyCorrelation.ticker_rows ticker coll ≡ₚ rows_of ticker coll.
Proof. apply sort_with_perm. Qed.

Lemma rows_of_sublist (ticker : string) coll : rows_of ticker coll `sublist_of` coll.
Proof. apply sublist_filter. Qed.

Lemma ticker_rows_elem_of (ticker : string) coll doc :
  doc ∈ DailyCorrelation.ticker_rows ticker coll → doc ∈ coll.
Proof.
  rewrite ticker_rows_perm. intros Hin.
  by apply find_elem_of in Hin as [_ ?].
Qed.

Lemma ticker_rows_Forall (P : document F → Prop) (ticker : string) coll :
  Forall P coll → Forall P (DailyCorrelation.ticker_rows ticker coll).
Proof.
  rewrite !Forall_forall. intros Hall doc Hdoc.
  by eapply Hall, ticker_rows_elem_of.
Qed.

Lemma ticker_rows_ok (ticker : string) coll :
  store_ok coll →
  Forall has_oid (DailyCorrelation.ticker_rows ticker coll)
  ∧ NoDup (Mongo.oid_of <$> DailyCorrelation.ticker_rows ticker coll).
Proof.
  intros [Hoids Hnd]. split.
  - apply Forall_forall. intros doc Hdoc. rewrite Forall_forall in Hoids.
    by eapply Hoids, ticker_rows_elem_of.
  - rewrite ticker_rows_perm.
    apply (sublist_NoDup _ (Mongo.oid_of <$> coll)); [exact Hnd|].
    apply fmap_sublist, rows_of_sublist.
Qed.

(** The position of a row among rows with distinct object ids. *)
Lemma find_row docs (i : nat) doc :
  NoDup (Mongo.oid_of <$> docs) → docs !! i = Some doc →
  list_find (λ x, Mongo.oid_of x = Mongo.oid_of doc) docs = Some (i, doc).
Proof.
  intros Hnd Hi. apply list_find_Some. split; [done|]. split; [done|].
  intros j y Hj Hlt Heq.
  assert (j = i); [|lia].
  eapply (NoDup_lookup (Mongo.oid_of <$> docs)); [done| |].
  - by rewrite list_lookup_fmap, Hj.
  - by rewrite list_lookup_fmap, Hi, Heq.
Qed.

(** The daily metrics after the pass over one ticker. *)
Lemma pass_daily (window : Z) (ticker : string) (w : world F) :
  store_ok (daily_ticker_metrics w) →
  daily_ticker_metrics
    (DailyCorrelation.update_rolling_corr_for_ticker ticker window w).2
  = corr_written window
      (DailyCorrelation.ticker_rows ticker (daily_ticker_metrics w)) 0
      (wall_clock w) (clock_reads w) <$> daily_ticker_metrics w.
Proof.
  intros Hok. unfold DailyCorrelation.update_rolling_corr_for_ticker.
  unfold World.bind at 1, get_daily at 1.
  pose proof (ticker_rows_ok ticker _ Hok) as [Hoids Hnd].
  pose proof (corr_loop_daily window
                (DailyCorrelation.ticker_rows ticker (daily_ticker_metrics w))
                [] [] 0 w eq_refl Hok Hoids Hnd) as Hloop.
  rewrite app_nil_l in Hloop. change (length (@nil (document F))) with 0%nat in Hloop.
  destruct (DailyCorrelation.ticker_rows ticker (daily_ticker_metrics w))
    as [|doc docs] eqn:Hrows.
  - exact Hloop.
  - rewrite <- Hloop. unfold World.bind.
    by destruct (DailyCorrelation.corr_loop window (doc :: docs) [] 0 w)
      as [[n|e] w'].
Qed.

(** The row at position [i] of the ticker after the pass. *)
Lemma pass_row (window : Z) (ticker : string) (w : world F) (i p : nat) doc :
  store_ok (daily_ticker_metrics w) →
  DailyCorrelation.ticker_rows ticker (daily_ticker_metrics w) !! i = Some doc →
  daily_ticker_metrics w !! p = Some doc →
  daily_ticker_metrics
    (DailyCorrelation.update_rolling_corr_for_ticker ticker window w).2 !! p
  = Some
      (let docs := DailyCorrelation.ticker_rows ticker (daily_ticker_metrics w) in
       if rows_fine window docs 0 i
       then match corr_at window docs i with
            | Ok c =>
                DailyCorrelation.corr_fields c
                  (wall_clock w (clock_reads w + i)%nat) ∪ doc
            | Raise _ => doc
            end
       else doc).
Proof.
  intros Hok Hi Hp. rewrite pass_daily by done.
  rewrite list_lookup_fmap, Hp. cbn [fmap option_fmap option_map]. f_equal.
  pose proof (ticker_rows_ok ticker _ Hok) as [_ Hnd].
  unfold corr_written, corr_target. rewrite drop_0.
  rewrite (find_row _ i doc Hnd Hi). cbn [Nat.add].
  destruct (rows_fine window _ 0 i); [|reflexivity].
  destruct (corr_at window _ i); reflexivity.
Qed.

End pass_facts.

(** ** The correlation of a window is Pearson's coefficient *)
Section pearson_spec.
Context {F : Type} `{!PyFloat F}.

Lemma entry_pair (doc : document F) :
  metrics_typed doc →
  match valid_pair doc with
  | Some xy =>
      is_not_none (DailyCorrelation.ret (entry_of doc))
      && is_not_none (DailyCorrelation.sent (entry_of doc)) = true
      ∧ (DailyCorrelation.ret (entry_of doc), DailyCorrelation.sent (entry_of doc))
        = (VFloat xy.1, VFloat xy.2)
  | None =>
      is_not_none (DailyCorrelation.ret (entry_of doc))
      && is_not_none (DailyCorrelation.sent (entry_of doc)) = false
  end.
Proof.
  unfold metrics_typed, metric_ok, valid_pair, entry_of, dict_get.
  cbn [DailyCorrelation.ret DailyCorrelation.sent].
  intros [[Hx|[Hx|[x Hx]]] [Hy|[Hy|[y Hy]]]]; rewrite Hx, Hy; done.
Qed.

Lemma window_pairs_typed (rows : list (document F)) :
  Forall metrics_typed rows →
  DailyCorrelation.window_pairs (entry_of <$> rows)
  = float_values (omap valid_pair rows).
Proof.
  unfold DailyCorrelation.window_pairs, float_values.
  induction 1 as [|doc rows Hdoc _ IH]; [done|].
  rewrite fmap_cons. cbn [omap list_omap].
  pose proof (entry_pair doc Hdoc) as Hpair.
  destruct (valid_pair doc) as [xy|].
  - destruct Hpair as [Hkeep Hxy].
    rewrite filter_cons_True by (cbv beta; by rewrite Hkeep).
    rewrite !fmap_cons. by rewrite Hxy, IH.
  - rewrite filter_cons_False by (cbv beta; rewrite Hpair; by intros []).
    exact IH.
Qed.

Lemma window_corr_typed (rows : list (document F)) :
  Forall metrics_typed rows →
  DailyCorrelation.window_corr (entry_of <$> rows)
  = DailyCorrelation.pearson_corr (float_values (omap valid_pair rows)).
Proof.
  intros Htyped. unfold DailyCorrelation.window_corr.
  rewrite window_pairs_typed by done.
  by destruct (omap valid_pair rows).
Qed.

Lemma last_rows_Forall {A} (P : A → Prop) (n : nat) (l : list A) :
  Forall P l → Forall P (last_rows n l).
Proof. apply Forall_drop. Qed.

Lemma window_rows_typed (window : Z) (docs : list (document F)) (i : nat) :
  Forall metrics_typed docs → Forall metrics_typed (window_rows window docs i).
Proof. intros Hall. by apply last_rows_Forall, Forall_take. Qed.

Lemma corr_at_typed (window : Z) (docs : list (document F)) (i : nat) :
  Forall metrics_typed docs →
  corr_at window docs i
  = DailyCorrelation.pearson_corr
      (float_values (omap valid_pair (window_rows window docs i))).
Proof.
  intros Htyped. unfold corr_at. by apply window_corr_typed, window_rows_typed.
Qed.

End pearson_spec.

(** ** What the pass writes *)
Section pass_theorems.
Context {F : Type} `{!PyFloat F}.

Implicit Types docs coll : list (document F).
Implicit Types doc d : document F.

Lemma corr_fields_corr (corr : option F) (now : Z) d :
  (DailyCorrelation.corr_fields corr now ∪ d) !! "rolling_corr_7d"
  = Some (of_option VFloat corr).
Proof.
  apply lookup_union_Some_l. unfold DailyCorrelation.corr_fields.
  by lookup_literal.
Qed.

Lemma corr_fields_frame (corr : option F) (now : Z) d (k : string) :
  k ≠ "rolling_corr_7d" → k ≠ "corr_updated_at" →
  (DailyCorrelation.corr_fields corr now ∪ d) !! k = d !! k.
Proof.
  intros H1 H2. apply lookup_union_r. unfold DailyCorrelation.corr_fields.
  rewrite lookup_insert_ne by done. by rewrite lookup_singleton_ne.
Qed.

Lemma corr_written_frame (window : Z) docs from clock reads d (k : string) :
  k ≠ "rolling_corr_7d" → k ≠ "corr_updated_at" →
  corr_written window docs from clock reads d !! k = d !! k.
Proof.
  intros H1 H2. unfold corr_written.
  destruct (corr_target window docs from d) as [[j c]|]; [|done].
  by apply corr_fields_frame.
Qed.

Lemma row_outcome_prefix (window : Z) docs docs' (i j : nat) :
  take (S i) docs = take (S i) docs' → (j ≤ i)%nat →
  row_outcome window docs j = row_outcome window docs' j.
Proof.
  intros Heq Hj. unfold row_outcome, corr_at.
  assert (docs !! j = docs' !! j) as ->.
  { rewrite <- (lookup_take_lt docs (S i) j), <- (lookup_take_lt docs' (S i) j)
      by lia. by rewrite Heq. }
  rewrite (window_rows_prefix window docs docs' j); [done|].
  assert (∀ l : list (document F), take (S j) l = take (S j) (take (S i) l))
    as Ht by (intros l; rewrite take_take; f_equal; lia).
  by rewrite (Ht docs), (Ht docs'), Heq.
Qed.

Lemma rows_fine_prefix (window : Z) docs docs' (i : nat) :
  take (S i) docs = take (S i) docs' →
  rows_fine window docs 0 i = rows_fine window docs' 0 i.
Proof.
  intros Heq. unfold rows_fine.
  assert (∀ j, j ∈ seq 0 (S i - 0) → (j ≤ i)%nat) as Hseq.
  { intros j Hj. apply elem_of_seq in Hj. lia. }
  induction (seq 0 (S i - 0)) as [|j js IH]; [done|]. simpl.
  rewrite (row_outcome_prefix window docs docs' i j) by (done || apply Hseq; left).
  rewrite IH; [done|]. intros j' Hj'. apply Hseq. by right.
Qed.

Lemma rows_fine_intro (window : Z) docs (i : nat) :
  (∀ j, (j ≤ i)%nat → raised (row_outcome window docs j) = false) →
  rows_fine window docs 0 i = true.
Proof.
  intros Hall. unfold rows_fine. apply forallb_forall. intros j Hj.
  apply in_seq in Hj. rewrite Hall; [done|lia].
Qed.


(** C4: the value of [rolling_corr_7d] on the row at position [i]
    after the pass is the same for two stores whose rows of the ticker
    agree on the positions [0..i], whatever the later rows hold. *)
Theorem rolling_corr_has_no_look_ahead
    (w1 w2 : world F) (ticker : string) (window : Z) (i p1 p2 : nat) doc :
  store_ok (daily_ticker_metrics w1) → store_ok (daily_ticker_metrics w2) →
  take (S i) (DailyCorrelation.ticker_rows ticker (daily_ticker_metrics w1))
  = take (S i) (DailyCorrelation.ticker_rows ticker (daily_ticker_metrics w2)) →
  DailyCorrelation.ticker_rows ticker (daily_ticker_metrics w1) !! i = Some doc →
  daily_ticker_metrics w1 !! p1 = Some doc →
  daily_ticker_metrics w2 !! p2 = Some doc →
  ∃ d1 d2,
    daily_ticker_metrics
      (DailyCorrelation.update_rolling_corr_for_ticker ticker window w1).2 !! p1
    = Some d1
    ∧ daily_ticker_metrics
        (DailyCorrelation.update_rolling_corr_for_ticker ticker window w2).2 !! p2
      = Some d2
    ∧ d1 !! "rolling_corr_7d" = d2 !! "rolling_corr_7d".
Proof.
  intros Hok1 Hok2 Heq Hi Hp1 Hp2.
  assert (DailyCorrelation.ticker_rows ticker (daily_ticker_metrics w2) !! i
          = Some doc) as Hi2.
  { rewrite <- (lookup_take_lt _ (S i) i) by lia. rewrite <- Heq.
    by rewrite lookup_take_lt by lia. }
  rewrite (pass_row window ticker w1 i p1 doc Hok1 Hi Hp1).
  rewrite (pass_row window ticker w2 i p2 doc Hok2 Hi2 Hp2). cbv zeta.
  rewrite <- (rows_fine_prefix window _ _ i Heq).
  unfold corr_at. rewrite <- (window_rows_prefix window _ _ i Heq).
  eexists _, _. split; [done|]. split; [done|].
  destruct (rows_fine window _ 0 i); [|done].
  destruct (DailyCorrelation.window_corr _) as [c|]; [|done].
  by rewrite !corr_fields_corr.
Qed.

(** The write of the correlation pass changes [rolling_corr_7d] and
    [corr_updated_at] and no other field of any row. *)
Lemma correlation_pass_frame
    (w : world F) (ticker : string) (window : Z) (p : nat) d :
  store_ok (daily_ticker_metrics w) →
  daily_ticker_metrics w !! p = Some d →
  ∃ d',
    daily_ticker_metrics
      (DailyCorrelation.update_rolling_corr_for_ticker ticker window w).2 !! p
    = Some d'
    ∧ ∀ k, k ≠ "rolling_corr_7d" → k ≠ "corr_updated_at" → d' !! k = d !! k.
Proof.
  intros Hok Hp. rewrite pass_daily by done.
  rewrite list_lookup_fmap, Hp. eexists. split; [done|].
  intros k H1 H2. by apply corr_written_frame.
Qed.

End pass_theorems.

(** ** Running the pipeline again *)
Section alike_facts.
Context {F : Type} `{!PyFloat F}.

Implicit Types docs coll : list (document F).
Implicit Types a b d e : document F.

Lemma agree_off_refl keys a : agree_off keys a a.
Proof. by intros k _. Qed.

Lemma agree_off_sym keys a b : agree_off keys a b → agree_off keys b a.
Proof. intros Hab k Hk. symmetry. by apply Hab. Qed.

Lemma agree_off_trans keys a b d :
  agree_off keys a b → agree_off keys b d → agree_off keys a d.
Proof. intros Hab Hbd k Hk. rewrite Hab by done. by apply Hbd. Qed.

Lemma agree_off_weaken keys keys' a b :
  keys ⊆ keys' → agree_off keys a b → agree_off keys' a b.
Proof. intros Hsub Hab k Hk. apply Hab. intros Hin. by apply Hk, Hsub. Qed.

Lemma corr_keys_unread : corr_keys ⊆ unread_keys.
Proof. unfold corr_keys, unread_keys. set_solver. Qed.

Lemma agree_off_corr_keys a b :
  agree_off corr_keys a b ↔
  ∀ k, k ≠ "rolling_corr_7d" → k ≠ "corr_updated_at" → a !! k = b !! k.
Proof.
  unfold agree_off, corr_keys. split; intros Hab k.
  - intros H1 H2. apply Hab. set_solver.
  - intros Hk. apply Hab; set_solver.
Qed.

(** The fields the pass reads are not among those it leaves unread. *)
Lemma read_field a b (k : string) :
  agree_off unread_keys a b →
  bool_decide (k ∉ unread_keys) = true → a !! k = b !! k.
Proof. intros Hab Hk. apply Hab. by apply bool_decide_eq_true in Hk. Qed.

Lemma entry_of_alike a b : agree_off unread_keys a b → entry_of a = entry_of b.
Proof.
  intros Hab. unfold entry_of, dict_get.
  by rewrite (read_field a b "date"), (read_field a b "daily_return"),
    (read_field a b "avg_sentiment_score").
Qed.

Lemma oid_of_alike a b : agree_off unread_keys a b → Mongo.oid_of a = Mongo.oid_of b.
Proof. intros Hab. unfold Mongo.oid_of. by rewrite (read_field a b "_id"). Qed.

Lemma matches_ticker_alike (v : value F) a b :
  agree_off unread_keys a b →
  Mongo.matches [("ticker", Mongo.CEq v)] a = Mongo.matches [("ticker", Mongo.CEq v)] b.
Proof.
  intros Hab. unfold Mongo.matches. cbn [forallb fst snd].
  by rewrite (read_field a b "ticker").
Qed.

Lemma find_alike (v : value F) coll coll' :
  Forall2 (agree_off unread_keys) coll coll' →
  Forall2 (agree_off unread_keys)
    (Mongo.find [("ticker", Mongo.CEq v)] coll)
    (Mongo.find [("ticker", Mongo.CEq v)] coll').
Proof.
  unfold Mongo.find. induction 1 as [|a b l l' Hab Hl IH]; [constructor|].
  rewrite !filter_cons. rewrite (matches_ticker_alike v a b Hab).
  destruct (Mongo.matches _ b); simpl; [by constructor|done].
Qed.

Lemma ticker_rows_alike (ticker : string) coll coll' :
  Forall2 (agree_off unread_keys) coll coll' →
  Forall2 (agree_off unread_keys)
    (DailyCorrelation.ticker_rows ticker coll)
    (DailyCorrelation.ticker_rows ticker coll').
Proof.
  intros Hcoll. unfold DailyCorrelation.ticker_rows, Mongo.sort_asc.
  apply sort_with_related; [|by apply find_alike].
  intros x x' y y' Hx Hy. unfold Mongo.sort_key.
  by rewrite (read_field x x' "date"), (read_field y y' "date").
Qed.

Lemma fmap_alike {A B C} (R : A → B → Prop) (f : A → C) (g : B → C) l l' :
  (∀ x y, R x y → f x = g y) → Forall2 R l l' → f <$> l = g <$> l'.
Proof.
  intros Hfg. induction 1 as [|x y l l' Hxy Hl IH]; [done|].
  rewrite !fmap_cons. f_equal; [by apply Hfg|done].
Qed.

Lemma window_rows_alike (window : Z) docs docs' (k : nat) :
  Forall2 (agree_off unread_keys) docs docs' →
  Forall2 (agree_off unread_keys)
    (window_rows window docs k) (window_rows window docs' k).
Proof.
  intros Hdocs. unfold window_rows, last_rows.
  rewrite <- (Forall2_length _ _ _ (Forall2_take _ _ _ (S k) Hdocs)).
  by apply Forall2_drop, Forall2_take.
Qed.

Lemma corr_at_alike (window : Z) docs docs' (k : nat) :
  Forall2 (agree_off unread_keys) docs docs' →
  corr_at window docs k = corr_at window docs' k.
Proof.
  intros Hdocs. unfold corr_at. f_equal.
  eapply fmap_alike; [apply entry_of_alike|by apply window_rows_alike].
Qed.

Lemma row_outcome_alike (window : Z) docs docs' (k : nat) :
  Forall2 (agree_off unread_keys) docs docs' →
  row_outcome window docs k = row_outcome window docs' k.
Proof.
  intros Hdocs. unfold row_outcome.
  rewrite (corr_at_alike window docs docs' k Hdocs).
  destruct (docs !! k) as [a|] eqn:Ha.
  - destruct (Forall2_lookup_l _ _ _ _ _ Hdocs Ha) as (b & -> & Hab).
    unfold getitem.
    by rewrite (read_field a b "date"), (read_field a b "_id").
  - apply lookup_ge_None in Ha. rewrite (Forall2_length _ _ _ Hdocs) in Ha.
    by rewrite (proj2 (lookup_ge_None docs' k) Ha).
Qed.

Lemma rows_fine_alike (window : Z) docs docs' (a b : nat) :
  Forall2 (agree_off unread_keys) docs docs' →
  rows_fine window docs a b = rows_fine window docs' a b.
Proof.
  intros Hdocs. unfold rows_fine.
  induction (seq a (S b - a)) as [|j js IH]; [done|]. cbn [forallb].
  by rewrite (row_outcome_alike window docs docs' j Hdocs), IH.
Qed.

Lemma all_fine_alike (window : Z) docs docs' (from : nat) :
  Forall2 (agree_off unread_keys) docs docs' →
  all_fine window docs from = all_fine window docs' from.
Proof.
  intros Hdocs. unfold all_fine. rewrite (Forall2_length _ _ _ Hdocs).
  induction (seq from (length docs' - from)) as [|j js IH]; [done|]. cbn [forallb].
  by rewrite (row_outcome_alike window docs docs' j Hdocs), IH.
Qed.

Lemma list_find_alike {A B} (R : A → B → Prop) (P : A → Prop) (Q : B → Prop)
    `{!∀ x, Decision (P x)} `{!∀ y, Decision (Q y)} l l' :
  (∀ x y, R x y → P x ↔ Q y) → Forall2 R l l' →
  fst <$> list_find P l = fst <$> list_find Q l'.
Proof.
  intros HPQ. induction 1 as [|x y l l' Hxy Hl IH]; [done|].
  cbn [list_find].
  destruct (decide (P x)) as [HP|HP], (decide (Q y)) as [HQ|HQ];
    [done| | |].
  - by apply (HPQ x y Hxy) in HP.
  - by apply (HPQ x y Hxy) in HQ.
  - rewrite <- !option_fmap_compose.
    destruct (list_find P l) as [[i u]|], (list_find Q l') as [[j v]|];
      simpl in *; congruence.
Qed.

Lemma corr_target_alike (window : Z) docs docs' (from : nat) d d' :
  Forall2 (agree_off unread_keys) docs docs' →
  agree_off unread_keys d d' →
  corr_target window docs from d = corr_target window docs' from d'.
Proof.
  intros Hdocs Hd. unfold corr_target.
  pose proof (list_find_alike (agree_off unread_keys)
                (λ doc, Mongo.oid_of doc = Mongo.oid_of d)
                (λ doc, Mongo.oid_of doc = Mongo.oid_of d')
                (drop from docs) (drop from docs')) as Hfind.
  destruct (list_find _ (drop from docs)) as [[k u]|],
    (list_find _ (drop from docs')) as [[k' u']|]; simpl in Hfind.
  - assert (k = k') as <-.
    { assert (Some k = Some k') as Hk; [|congruence].
      apply Hfind; [|by apply Forall2_drop].
      intros x y Hxy. by rewrite (oid_of_alike x y), (oid_of_alike d d'). }
    by rewrite (rows_fine_alike window docs docs'),
      (corr_at_alike window docs docs').
  - exfalso. assert (Some k = None) as Hk; [|done].
    apply Hfind; [|by apply Forall2_drop].
    intros x y Hxy. by rewrite (oid_of_alike x y), (oid_of_alike d d').
  - exfalso. assert (None = Some k') as Hk; [|done].
    apply Hfind; [|by apply Forall2_drop].
    intros x y Hxy. by rewrite (oid_of_alike x y), (oid_of_alike d d').
  - done.
Qed.

End alike_facts.

Section rerun_facts.
Context {F : Type} `{!PyFloat F}.
Context (window : Z).

Implicit Types docs rest pre coll : list (document F).
Implicit Types a b d e : document F.
Implicit Types w : world F.

(** The loop raises exactly when one of its rows does. *)
Lemma corr_loop_raised rest :
  ∀ pre history updated w,
    history = last_rows (Z.to_nat window) (entry_of <$> pre) →
    Forall has_oid rest →
    raised (DailyCorrelation.corr_loop window rest history updated w).1
    = negb (all_fine window (pre ++ rest) (length pre)).
Proof.
  unfold all_fine.
  induction rest as [|doc rest IH]; intros pre history updated w Hhist Hoids.
  { rewrite app_nil_r, Nat.sub_diag. done. }
  apply Forall_cons in Hoids as [[i0 Hid] Hoids].
  rewrite length_app. cbn [length].
  replace (length pre + S (length rest) - length pre)%nat
    with (S (length rest)) by lia.
  cbn [seq forallb].
  pose proof (row_outcome_here window pre doc rest) as Hrow.
  rewrite corr_loop_cons.
  destruct (getitem doc "date") as [dv|e] eqn:Hdate;
    [|by rewrite Hrow].
  cbv zeta. rewrite (entry_of_dated doc dv Hdate), Hhist.
  rewrite push_history_last.
  replace ((entry_of <$> pre) ++ [entry_of doc]) with (entry_of <$> (pre ++ [doc]))
    by (by rewrite fmap_app).
  rewrite result_bind_Ok in Hrow.
  destruct (DailyCorrelation.window_corr _) as [corr|e] eqn:Hcorr;
    [|by rewrite Hrow].
  rewrite (getitem_Some _ _ _ Hid) in Hrow |- *.
  rewrite !result_bind_Ok in Hrow. rewrite Hrow.
  cbn [raised negb andb].
  rewrite (IH (pre ++ [doc])) by done.
  rewrite <- app_assoc. cbn [app]. rewrite !length_app. cbn [length].
  replace (length pre + 1)%nat with (S (length pre)) by lia.
  do 3 f_equal. lia.
Qed.

Lemma pass_raised (ticker : string) w :
  store_ok (daily_ticker_metrics w) →
  raised (DailyCorrelation.update_rolling_corr_for_ticker ticker window w).1
  = negb (all_fine window
            (DailyCorrelation.ticker_rows ticker (daily_ticker_metrics w)) 0).
Proof.
  intros Hok. unfold DailyCorrelation.update_rolling_corr_for_ticker.
  unfold World.bind at 1, get_daily at 1.
  pose proof (ticker_rows_ok ticker _ Hok) as [Hoids _].
  pose proof (corr_loop_raised
                (DailyCorrelation.ticker_rows ticker (daily_ticker_metrics w))
                [] [] 0 w eq_refl Hoids) as Hloop.
  rewrite app_nil_l in Hloop. change (length (@nil (document F))) with 0%nat in Hloop.
  destruct (DailyCorrelation.ticker_rows ticker (daily_ticker_metrics w))
    as [|doc docs] eqn:Hrows.
  - exact Hloop.
  - rewrite <- Hloop. unfold World.bind.
    by destruct (DailyCorrelation.corr_loop window (doc :: docs) [] 0 w)
      as [[n|e] w'].
Qed.

(** The pass keeps the object ids, and with them a well-formed store. *)
Lemma corr_written_oid docs (from : nat) clock reads d :
  Mongo.oid_of (corr_written window docs from clock reads d) = Mongo.oid_of d.
Proof.
  unfold corr_written.
  destruct (corr_target window docs from d) as [[k c]|]; [|done].
  apply (oid_of_set _ d), corr_fields_no_oid.
Qed.

Lemma corr_written_has_oid docs (from : nat) clock reads d :
  has_oid d → has_oid (corr_written window docs from clock reads d).
Proof.
  intros Hd. unfold corr_written.
  destruct (corr_target window docs from d) as [[k c]|]; [|done].
  apply (has_oid_set _ d); [apply corr_fields_no_oid|done].
Qed.

Lemma pass_store_ok (ticker : string) w :
  store_ok (daily_ticker_metrics w) →
  store_ok (daily_ticker_metrics
              (DailyCorrelation.update_rolling_corr_for_ticker ticker window w).2).
Proof.
  intros Hok. rewrite pass_daily by done. destruct Hok as [Hoids Hnd]. split.
  - apply Forall_fmap. eapply Forall_impl; [exact Hoids|].
    intros d Hd. by apply corr_written_has_oid.
  - rewrite <- list_fmap_compose.
    erewrite list_fmap_ext; [exact Hnd|].
    intros k d _. simpl. apply corr_written_oid.
Qed.

(** The pass changes the two fields it writes and no other. *)
Lemma pass_frame (ticker : string) w :
  store_ok (daily_ticker_metrics w) →
  Forall2 (agree_off corr_keys)
    (daily_ticker_metrics
       (DailyCorrelation.update_rolling_corr_for_ticker ticker window w).2)
    (daily_ticker_metrics w).
Proof.
  intros Hok. rewrite pass_daily by done.
  apply Forall2_fmap_l, Forall_Forall2_diag, Forall_forall.
  intros d _. apply agree_off_corr_keys. intros k H1 H2.
  by apply corr_written_frame.
Qed.

End rerun_facts.

Section rerun_theorems.
Context {F : Type} `{!PyFloat F}.
Context (window : Z).

Implicit Types docs coll : list (document F).
Implicit Types a b d e : document F.
Implicit Types w : world F.

Lemma alike_trans coll1 coll2 coll3 :
  Forall2 (agree_off unread_keys) coll1 coll2 →
  Forall2 (agree_off unread_keys) coll2 coll3 →
  Forall2 (agree_off unread_keys) coll1 coll3.
Proof. apply Forall2_trans. intros x y z. apply agree_off_trans. Qed.

Lemma alike_sym coll1 coll2 :
  Forall2 (agree_off unread_keys) coll1 coll2 →
  Forall2 (agree_off unread_keys) coll2 coll1.
Proof.
  intros H12. apply Forall2_flip.
  eapply Forall2_impl; [exact H12|]. intros x y. apply agree_off_sym.
Qed.

Lemma frame_alike coll1 coll2 :
  Forall2 (agree_off corr_keys) coll1 coll2 →
  Forall2 (agree_off unread_keys) coll1 coll2.
Proof.
  intros H12. eapply Forall2_impl; [exact H12|].
  intros x y. apply agree_off_weaken, corr_keys_unread.
Qed.

Lemma pass_alike (ticker : string) w w' :
  store_ok (daily_ticker_metrics w) → store_ok (daily_ticker_metrics w') →
  Forall2 (agree_off unread_keys) (daily_ticker_metrics w) (daily_ticker_metrics w') →
  Forall2 (agree_off unread_keys)
    (daily_ticker_metrics
       (DailyCorrelation.update_rolling_corr_for_ticker ticker window w).2)
    (daily_ticker_metrics
       (DailyCorrelation.update_rolling_corr_for_ticker ticker window w').2).
Proof.
  intros Hok Hok' Hww.
  eapply alike_trans; [apply frame_alike, pass_frame, Hok|].
  eapply alike_trans; [exact Hww|].
  apply alike_sym, frame_alike, pass_frame, Hok'.
Qed.

Lemma pass_raised_alike (ticker : string) w w' :
  store_ok (daily_ticker_metrics w) → store_ok (daily_ticker_metrics w') →
  Forall2 (agree_off unread_keys) (daily_ticker_metrics w) (daily_ticker_metrics w') →
  raised (DailyCorrelation.update_rolling_corr_for_ticker ticker window w).1
  = raised (DailyCorrelation.update_rolling_corr_for_ticker ticker window w').1.
Proof.
  intros Hok Hok' Hww. rewrite !pass_raised by done. f_equal.
  by apply all_fine_alike, ticker_rows_alike.
Qed.

Lemma pass_same_write (ticker : string) w w' (p : nat) d d' :
  store_ok (daily_ticker_metrics w) → store_ok (daily_ticker_metrics w') →
  Forall2 (agree_off unread_keys) (daily_ticker_metrics w) (daily_ticker_metrics w') →
  daily_ticker_metrics w !! p = Some d → daily_ticker_metrics w' !! p = Some d' →
  ∃ e e',
    daily_ticker_metrics
      (DailyCorrelation.update_rolling_corr_for_ticker ticker window w).2 !! p
    = Some e
    ∧ daily_ticker_metrics
        (DailyCorrelation.update_rolling_corr_for_ticker ticker window w').2 !! p
      = Some e'
    ∧ same_write d d' e e'.
Proof.
  intros Hok Hok' Hww Hp Hp'. rewrite !pass_daily by done.
  rewrite !list_lookup_fmap, Hp, Hp'. eexists _, _.
  split; [reflexivity|]. split; [reflexivity|].
  unfold same_write, corr_written.
  rewrite (corr_target_alike window
             (DailyCorrelation.ticker_rows ticker (daily_ticker_metrics w))
             (DailyCorrelation.ticker_rows ticker (daily_ticker_metrics w'))
             0 d d');
    [|by apply ticker_rows_alike|by eapply Forall2_lookup_lr].
  destruct (corr_target window _ 0 d') as [[k c]|].
  - right. rewrite !corr_fields_corr. reflexivity.
  - left. split; reflexivity.
Qed.

Lemma same_write_trans d d' e e' f f' :
  same_write d d' e e' → same_write e e' f f' → same_write d d' f f'.
Proof.
  unfold same_write. intros [[-> ->]|He] [[-> ->]|Hf]; auto.
Qed.

(** The run over a list of tickers. *)
Lemma run_step (ticker : string) (ts : list string) w :
  for_each (ticker :: ts)
    (λ t, DailyCorrelation.update_rolling_corr_for_ticker t window) w
  = match DailyCorrelation.update_rolling_corr_for_ticker ticker window w with
    | (Ok _, w1) =>
        for_each ts
          (λ t, DailyCorrelation.update_rolling_corr_for_ticker t window) w1
    | (Raise e, w1) => (Raise e, w1)
    end.
Proof. reflexivity. Qed.

Lemma run_store_ok (ts : list string) :
  ∀ w, store_ok (daily_ticker_metrics w) →
    store_ok
      (daily_ticker_metrics
         (for_each ts
            (λ t, DailyCorrelation.update_rolling_corr_for_ticker t window) w).2)
    ∧ Forall2 (agree_off corr_keys)
        (daily_ticker_metrics
           (for_each ts
              (λ t, DailyCorrelation.update_rolling_corr_for_ticker t window) w).2)
        (daily_ticker_metrics w).
Proof.
  induction ts as [|ticker ts IH]; intros w Hok.
  { split; [exact Hok|].
    apply Forall_Forall2_diag, Forall_forall. intros d _. apply agree_off_refl. }
  rewrite run_step.
  pose proof (pass_store_ok window ticker w Hok) as Hok1.
  pose proof (pass_frame window ticker w Hok) as Hfr1.
  destruct (DailyCorrelation.update_rolling_corr_for_ticker ticker window w)
    as [[u|x] w1]; cbn [snd] in *; [|by split].
  destruct (IH w1 Hok1) as [Hok2 Hfr2]. split; [exact Hok2|].
  eapply Forall2_trans; [|exact Hfr2|exact Hfr1].
  intros x y z. apply agree_off_trans.
Qed.

Lemma run_same_write (ts : list string) :
  ∀ w w' (p : nat) d d',
    store_ok (daily_ticker_metrics w) → store_ok (daily_ticker_metrics w') →
    Forall2 (agree_off unread_keys)
      (daily_ticker_metrics w) (daily_ticker_metrics w') →
    daily_ticker_metrics w !! p = Some d → daily_ticker_metrics w' !! p = Some d' →
    ∃ e e',
      daily_ticker_metrics
        (for_each ts
           (λ t, DailyCorrelation.update_rolling_corr_for_ticker t window) w).2 !! p
      = Some e
      ∧ daily_ticker_metrics
          (for_each ts
             (λ t, DailyCorrelation.update_rolling_corr_for_ticker t window) w').2 !! p
        = Some e'
      ∧ same_write d d' e e'.
Proof.
  induction ts as [|ticker ts IH]; intros w w' p d d' Hok Hok' Hww Hp Hp'.
  { exists d, d'. split; [exact Hp|]. split; [exact Hp'|]. by left. }
  rewrite !run_step.
  pose proof (pass_store_ok window ticker w Hok) as Hok1.
  pose proof (pass_store_ok window ticker w' Hok') as Hok1'.
  pose proof (pass_alike ticker w w' Hok Hok' Hww) as Hww1.
  pose proof (pass_raised_alike ticker w w' Hok Hok' Hww) as Hr.
  destruct (pass_same_write ticker w w' p d d' Hok Hok' Hww Hp Hp')
    as (e & e' & He & He' & Hsame).
  destruct (DailyCorrelation.update_rolling_corr_for_ticker ticker window w)
    as [[u|x] w1],
    (DailyCorrelation.update_rolling_corr_for_ticker ticker window w')
    as [[u'|x'] w1']; cbn [fst snd raised] in *; try discriminate Hr.
  - destruct (IH w1 w1' p e e' Hok1 Hok1' Hww1 He He')
      as (f & f' & Hf & Hf' & Hsame').
    exists f, f'. split; [exact Hf|]. split; [exact Hf'|].
    by eapply same_write_trans.
  - by exists e, e'.
Qed.

End rerun_theorems.

(** ** Further properties of the correlation engine *)
Section correlation_extras.
Context {F : Type} `{!PyFloat F}.

Implicit Types docs coll : list (document F).
Implicit Types a b d e : document F.
Implicit Types w : world F.

(** The loop leaves the news, the prices and the clock's readings to
    come as they are. *)
Lemma corr_loop_inputs (window : Z) rest :
  ∀ history updated w,
    let w' := (DailyCorrelation.corr_loop window rest history updated w).2 in
    news_events w' = news_events w ∧ price_snapshots w' = price_snapshots w
    ∧ wall_clock w' = wall_clock w.
Proof.
  induction rest as [|doc rest IH]; intros history updated w; [done|].
  cbv zeta. rewrite corr_loop_cons.
  destruct (getitem doc "date") as [dv|e]; [|done]. cbv zeta.
  destruct (DailyCorrelation.window_corr _) as [corr|e]; [|done].
  destruct (getitem doc "_id") as [oid|e]; [|done].
  apply (IH _ _ (after_write w oid corr)).
Qed.

Lemma pass_unfold (window : Z) (ticker : string) w :
  DailyCorrelation.update_rolling_corr_for_ticker ticker window w
  = match DailyCorrelation.ticker_rows ticker (daily_ticker_metrics w) with
    | [] => (Ok (), w)
    | docs =>
        let r := DailyCorrelation.corr_loop window docs [] 0 w in
        (match r.1 with Ok _ => Ok () | Raise e => Raise e end, r.2)
    end.
Proof.
  unfold DailyCorrelation.update_rolling_corr_for_ticker, World.bind, get_daily.
  destruct (DailyCorrelation.ticker_rows ticker (daily_ticker_metrics w))
    as [|doc docs]; [done|].
  by destruct (DailyCorrelation.corr_loop window (doc :: docs) [] 0 w)
    as [[n|e] w'].
Qed.

Lemma pass_inputs (window : Z) (ticker : string) w :
  let w' := (DailyCorrelation.update_rolling_corr_for_ticker ticker window w).2 in
  news_events w' = news_events w ∧ price_snapshots w' = price_snapshots w
  ∧ wall_clock w' = wall_clock w.
Proof.
  cbv zeta. rewrite pass_unfold.
  destruct (DailyCorrelation.ticker_rows ticker (daily_ticker_metrics w))
    as [|doc docs]; [done|].
  apply corr_loop_inputs.
Qed.

Lemma run_inputs (window : Z) (ts : list string) :
  ∀ w,
    let w' :=
      (for_each ts
         (λ t, DailyCorrelation.update_rolling_corr_for_ticker t window) w).2 in
    news_events w' = news_events w ∧ price_snapshots w' = price_snapshots w
    ∧ wall_clock w' = wall_clock w.
Proof.
  induction ts as [|ticker ts IH]; intros w; [done|].
  cbv zeta. rewrite run_step.
  pose proof (pass_inputs window ticker w) as Hpass. cbv zeta in Hpass.
  destruct (DailyCorrelation.update_rolling_corr_for_ticker ticker window w)
    as [[u|x] w1]; cbn [snd] in *; [|done].
  destruct (IH w1) as (Hn & Hp & Hc). destruct Hpass as (Hn' & Hp' & Hc').
  by rewrite Hn, Hp, Hc.
Qed.

(** X1: a run of the correlation engine, whether it ends normally or
    with an exception, leaves the news and the prices as they were,
    adds and removes no row of the daily metrics, and changes no field
    of a row other than [rolling_corr_7d] and [corr_updated_at]. *)
Theorem run_rolling_corr_writes_two_fields (w : world F) (window : Z) :
  store_ok (daily_ticker_metrics w) →
  let w' := (DailyCorrelation.run_rolling_corr window w).2 in
  news_events w' = news_events w
  ∧ price_snapshots w' = price_snapshots w
  ∧ length (daily_ticker_metrics w') = length (daily_ticker_metrics w)
  ∧ ∀ (p : nat) d,
      daily_ticker_metrics w !! p = Some d →
      ∃ d', daily_ticker_metrics w' !! p = Some d'
            ∧ ∀ k : string,
                k ≠ "rolling_corr_7d" → k ≠ "corr_updated_at" → d' !! k = d !! k.
Proof.
  intros Hok w'. subst w'. unfold DailyCorrelation.run_rolling_corr.
  destruct (run_inputs window DailyCorrelation.TICKERS w) as (Hn & Hp & _).
  destruct (run_store_ok window DailyCorrelation.TICKERS w Hok) as [_ Hfr].
  split; [exact Hn|]. split; [exact Hp|].
  split; [by eapply Forall2_length|].
  intros p d Hd.
  destruct (Forall2_lookup_r _ _ _ _ _ Hfr Hd) as (d' & Hd' & Hagree).
  exists d'. split; [exact Hd'|]. by apply agree_off_corr_keys.
Qed.

(** Two rows of a well-formed store with the same object id are the
    same row. *)
Lemma store_ok_oid_inj coll x y :
  store_ok coll → x ∈ coll → y ∈ coll → Mongo.oid_of x = Mongo.oid_of y → x = y.
Proof.
  intros [_ Hnd] Hx Hy Hxy.
  apply list_elem_of_lookup in Hx as [i Hi]. apply list_elem_of_lookup in Hy as [j Hj].
  assert (i = j) as ->; [|congruence].
  eapply (NoDup_lookup (Mongo.oid_of <$> coll)); [done| |].
  - by rewrite list_lookup_fmap, Hi.
  - by rewrite list_lookup_fmap, Hj, Hxy.
Qed.

(** X2: the pass over one ticker leaves every row of another ticker
    exactly as it was, timestamps included. *)
Theorem pass_leaves_other_tickers
    (w : world F) (ticker other : string) (window : Z) (p : nat) d :
  store_ok (daily_ticker_metrics w) →
  daily_ticker_metrics w !! p = Some d →
  d !! "ticker" = Some (VStr other) → other ≠ ticker →
  daily_ticker_metrics
    (DailyCorrelation.update_rolling_corr_for_ticker ticker window w).2 !! p
  = Some d.
Proof.
  intros Hok Hp Hticker Hother. rewrite pass_daily by done.
  rewrite list_lookup_fmap, Hp. cbn [fmap option_fmap option_map]. f_equal.
  unfold corr_written, corr_target. rewrite drop_0.
  destruct (list_find _ _) as [[k x]|] eqn:Hfind; [|reflexivity].
  exfalso. apply list_find_Some in Hfind as (Hk & Hoid & _).
  apply list_elem_of_lookup_2 in Hk.
  assert (x ∈ daily_ticker_metrics w) as Hx by (by eapply ticker_rows_elem_of).
  assert (x = d) as ->.
  { eapply store_ok_oid_inj; [done|done| |done].
    by eapply list_elem_of_lookup_2. }
  rewrite ticker_rows_perm in Hk. apply find_elem_of in Hk as [Hm _].
  rewrite matches_ticker, Hticker in Hm.
  by apply bool_decide_eq_true in Hm.
Qed.

(** The loop ends with the exception of the first row that raises. *)
Lemma corr_loop_stops (window : Z) rest :
  ∀ pre history updated w (i : nat) (e : exn),
    history = last_rows (Z.to_nat window) (entry_of <$> pre) →
    Forall has_oid rest →
    (length pre ≤ i < length (pre ++ rest))%nat →
    (∀ j, (length pre ≤ j < i)%nat →
          raised (row_outcome window (pre ++ rest) j) = false) →
    row_outcome window (pre ++ rest) i = Raise e →
    (DailyCorrelation.corr_loop window rest history updated w).1 = Raise e.
Proof.
  induction rest as [|doc rest IH];
    intros pre history updated w i e Hhist Hoids Hi Hfine He.
  { rewrite app_nil_r in Hi. lia. }
  apply Forall_cons in Hoids as [[i0 Hid] Hoids].
  pose proof (row_outcome_here window pre doc rest) as Hrow.
  rewrite corr_loop_cons.
  destruct (decide (i = length pre)) as [->|Hne].
  - rewrite Hrow in He.
    destruct (getitem doc "date") as [dv|e0] eqn:Hdate; [|by simplify_eq/=].
    cbv zeta. rewrite (entry_of_dated doc dv Hdate), Hhist.
    rewrite push_history_last.
    replace ((entry_of <$> pre) ++ [entry_of doc])
      with (entry_of <$> (pre ++ [doc])) by (by rewrite fmap_app).
    rewrite result_bind_Ok in He.
    destruct (DailyCorrelation.window_corr _) as [corr|e0]; [|by simplify_eq/=].
    rewrite (getitem_Some _ _ _ Hid) in He. by rewrite !result_bind_Ok in He.
  - assert (raised (row_outcome window (pre ++ doc :: rest) (length pre)) = false)
      as Hhere by (apply Hfine; lia).
    rewrite Hrow in Hhere.
    destruct (getitem doc "date") as [dv|e0] eqn:Hdate; [|done].
    cbv zeta. rewrite (entry_of_dated doc dv Hdate), Hhist.
    rewrite push_history_last.
    replace ((entry_of <$> pre) ++ [entry_of doc])
      with (entry_of <$> (pre ++ [doc])) by (by rewrite fmap_app).
    rewrite result_bind_Ok in Hhere.
    destruct (DailyCorrelation.window_corr _) as [corr|e0]; [|done].
    rewrite (getitem_Some _ _ _ Hid).
    rewrite length_app in Hi. cbn [length] in Hi.
    apply (IH (pre ++ [doc]) _ _ _ i e); [done|done| | |].
    + rewrite <- app_assoc, !length_app. cbn [length app]. lia.
    + intros j Hj. rewrite <- app_assoc. cbn [app]. apply Hfine.
      rewrite length_app in Hj. cbn [length] in Hj. lia.
    + by rewrite <- app_assoc.
Qed.

Lemma row_outcome_corr (window : Z) docs (j : nat) :
  raised (row_outcome window docs j) = false →
  ∃ c, corr_at window docs j = Ok c.
Proof.
  unfold row_outcome. destruct (docs !! j) as [doc|]; [|done].
  destruct (getitem doc "date"); [|done]. rewrite result_bind_Ok.
  destruct (corr_at window docs j) as [c|]; [|done]. by exists c.
Qed.

Lemma rows_fine_failed (window : Z) docs (i j : nat) :
  raised (row_outcome window docs i) = true → (i ≤ j)%nat →
  rows_fine window docs 0 j = false.
Proof.
  intros Hi Hij. destruct (rows_fine window docs 0 j) eqn:Hfine; [|done].
  unfold rows_fine in Hfine. rewrite forallb_forall in Hfine.
  specialize (Hfine i). rewrite Hi in Hfine.
  symmetry. apply Hfine, in_seq. lia.
Qed.

(** X3: when a row of the ticker raises (a missing date, an overflow
    in the arithmetic), the pass ends with the exception of the first
    such row and nothing is rolled back: every row before it carries
    its correlation, and that row and every later one are left as they
    were.  The rows hold floats or null in their metric fields. *)
Theorem pass_stops_at_first_failing_row
    (w : world F) (ticker : string) (window : Z) (i : nat) (e : exn) :
  let docs := DailyCorrelation.ticker_rows ticker (daily_ticker_metrics w) in
  let w' := (DailyCorrelation.update_rolling_corr_for_ticker ticker window w).2 in
  store_ok (daily_ticker_metrics w) →
  Forall metrics_typed docs →
  (i < length docs)%nat →
  (∀ j, (j < i)%nat → raised (row_outcome window docs j) = false) →
  row_outcome window docs i = Raise e →
  (DailyCorrelation.update_rolling_corr_for_ticker ticker window w).1 = Raise e
  ∧ ∀ (j p : nat) doc,
      docs !! j = Some doc → daily_ticker_metrics w !! p = Some doc →
      ((i ≤ j)%nat → daily_ticker_metrics w' !! p = Some doc)
      ∧ ((j < i)%nat →
         ∃ c doc',
           corr_at window docs j = Ok c
           ∧ daily_ticker_metrics w' !! p = Some doc'
           ∧ doc' !! "rolling_corr_7d" = Some (of_option VFloat c)).
Proof.
  intros docs w' Hok _ Hi Hfine He. split.
  - rewrite pass_unfold. fold docs.
    pose proof (ticker_rows_ok ticker _ Hok) as [Hoids _]. fold docs in Hoids.
    pose proof (corr_loop_stops window docs [] [] 0 w i e eq_refl Hoids) as Hloop.
    rewrite app_nil_l in Hloop. cbn [length] in Hloop.
    destruct docs as [|doc docs']; [simpl in Hi; lia|].
    cbv zeta. rewrite Hloop; [done|lia| |done].
    intros j Hj. apply Hfine. lia.
  - intros j p doc Hj Hp. subst w'.
    rewrite (pass_row window ticker w j p doc Hok Hj Hp). cbv zeta. fold docs.
    split.
    + intros Hij. rewrite (rows_fine_failed window docs i j); [done| |done].
      by rewrite He.
    + intros Hji. rewrite rows_fine_intro by (intros k Hk; apply Hfine; lia).
      destruct (row_outcome_corr window docs j (Hfine j Hji)) as [c Hc].
      rewrite Hc. eexists _, _. split; [reflexivity|]. split; [reflexivity|].
      apply corr_fields_corr.
Qed.

(** X4: running the correlation engine again on the store the first
    run has left gives, row for row, the same fields but for the time
    of the write in [corr_updated_at]; this holds also when the runs
    end with an exception. *)
Theorem run_rolling_corr_again (w : world F) (window : Z) :
  store_ok (daily_ticker_metrics w) →
  let w1 := (DailyCorrelation.run_rolling_corr window w).2 in
  let w2 := (DailyCorrelation.run_rolling_corr window w1).2 in
  length (daily_ticker_metrics w2) = length (daily_ticker_metrics w1)
  ∧ ∀ (p : nat) d1 d2,
      daily_ticker_metrics w1 !! p = Some d1 →
      daily_ticker_metrics w2 !! p = Some d2 →
      ∀ k : string, k ≠ "corr_updated_at" → d2 !! k = d1 !! k.
Proof.
  intros Hok w1 w2. subst w1 w2. unfold DailyCorrelation.run_rolling_corr.
  set (run := for_each DailyCorrelation.TICKERS
                (λ t, DailyCorrelation.update_rolling_corr_for_ticker t window)).
  destruct (run_store_ok window DailyCorrelation.TICKERS w Hok) as [Hok1 Hfr1].
  fold run in Hok1, Hfr1.
  destruct (run_store_ok window DailyCorrelation.TICKERS (run w).2 Hok1)
    as [_ Hfr2].
  fold run in Hfr2.
  split; [by eapply Forall2_length|].
  intros p d1 d2 Hd1 Hd2 k Hk.
  destruct (Forall2_lookup_l _ _ _ _ _ Hfr1 Hd1) as (d & Hd & _).
  destruct (run_same_write window DailyCorrelation.TICKERS w (run w).2 p d d1
              Hok Hok1) as (e & e' & He & He' & Hsame); [|done|done|].
  { by apply alike_sym, frame_alike. }
  fold run in He, He'. rewrite Hd1 in He. rewrite Hd2 in He'.
  assert (e = d1) as -> by congruence. assert (e' = d2) as -> by congruence.
  destruct Hsame as [[_ Heq]|Hrc]; [by rewrite Heq|].
  destruct (decide (k = "rolling_corr_7d")) as [->|Hne]; [done|].
  pose proof (Forall2_lookup_lr _ _ _ _ _ _ Hfr2 Hd2 Hd1) as Hagree.
  by apply (proj1 (agree_off_corr_keys d2 d1) Hagree).
Qed.


Lemma omap_length_le {A B} (f : A → option B) (l : list A) :
  (length (omap f l) ≤ length l)%nat.
Proof.
  induction l as [|x l IH]; [done|]. cbn [omap list_omap].
  destruct (f x); simpl; lia.
Qed.

(** X5: with a window of one row or less the engine has no two pairs
    to correlate: the pass over a ticker whose rows carry a date and
    floats or null in their metric fields ends normally and writes null
    on every row of the ticker. *)
Theorem narrow_window_writes_null
    (w : world F) (ticker : string) (window : Z) :
  let docs := DailyCorrelation.ticker_rows ticker (daily_ticker_metrics w) in
  let w' := (DailyCorrelation.update_rolling_corr_for_ticker ticker window w).2 in
  store_ok (daily_ticker_metrics w) →
  Forall dated docs → Forall metrics_typed docs → window ≤ 1 →
  (DailyCorrelation.update_rolling_corr_for_ticker ticker window w).1 = Ok ()
  ∧ ∀ (i p : nat) doc,
      docs !! i = Some doc → daily_ticker_metrics w !! p = Some doc →
      ∃ doc', daily_ticker_metrics w' !! p = Some doc'
              ∧ doc' !! "rolling_corr_7d" = Some VNull.
Proof.
  intros docs w' Hok Hdated Htyped Hwin.
  pose proof (ticker_rows_ok ticker _ Hok) as [Hoids _]. fold docs in Hoids.
  assert (∀ j, corr_at window docs j = Ok None) as Hnull.
  { intros j. rewrite corr_at_typed by done. apply pearson_corr_few.
    unfold float_values. rewrite length_fmap.
    pose proof (omap_length_le valid_pair (window_rows window docs j)) as Hle.
    unfold window_rows in Hle |- *.
    rewrite last_rows_length in Hle. lia. }
  assert (∀ j, (j < length docs)%nat →
               raised (row_outcome window docs j) = false) as Hfine.
  { intros j Hj. unfold row_outcome.
    destruct (docs !! j) as [dj|] eqn:Hdj;
      [|apply lookup_ge_None in Hdj; lia].
    destruct (Forall_lookup_1 _ _ _ _ Hdated Hdj) as [t Ht].
    destruct (Forall_lookup_1 _ _ _ _ Hoids Hdj) as [o Ho].
    by rewrite (getitem_Some _ _ _ Ht), (getitem_Some _ _ _ Ho), Hnull. }
  split.
  - pose proof (pass_raised window ticker w Hok) as Hr. fold docs in Hr.
    assert (all_fine window docs 0 = true) as Hall.
    { unfold all_fine. apply forallb_forall. intros j Hj.
      apply in_seq in Hj. rewrite Hfine; [done|lia]. }
    rewrite Hall in Hr.
    by destruct (DailyCorrelation.update_rolling_corr_for_ticker ticker window w).1
      as [[]|].
  - intros i p doc Hi Hp. subst w'.
    rewrite (pass_row window ticker w i p doc Hok Hi Hp). cbv zeta. fold docs.
    rewrite rows_fine_intro, Hnull.
    + eexists. split; [reflexivity|]. apply (corr_fields_corr None).
    + intros j Hj. apply Hfine. apply lookup_lt_Some in Hi. lia.
Qed.

End correlation_extras.

(** ** Further properties of the reader and of the endpoint *)
Section reader_extras.
Context {F : Type} `{!PyFloat F} `{!PyText}.

Implicit Types coll rows : list (document F).
Implicit Types doc : document F.
Implicit Types w : world F.

(** The rows the reader selects, in the order it returns them. *)
Lemma timeseries_selected w (ticker : string) (days_back : Z) :
  let rows := rows_of ticker (daily_ticker_metrics w) in
  rows ≠ [] → Forall dated rows →
  (∀ latest, latest_date_of rows latest → in_calendar (latest - (days_back - 1))) →
  ∃ latest pts,
    let selected :=
      Mongo.sort_asc "date"
        (Mongo.find [("ticker", Mongo.CEq (VStr ticker));
                     ("date", Mongo.CGte
                                (datetime_at_midnight (latest - (days_back - 1))))]
           (daily_ticker_metrics w)) in
    TimeseriesBuilder.build_ticker_timeseries ticker days_back w
    = (Ok {| TimeseriesBuilder.ticker := ticker;
             TimeseriesBuilder.from_date :=
               Some (strftime_ymd (latest - (days_back - 1)));
             TimeseriesBuilder.to_date := Some (strftime_ymd latest);
             TimeseriesBuilder.points := pts |}, w)
    ∧ latest_date_of rows latest
    ∧ Forall2 renders selected pts.
Proof.
  intros rows Hne Hdated Hcal.
  destruct (latest_date_found _ _ Hne Hdated) as (latest & Hlatest & Hspec).
  specialize (Hcal latest Hspec).
  set (selected :=
         Mongo.sort_asc "date"
           (Mongo.find [("ticker", Mongo.CEq (VStr ticker));
                        ("date", Mongo.CGte
                                   (datetime_at_midnight (latest - (days_back - 1))))]
              (daily_ticker_metrics w))).
  assert (Forall dated selected) as Hdsel.
  { apply Forall_forall. intros doc Hdoc.
    apply sort_with_elem_of, find_elem_of in Hdoc as [Hm _].
    rewrite matches_window in Hm.
    unfold on_or_after, row_date in Hm. apply andb_true_iff in Hm as [_ Hd].
    destruct (doc !! "date") as [[]|] eqn:Hdate; try done. by eexists. }
  destruct (points_render selected Hdsel) as (pts & Hpts & Hrender).
  exists latest, pts. cbv zeta. fold selected.
  split; [|by split].
  unfold TimeseriesBuilder.build_ticker_timeseries, World.bind, get_daily, lift.
  rewrite Hlatest, date_sub_days_in by done. fold selected. by rewrite Hpts.
Qed.

(** The reader raises when the first day of the range is outside the
    calendar. *)
Lemma timeseries_out_of_calendar w (ticker : string) (days_back : Z) :
  let rows := rows_of ticker (daily_ticker_metrics w) in
  rows ≠ [] → Forall dated rows →
  (∀ latest, latest_date_of rows latest → ¬ in_calendar (latest - (days_back - 1))) →
  TimeseriesBuilder.build_ticker_timeseries ticker days_back w
  = (Raise OverflowError, w).
Proof.
  intros rows Hne Hdated Hcal.
  destruct (latest_date_found _ _ Hne Hdated) as (latest & Hlatest & Hspec).
  specialize (Hcal latest Hspec).
  unfold TimeseriesBuilder.build_ticker_timeseries, World.bind, get_daily, lift.
  by rewrite Hlatest, date_sub_days_out.
Qed.

Lemma matches_ticker_true (ticker : string) doc :
  Mongo.matches [("ticker", Mongo.CEq (VStr ticker))] doc = true
  ↔ doc !! "ticker" = Some (VStr ticker).
Proof.
  rewrite matches_ticker.
  destruct (doc !! "ticker") as [[| | |s| |]|]; try (split; intros; discriminate).
  rewrite bool_decide_eq_true. split; [by intros ->|by intros [= ->]].
Qed.

Lemma on_or_after_true (ticker : string) (start : date) doc :
  on_or_after ticker start doc = true
  ↔ doc !! "ticker" = Some (VStr ticker)
    ∧ ∃ d, row_date doc = Some d ∧ start ≤ d.
Proof.
  unfold on_or_after. rewrite andb_true_iff.
  rewrite <- (matches_ticker_true ticker doc), matches_ticker.
  apply and_iff_compat_l.
  destruct (row_date doc) as [d|].
  - rewrite bool_decide_eq_true. split; [by exists d|].
    by intros (d' & [= ->] & Hle).
  - split; [done|]. by intros (d' & Hd' & _).
Qed.

Lemma selected_rows (ticker : string) (start : date) coll doc :
  doc ∈ Mongo.sort_asc "date"
          (Mongo.find [("ticker", Mongo.CEq (VStr ticker));
                       ("date", Mongo.CGte (datetime_at_midnight start))] coll)
  ↔ doc ∈ rows_of ticker coll ∧ ∃ d, row_date doc = Some d ∧ start ≤ d.
Proof.
  unfold Mongo.sort_asc, rows_of. rewrite sort_with_elem_of, !find_elem_of.
  rewrite matches_window, on_or_after_true, matches_ticker_true. tauto.
Qed.

Lemma selected_sublist (ticker : string) (start : date) coll :
  Mongo.find [("ticker", Mongo.CEq (VStr ticker));
              ("date", Mongo.CGte (datetime_at_midnight start))] coll
  `sublist_of` rows_of ticker coll.
Proof.
  unfold rows_of, Mongo.find. induction coll as [|doc coll IH]; [done|].
  rewrite !filter_cons. rewrite matches_window, matches_ticker.
  unfold on_or_after.
  destruct (doc !! "ticker") as [[| | |s| |]|]; simpl; try done.
  destruct (bool_decide (s = ticker)); simpl; [|done].
  destruct (row_date doc) as [d|]; simpl; [|by constructor].
  destruct (bool_decide (start ≤ d)); by constructor.
Qed.

(** A list of distinct days within a range of [n] days has at most [n]
    elements. *)
Lemma NoDup_bounded_length (l : list Z) (a n : Z) :
  NoDup l → (∀ x, x ∈ l → a ≤ x < a + n) → (length l ≤ Z.to_nat n)%nat.
Proof.
  intros Hnd Hin. rewrite <- (length_seqZ a n).
  apply submseteq_length, NoDup_submseteq; [done|].
  intros x Hx. apply elem_of_seqZ. by apply Hin.
Qed.

(** X6: when no two rows of the ticker share a date and the first day
    of the range, the latest stored date minus [days_back - 1] days, is
    a date of the calendar, the reader returns at most [days_back]
    points; with [days_back] zero or negative it returns no point at
    all, though the ticker has rows. *)
Theorem timeseries_has_at_most_days_back_points
    w (ticker : string) (days_back : Z) :
  let rows := rows_of ticker (daily_ticker_metrics w) in
  rows ≠ [] → Forall dated rows → NoDup (row_date <$> rows) →
  (∀ latest, latest_date_of rows latest → in_calendar (latest - (days_back - 1))) →
  ∃ data,
    (TimeseriesBuilder.build_ticker_timeseries ticker days_back w).1 = Ok data
    ∧ (length (TimeseriesBuilder.points data) ≤ Z.to_nat days_back)%nat.
Proof.
  intros rows Hne Hdated Hnd Hcal.
  destruct (timeseries_selected w ticker days_back Hne Hdated Hcal)
    as (latest & pts & Hrun & [_ Hmax] & Hrender).
  cbv zeta in Hrun, Hrender. rewrite Hrun. eexists. split; [reflexivity|].
  cbn [TimeseriesBuilder.points]. rewrite <- (Forall2_length _ _ _ Hrender).
  set (start := latest - (days_back - 1)) in *.
  unfold Mongo.sort_asc. rewrite sort_with_length.
  set (sel := Mongo.find _ (daily_ticker_metrics w)).
  assert (sel `sublist_of` rows) as Hsub by apply selected_sublist.
  assert (row_date <$> sel = Some <$> omap row_date sel) as Hdates.
  { assert (Forall dated sel) as Hd.
    { apply Forall_forall. intros doc Hdoc.
      rewrite Forall_forall in Hdated. apply Hdated.
      assert (doc ∈ Mongo.sort_asc "date" sel) as Hsel
        by (by apply sort_with_elem_of).
      by apply selected_rows in Hsel as [? _]. }
    clear -Hd. induction Hd as [|doc l [t Ht] _ IH]; [done|].
    cbn [fmap list_fmap omap list_omap]. unfold row_date at 1 3. rewrite Ht.
    cbn [fmap list_fmap]. by f_equal. }
  assert (NoDup (omap row_date sel)) as Hnd'.
  { apply (NoDup_fmap_1 Some). rewrite <- Hdates.
    eapply sublist_NoDup; [exact Hnd|]. by apply fmap_sublist. }
  rewrite <- (length_fmap row_date), Hdates, length_fmap.
  apply (NoDup_bounded_length _ start); [done|].
  intros d Hd. apply list_elem_of_omap in Hd as (doc & Hdoc & Hdate).
  assert (doc ∈ Mongo.sort_asc "date" sel) as Hsel
    by (by apply sort_with_elem_of).
  apply selected_rows in Hsel as (Hrows & d' & Hd' & Hle).
  assert (d' = d) as -> by congruence.
  specialize (Hmax doc d Hrows Hdate). unfold start. lia.
Qed.

(** X7: for a supported ticker that has rows, [days] within the
    bounds of the endpoint (1 to 90) and a range that starts inside
    the calendar, the endpoint passes on what the reader returns, and
    the points are not empty: the row of the latest date is always
    among them. *)
Theorem endpoint_returns_the_series w (ticker : string) (days : Z) :
  let t := str_upper ticker in
  let rows := rows_of t (daily_ticker_metrics w) in
  t ∈ Api.TICKERS → rows ≠ [] → Forall dated rows → 1 ≤ days ≤ 90 →
  (∀ latest, latest_date_of rows latest → in_calendar (latest - (days - 1))) →
  ∃ data,
    Api.get_ticker_timeseries ticker days w = (Ok data, w)
    ∧ TimeseriesBuilder.build_ticker_timeseries t days w = (Ok data, w)
    ∧ TimeseriesBuilder.points data ≠ [].
Proof.
  intros t rows Hin Hne Hdated Hdays Hcal.
  destruct (timeseries_selected w t days Hne Hdated Hcal)
    as (latest & pts & Hrun & [(doc & Hdoc & Hdate) _] & Hrender).
  cbv zeta in Hrun, Hrender.
  assert (pts ≠ []) as Hpts.
  { intros ->. apply Forall2_nil_inv_r in Hrender.
    assert (doc ∈ Mongo.sort_asc "date"
              (Mongo.find [("ticker", Mongo.CEq (VStr t));
                           ("date", Mongo.CGte
                                      (datetime_at_midnight (latest - (days - 1))))]
                 (daily_ticker_metrics w))) as Hsel.
    { apply selected_rows. split; [done|]. exists latest. split; [done|lia]. }
    rewrite Hrender in Hsel. by apply elem_of_nil in Hsel. }
  eexists. split; [|split; [exact Hrun|exact Hpts]].
  unfold Api.get_ticker_timeseries. fold t.
  rewrite bool_decide_eq_false_2 by (by intros ?).
  unfold World.bind. rewrite Hrun. cbn [TimeseriesBuilder.points].
  by destruct pts.
Qed.

(** X8: the reader returns the early result, without [from_date] and
    [to_date] and with no point, exactly when the ticker has no row;
    it does not raise then and leaves the store as it is. *)
Theorem timeseries_without_dates_iff_no_rows w (ticker : string) (days_back : Z) :
  let rows := rows_of ticker (daily_ticker_metrics w) in
  Forall dated rows →
  rows = [] ↔
  TimeseriesBuilder.build_ticker_timeseries ticker days_back w
  = (Ok {| TimeseriesBuilder.ticker := ticker;
           TimeseriesBuilder.from_date := None;
           TimeseriesBuilder.to_date := None;
           TimeseriesBuilder.points := [] |}, w).
Proof.
  intros rows Hdated. split.
  - intros Hnone. by apply timeseries_no_rows.
  - intros Hrun. destruct (decide (rows = [])) as [|Hne]; [done|].
    destruct (latest_date_found _ _ Hne Hdated) as (latest & Hlatest & _).
    revert Hrun.
    unfold TimeseriesBuilder.build_ticker_timeseries, World.bind, get_daily, lift.
    rewrite Hlatest. destruct (date_sub_days _ _) as [start|]; [|discriminate].
    destruct (mapM _ _); discriminate.
Qed.

End reader_extras.

(** ** Further properties of the aggregator *)
Section aggregator_extras.
Context {F : Type} `{!PyFloat F}.

Implicit Types coll rows : list (document F).
Implicit Types doc : document F.
Implicit Types w : world F.

Lemma midnight_lt (d t : Z) :
  t < datetime_at_midnight d + us_per_day ↔ datetime_date t ≤ d.
Proof.
  unfold datetime_at_midnight, datetime_date, us_per_day. split; intros Hlt.
  - assert (t `div` 86400000000 < d + 1); [|lia].
    apply Z.div_lt_upper_bound; lia.
  - pose proof (Z.mod_pos_bound t 86400000000).
    pose proof (Z.div_mod t 86400000000). nia.
Qed.

(** The query of the aggregator selects the day. *)
Lemma matches_day (ticker : string) (d : date) doc :
  Mongo.matches
    [("ticker", Mongo.CEq (VStr ticker));
     ("published_at", Mongo.CGte (datetime_at_midnight d));
     ("published_at", Mongo.CLt (datetime_at_midnight d + us_per_day));
     ("sentiment_score", Mongo.CNeNull)] doc
  = scored_on ticker d doc.
Proof.
  unfold Mongo.matches, scored_on. cbn [forallb fst snd].
  rewrite andb_true_r.
  destruct (doc !! "ticker") as [[| | |s| |]|]; simpl; try done.
  destruct (bool_decide (s = ticker)); simpl; [|done].
  destruct (doc !! "published_at") as [[| | | |t|]|]; simpl; try done.
  assert (bool_decide (datetime_at_midnight d ≤ t)
          && bool_decide (t < datetime_at_midnight d + us_per_day)
          = bool_decide (datetime_date t = d)) as Hday.
  { apply eq_true_iff_eq.
    rewrite andb_true_iff, !bool_decide_eq_true, midnight_le, midnight_lt. lia. }
  rewrite andb_assoc, Hday.
  by destruct (doc !! "sentiment_score").
Qed.

Lemma qualifying_events_filter coll (ticker : string) (d : date) :
  qualifying_events coll ticker d = filter (λ doc, scored_on ticker d doc) coll.
Proof.
  unfold qualifying_events, Mongo.find. apply list_filter_iff.
  intros doc. by rewrite matches_day.
Qed.

Lemma aggregate_count coll (ticker : string) (d : date) avg dom (n : Z) :
  DailyAggregator.aggregate_sentiment_for_day coll ticker d = Ok (avg, dom, n) →
  n = Z.of_nat (length (qualifying_events coll ticker d)).
Proof.
  unfold DailyAggregator.aggregate_sentiment_for_day.
  change (DailyAggregator.start_of_day d + timedelta_days 1)
    with (datetime_at_midnight d + us_per_day).
  change (DailyAggregator.start_of_day d) with (datetime_at_midnight d).
  fold (qualifying_events coll ticker d).
  destruct (qualifying_events coll ticker d) as [|ev events];
    [by intros [= _ _ <-]|].
  rewrite fmap_cons. cbv zeta. cbv iota.
  destruct (mapM _ _) as [scores|e]; [|done]. rewrite result_bind_Ok.
  destruct (match scores with [] => _ | _ => _ end) as [a|e]; [|done].
  rewrite result_bind_Ok. intros [= _ _ <-].
  by rewrite length_fmap.
Qed.

(** X9: the article count of a day is the number of stored events of
    the ticker that carry a score and whose [published_at] falls on
    that calendar day: the half-open window of the query, from midnight
    to the next midnight, selects the day and nothing else. *)
Theorem article_count_is_of_the_day
    coll (ticker : string) (d : date) avg dom (n : Z) :
  DailyAggregator.aggregate_sentiment_for_day coll ticker d = Ok (avg, dom, n) →
  n = Z.of_nat (length (filter (λ doc, scored_on ticker d doc) coll)).
Proof.
  intros Hrun. rewrite <- qualifying_events_filter. by eapply aggregate_count.
Qed.

(** The entry of a date is that of the last point of the date. *)
Lemma returns_loop_last (pts : list (Z * F)) prev m (i : nat) (d : Z) (c : F) :
  pts !! i = Some (d, c) →
  (∀ (j : nat) p, pts !! j = Some p → (i < j)%nat → p.1 ≠ d) →
  DailyAggregator.returns_loop pts prev m !! d
  = Some {| DailyAggregator.close_price := c;
            DailyAggregator.daily_return := return_at pts prev i c |}.
Proof.
  revert prev m i. induction pts as [|[d0 c0] pts IH]; intros prev m i Hi Hlast;
    [done|].
  destruct i as [|i]; simpl in *.
  - simplify_eq. rewrite returns_loop_notin.
    + rewrite lookup_insert_eq. f_equal. f_equal.
      unfold return_on. destruct prev as [p|]; simpl; [|done].
      by destruct (feq_zero p).
    + intros Hin. apply list_elem_of_fmap in Hin as (p & Hp & Hin).
      apply list_elem_of_lookup in Hin as [j Hj].
      apply (Hlast (S j) p); [done|lia|done].
  - rewrite (IH _ _ i); [|done|].
    + f_equal. f_equal. destruct i as [|i]; simpl; done.
    + intros j p Hj Hij. apply (Hlast (S j) p); [done|lia].
Qed.

Lemma returns_loop_keys (pts : list (Z * F)) prev m (d : Z) :
  is_Some (DailyAggregator.returns_loop pts prev m !! d)
  ↔ d ∈ pts.*1 ∨ is_Some (m !! d).
Proof.
  revert prev m. induction pts as [|[d0 c0] pts IH]; intros prev m.
  { simpl. rewrite elem_of_nil. tauto. }
  cbn [DailyAggregator.returns_loop fmap list_fmap fst]. rewrite IH, elem_of_cons.
  destruct (decide (d = d0)) as [->|Hne].
  - rewrite lookup_insert_eq. split; [auto|]. intros _. right. by eexists.
  - rewrite lookup_insert_ne by done. tauto.
Qed.

Lemma point_matches_lookup rows (pts : list (Z * F)) (i : nat) doc :
  Forall2 point_matches rows pts → rows !! i = Some doc →
  ∃ p, pts !! i = Some p ∧ point_matches doc p.
Proof. intros Hall Hi. by eapply Forall2_lookup_l. Qed.

(** X10: the price series holds an entry exactly for the dates of the
    candles, and the entry of a date is made from the last candle of
    that date in the order of the cursor: its close, and the return
    against the candle met just before it, be that one of the same
    date or not; the return is null at the first candle and when the
    previous close is zero. *)
Theorem price_series_keeps_last_candle_of_a_date
    (prices_coll : list (document F)) (ticker : string) :
  let rows := candles ticker prices_coll in
  Forall candle_ok rows →
  ∃ series,
    DailyAggregator.build_price_series prices_coll ticker = Ok series
    ∧ (∀ d, is_Some (series !! d) ↔ Some d ∈ candle_date <$> rows)
    ∧ ∀ (i : nat) doc t c,
        rows !! i = Some doc →
        doc !! "ts" = Some (VDate t) → doc !! "close" = Some (VFloat c) →
        (∀ (j : nat) doc',
           rows !! j = Some doc' → (i < j)%nat →
           candle_date doc' ≠ Some (datetime_date t)) →
        series !! datetime_date t
        = Some {| DailyAggregator.close_price := c;
                  DailyAggregator.daily_return := return_on_previous rows i c |}.
Proof.
  intros rows Hok. unfold DailyAggregator.build_price_series.
  fold (candles ticker prices_coll). fold rows.
  destruct (candle_points _ Hok) as (pts & Hpts & Hall).
  exists (DailyAggregator.returns_loop pts None ∅).
  pose proof (candle_dates_of_points rows pts Hall) as Hdates.
  split; [|split].
  - destruct rows as [|doc rows'] eqn:Hrows; [|by rewrite Hpts].
    apply Forall2_nil_inv_l in Hall. by subst.
  - intros d. rewrite returns_loop_keys, Hdates, lookup_empty.
    rewrite (list_elem_of_fmap_inj Some). split; [|auto].
    intros [?|[? ?]]; done.
  - intros i doc t c Hi Hts Hclose Hlast.
    destruct (point_matches_lookup rows pts i doc Hall Hi)
      as ([d' c'] & Hp & t' & Hts' & Hd & Hc').
    simpl in *. assert (t' = t) as -> by congruence.
    assert (c' = c) as -> by congruence. subst d'.
    rewrite (returns_loop_last pts None ∅ i (datetime_date t) c Hp).
    + f_equal. f_equal. destruct i as [|k]; [done|]. simpl.
      destruct (rows !! k) as [dk|] eqn:Hk.
      * destruct (point_matches_lookup rows pts k dk Hall Hk)
          as ([dk' ck] & Hpk & tk & _ & _ & Hck).
        simpl in *. rewrite Hpk. simpl. unfold candle_close. by rewrite Hck.
      * apply lookup_ge_None in Hk. rewrite (Forall2_length _ _ _ Hall) in Hk.
        by rewrite (proj2 (lookup_ge_None pts k) Hk).
    + intros j p Hj Hij Hpd.
      destruct (Forall2_lookup_r _ _ _ _ _ Hall Hj) as (dj & Hdj & tj & Htj & Hpj & _).
      apply (Hlast j dj Hdj Hij). unfold candle_date. rewrite Htj.
      by rewrite <- Hpj, Hpd.
Qed.

(** A loop whose turns leave the world as it is ends with the first
    exception, if there is one. *)
Lemma for_each_outcome {A} (xs : list A) (body : A → M F ()) (fine : A → bool)
    (e : exn) w :
  (∀ x, x ∈ xs → body x w = (if fine x then Ok () else Raise e, w)) →
  for_each xs body w = (if forallb fine xs then Ok () else Raise e, w).
Proof.
  induction xs as [|x xs IH]; intros Hbody; [done|].
  cbn [for_each forallb]. unfold World.bind.
  rewrite (Hbody x) by left.
  destruct (fine x); [|done]. simpl. apply IH.
  intros y Hy. apply Hbody. by right.
Qed.

(** The aggregation of a well-formed day returns. *)
Lemma aggregate_total coll (ticker : string) (d : date) :
  Forall event_ok (qualifying_events coll ticker d) →
  ∃ r, DailyAggregator.aggregate_sentiment_for_day coll ticker d = Ok r.
Proof.
  intros Hok. unfold DailyAggregator.aggregate_sentiment_for_day.
  change (DailyAggregator.start_of_day d + timedelta_days 1)
    with (datetime_at_midnight d + us_per_day).
  change (DailyAggregator.start_of_day d) with (datetime_at_midnight d).
  fold (qualifying_events coll ticker d).
  change (Mongo.project ["sentiment_score"; "sentiment_label"])
    with (projected (F:=F)).
  destruct (scores_of_events _ Hok) as [Hscores Hlen].
  destruct (qualifying_events coll ticker d) as [|ev events] eqn:Hev;
    [by eexists|].
  rewrite <- Hev in *. clear Hev.
  destruct (projected <$> qualifying_events coll ticker d) as [|p ps] eqn:Hproj;
    [by eexists|].
  rewrite Hscores. rewrite result_bind_Ok.
  destruct (omap event_score (qualifying_events coll ticker d)) as [|s0 ss] eqn:Hss.
  - rewrite result_bind_Ok. by eexists.
  - rewrite float_truediv_int_pos by (simpl; lia).
    rewrite result_fmap_Ok, result_bind_Ok. by eexists.
Qed.

Lemma aggregate_date_outcome (ticker : string)
    (series : gmap Z (DailyAggregator.price_info F)) (start d : date) w :
  is_Some (series !! d) →
  Forall event_ok (qualifying_events (news_events w) ticker d) →
  DailyAggregator.aggregate_date ticker series start d w
  = (if bool_decide (d < start) then Ok () else Raise (NameError "UTC"), w).
Proof.
  intros [info Hinfo] Hok. unfold DailyAggregator.aggregate_date.
  case_bool_decide; [done|]. rewrite Hinfo. unfold World.bind.
  destruct (aggregate_total _ _ _ Hok) as [[[avg dom] cnt] ->].
  apply upsert_raises.
Qed.

Lemma sorted_keys_elem_of (series : gmap Z (DailyAggregator.price_info F)) (d : Z) :
  d ∈ DailyAggregator.sorted_keys series ↔ is_Some (series !! d).
Proof.
  unfold DailyAggregator.sorted_keys. rewrite sort_with_elem_of, list_elem_of_fmap.
  split.
  - intros ([d' info] & -> & Hin). apply elem_of_map_to_list in Hin. by eexists.
  - intros [info Hinfo]. exists (d, info). split; [done|].
    by apply elem_of_map_to_list.
Qed.

Lemma forallb_negb_existsb {A} (f : A → bool) (l : list A) :
  forallb (λ x, negb (f x)) l = negb (existsb f l).
Proof.
  induction l as [|x l IH]; [done|]. simpl. rewrite IH. by destruct (f x).
Qed.

(** What the body of the loop over the tickers does for one ticker. *)
Lemma ticker_outcome (ticker : string) (start : date) w :
  Forall candle_ok (candles ticker (price_snapshots w)) →
  (∀ d, Forall event_ok (qualifying_events (news_events w) ticker d)) →
  World.bind
    (λ w, (DailyAggregator.build_price_series (price_snapshots w) ticker, w))
    (λ price_series,
       if bool_decide (price_series = ∅) then World.ret ()
       else for_each (DailyAggregator.sorted_keys price_series)
              (DailyAggregator.aggregate_date ticker price_series start)) w
  = (if negb (has_recent_candle (price_snapshots w) start ticker)
     then Ok () else Raise (NameError "UTC"), w).
Proof.
  intros Hok Hevents. unfold World.bind.
  pose proof (candle_points _ Hok) as (pts & Hpts & Hall).
  pose proof (candle_dates_of_points _ pts Hall) as Hdates.
  assert (DailyAggregator.build_price_series (price_snapshots w) ticker
          = Ok (DailyAggregator.returns_loop pts None ∅)) as ->.
  { unfold DailyAggregator.build_price_series.
    fold (candles ticker (price_snapshots w)).
    destruct (candles ticker (price_snapshots w)) as [|doc rows'] eqn:Hrows;
      [|by rewrite Hpts].
    apply Forall2_nil_inv_l in Hall. by subst. }
  set (series := DailyAggregator.returns_loop pts None ∅).
  assert (∀ d, is_Some (series !! d) ↔ d ∈ pts.*1) as Hkeys.
  { intros d. unfold series. rewrite returns_loop_keys, lookup_empty.
    split; [|auto]. intros [?|[? ?]]; done. }
  assert (forallb (λ d, bool_decide (d < start)) (DailyAggregator.sorted_keys series)
          = negb (has_recent_candle (price_snapshots w) start ticker)) as Hrecent.
  { unfold has_recent_candle. rewrite <- forallb_negb_existsb.
    apply eq_true_iff_eq. rewrite !forallb_forall. split.
    - intros Hall' doc Hdoc. apply list_elem_of_In in Hdoc.
      destruct (candle_date doc) as [d|] eqn:Hd; [|done].
      assert (d ∈ pts.*1) as Hin.
      { apply (list_elem_of_fmap_inj Some). rewrite <- Hdates, <- Hd.
        by apply list_elem_of_fmap_2. }
      apply Hkeys, sorted_keys_elem_of, list_elem_of_In, Hall' in Hin.
      apply bool_decide_eq_true in Hin. apply negb_true_iff, bool_decide_eq_false.
      lia.
    - intros Hall' d Hd. apply list_elem_of_In, sorted_keys_elem_of, Hkeys in Hd.
      apply (list_elem_of_fmap_2 Some) in Hd. rewrite <- Hdates in Hd.
      apply list_elem_of_fmap in Hd as (doc & Hdate & Hdoc).
      apply list_elem_of_In, Hall' in Hdoc. rewrite <- Hdate in Hdoc.
      apply negb_true_iff, bool_decide_eq_false in Hdoc.
      apply bool_decide_eq_true. lia. }
  case_bool_decide as Hempty.
  - assert (DailyAggregator.sorted_keys series = []) as Hnil.
    { apply elem_of_nil_inv. intros d Hd.
      apply sorted_keys_elem_of in Hd as [info Hinfo].
      by rewrite Hempty, lookup_empty in Hinfo. }
    rewrite <- Hrecent, Hnil. done.
  - rewrite <- Hrecent. apply for_each_outcome.
    intros d Hd. apply aggregate_date_outcome; [|done].
    by apply sorted_keys_elem_of.
Qed.

(** X11: a run of the aggregation on well-formed candles and events
    first computes the start of the look-back window, [days_back] days
    before the date the clock gives, and raises [OverflowError] when
    that day is outside the calendar.  Otherwise it ends normally
    exactly when no supported ticker has a candle dated within the
    window; as soon as one has, the run stops with the [NameError] of
    the first upsert. *)
Theorem aggregation_run_outcome (w : world F) (days_back : Z) :
  (∀ ticker, ticker ∈ DailyAggregator.TICKERS →
             Forall candle_ok (candles ticker (price_snapshots w))) →
  (∀ ticker d, Forall event_ok (qualifying_events (news_events w) ticker d)) →
  let start := datetime_date (wall_clock w (clock_reads w)) - days_back in
  (DailyAggregator.run_daily_aggregation days_back w).1
  = if bool_decide (in_calendar start)
    then
      if existsb (has_recent_candle (price_snapshots w) start)
           DailyAggregator.TICKERS
      then Raise (NameError "UTC") else Ok ()
    else Raise OverflowError.
Proof.
  intros Hcandles Hevents start.
  unfold DailyAggregator.run_daily_aggregation, DailyAggregator.utcnow_date.
  unfold World.bind at 1 2, read_clock, World.ret at 1.
  unfold World.bind at 1, lift at 1. fold start.
  case_bool_decide as Hcal.
  2: { by rewrite date_sub_days_out. }
  rewrite date_sub_days_in by done. fold start.
  erewrite (for_each_outcome DailyAggregator.TICKERS _
              (λ t, negb (has_recent_candle (price_snapshots w) start t))
              (NameError "UTC")).
  - cbn [fst]. rewrite forallb_negb_existsb.
    by destruct (existsb _ _).
  - intros ticker Hticker.
    rewrite (ticker_outcome ticker start); [done| |].
    + by apply Hcandles.
    + apply Hevents.
Qed.

End aggregator_extras.

(** ** The price fetcher *)
Section fetcher_facts.
Context {F : Type} `{!PyFloat F}.

Implicit Types coll candles new : list (document F).
Implicit Types c d doc : document F.
Implicit Types w : world F.

Lemma new_candle_key c :
  new_candle c →
  ∃ s t, c !! "ticker" = Some (VStr s) ∧ c !! "ts" = Some (VDate t)
         ∧ key_of c = Some (s, t).
Proof.
  intros [[k Hk] _]. unfold key_of in *.
  destruct (c !! "ticker") as [[| | |s| |]|]; try done.
  destruct (c !! "ts") as [[| | | |t|]|]; try done.
  by exists s, t.
Qed.

Lemma matches_key (s : string) (t : Z) d :
  Mongo.matches [("ticker", Mongo.CEq (VStr s)); ("ts", Mongo.CEq (VDate t))] d
  = bool_decide (key_of d = Some (s, t)).
Proof.
  unfold Mongo.matches, key_of. cbn [forallb fst snd]. rewrite andb_true_r.
  destruct (d !! "ticker") as [[| | |s'| |]|]; simpl; try done.
  destruct (d !! "ts") as [[| | | |t'|]|]; simpl;
    rewrite ?andb_false_r; try done.
  apply eq_true_iff_eq. rewrite andb_true_iff, !bool_decide_eq_true.
  split; [by intros [-> ->]|by intros [= -> ->]].
Qed.

Lemma existsb_matches_key (s : string) (t : Z) coll :
  existsb (Mongo.matches [("ticker", Mongo.CEq (VStr s)); ("ts", Mongo.CEq (VDate t))])
    coll
  = bool_decide (Some (s, t) ∈ key_of <$> coll).
Proof.
  apply eq_true_iff_eq. rewrite existsb_exists, bool_decide_eq_true.
  rewrite list_elem_of_fmap. split.
  - intros (d & Hd & Hm). rewrite matches_key in Hm.
    apply bool_decide_eq_true in Hm. exists d. by rewrite list_elem_of_In.
  - intros (d & Hk & Hd). exists d. rewrite matches_key.
    split; [by apply list_elem_of_In|]. by apply bool_decide_eq_true.
Qed.

Lemma stored_candle_fields coll c (k : string) :
  new_candle c → k ≠ "_id" → stored_candle coll c !! k = c !! k.
Proof.
  intros Hc Hk. destruct (new_candle_key c Hc) as (s & t & Hs & Ht & _).
  unfold stored_candle, Mongo.set_fields, dict_get. rewrite Hs, Ht. simpl.
  destruct (c !! k) as [v|] eqn:Hv.
  - by apply lookup_union_Some_l.
  - rewrite lookup_union_r by done. rewrite lookup_insert_ne by done.
    destruct (decide (k = "ticker")) as [->|Hk1]; [congruence|].
    rewrite lookup_insert_ne by done.
    destruct (decide (k = "ts")) as [->|Hk2]; [congruence|].
    by rewrite lookup_insert_ne.
Qed.

Lemma stored_candle_key coll c : new_candle c → key_of (stored_candle coll c) = key_of c.
Proof.
  intros Hc. unfold key_of.
  by rewrite !(stored_candle_fields coll c) by done.
Qed.

Lemma stored_candle_oid coll c :
  new_candle c → stored_candle coll c !! "_id" = Some (VId (Mongo.fresh_oid coll)).
Proof.
  intros [_ Hid]. unfold stored_candle, Mongo.set_fields.
  rewrite lookup_union_r by done. by rewrite lookup_insert_eq.
Qed.

(** What one turn of the loop does to the collection. *)
Lemma upsert_on_insert_candle coll c :
  new_candle c →
  Mongo.upsert_on_insert
    [("ticker", Mongo.CEq (dict_get c "ticker")); ("ts", Mongo.CEq (dict_get c "ts"))]
    c coll
  = if bool_decide (key_of c ∈ key_of <$> coll) then (coll, None)
    else (coll ++ [stored_candle coll c], Some (Mongo.fresh_oid coll)).
Proof.
  intros Hc. destruct (new_candle_key c Hc) as (s & t & Hs & Ht & Hk).
  unfold Mongo.upsert_on_insert, stored_candle, dict_get. rewrite Hs, Ht. simpl.
  by rewrite existsb_matches_key, Hk.
Qed.

Lemma upsert_loop_spec candles :
  ∀ (n : Z) w,
    Forall new_candle candles →
    PriceFetcher.upsert_loop candles n w
    = (Ok (n + Z.of_nat (length (added (price_snapshots w) candles))),
       with_prices w (price_snapshots w ++ added (price_snapshots w) candles)).
Proof.
  induction candles as [|c candles IH]; intros n w Hall.
  { simpl. rewrite app_nil_r, Z.add_0_r. by destruct w. }
  apply Forall_cons in Hall as [Hc Hall].
  destruct (new_candle_key c Hc) as (s & t & Hs & Ht & Hk).
  cbn [PriceFetcher.upsert_loop added].
  unfold World.bind at 1, lift at 1. rewrite (getitem_Some _ _ _ Hs).
  unfold World.bind at 1, lift at 1. rewrite (getitem_Some _ _ _ Ht).
  unfold World.bind at 1, get_prices at 1. cbv zeta.
  pose proof (upsert_on_insert_candle (price_snapshots w) c Hc) as Hstep.
  unfold dict_get in Hstep. rewrite Hs, Ht in Hstep. simpl in Hstep.
  rewrite Hstep. unfold World.bind at 1, put_prices at 1.
  case_bool_decide as Hin; cbn [fst snd].
  - rewrite IH by done. cbn [price_snapshots]. by destruct w.
  - rewrite IH by done. cbn [price_snapshots length].
    f_equal; [f_equal; lia|]. unfold with_prices. cbn.
    by rewrite <- app_assoc.
Qed.

(** The batch stores every candle. *)
Lemma added_keys candles :
  ∀ coll c, Forall new_candle candles → c ∈ candles →
    key_of c ∈ key_of <$> (coll ++ added coll candles).
Proof.
  induction candles as [|c0 candles IH]; intros coll c Hall Hc.
  { by apply elem_of_nil in Hc. }
  apply Forall_cons in Hall as [Hc0 Hall]. cbn [added].
  apply elem_of_cons in Hc as [->|Hc]; case_bool_decide as Hin.
  - rewrite fmap_app. apply elem_of_app. by left.
  - rewrite fmap_app. apply elem_of_app. right. rewrite fmap_cons.
    rewrite stored_candle_key by done. by left.
  - by apply IH.
  - rewrite (assoc_L (++) coll [_] _ : coll ++ _ :: _ = _). by apply IH.
Qed.

(** Each new document is a candle of the batch, under a key that was
    not stored. *)
Lemma added_origin candles :
  ∀ coll d, Forall new_candle candles → d ∈ added coll candles →
    ∃ c, c ∈ candles ∧ key_of d = key_of c
         ∧ key_of c ∉ key_of <$> coll
         ∧ ∀ k : string, k ≠ "_id" → d !! k = c !! k.
Proof.
  induction candles as [|c0 candles IH]; intros coll d Hall Hd.
  { by apply elem_of_nil in Hd. }
  apply Forall_cons in Hall as [Hc0 Hall]. cbn [added] in Hd.
  case_bool_decide as Hin.
  - destruct (IH coll d Hall Hd) as (c & Hc & ?). exists c. split; [by right|done].
  - apply elem_of_cons in Hd as [->|Hd].
    + exists c0. split; [by left|]. split; [by apply stored_candle_key|].
      split; [done|]. intros k Hk. by apply stored_candle_fields.
    + destruct (IH _ d Hall Hd) as (c & Hc & Hk & Hnew & Hf).
      exists c. split; [by right|]. split; [done|]. split; [|done].
      intros Hold. apply Hnew. rewrite fmap_app. apply elem_of_app. by left.
Qed.

(** A batch whose keys are all stored adds nothing. *)
Lemma added_none candles :
  ∀ coll, (∀ c, c ∈ candles → key_of c ∈ key_of <$> coll) → added coll candles = [].
Proof.
  induction candles as [|c0 candles IH]; intros coll Hall; [done|].
  cbn [added]. rewrite bool_decide_eq_true_2 by (apply Hall; by left).
  apply IH. intros c Hc. apply Hall. by right.
Qed.

(** X12: on candles that carry a ticker and a timestamp,
    [upsert_candles] only appends: the stored documents stay as they
    are and where they are, the number it returns is the number of
    documents it has appended, every candle of the batch is stored
    afterwards under its key (ticker, ts), and each appended document
    is a candle of the batch whose key was not stored before, with its
    fields and a new [_id]. *)
Theorem upsert_candles_appends_new_keys (w : world F) candles :
  Forall new_candle candles →
  ∃ new,
    PriceFetcher.upsert_candles candles w
    = (Ok (Z.of_nat (length new)), with_prices w (price_snapshots w ++ new))
    ∧ (∀ c, c ∈ candles → key_of c ∈ key_of <$> (price_snapshots w ++ new))
    ∧ ∀ d, d ∈ new →
        ∃ c, c ∈ candles ∧ key_of d = key_of c
             ∧ key_of c ∉ key_of <$> price_snapshots w
             ∧ ∀ k : string, k ≠ "_id" → d !! k = c !! k.
Proof.
  intros Hall. exists (added (price_snapshots w) candles).
  unfold PriceFetcher.upsert_candles. rewrite upsert_loop_spec by done.
  split; [done|]. split.
  - intros c Hc. by apply added_keys.
  - intros d Hd. by apply added_origin.
Qed.

(** X13: running [upsert_candles] again with the same candles inserts
    nothing: it returns 0 and leaves the store as the first run left
    it. *)
Theorem upsert_candles_again (w : world F) candles :
  Forall new_candle candles →
  let w1 := (PriceFetcher.upsert_candles candles w).2 in
  PriceFetcher.upsert_candles candles w1 = (Ok 0, w1).
Proof.
  intros Hall w1. subst w1. unfold PriceFetcher.upsert_candles.
  rewrite (upsert_loop_spec candles 0 w) by done. cbn [snd].
  rewrite upsert_loop_spec by done. cbn [price_snapshots with_prices].
  rewrite added_none; [by rewrite app_nil_r|].
  intros c Hc. by apply added_keys.
Qed.

Lemma fresh_oid_above coll (i : N) :
  i ∈ Mongo.oid_of <$> coll → (i < Mongo.fresh_oid coll)%N.
Proof.
  unfold Mongo.fresh_oid. induction (Mongo.oid_of <$> coll) as [|j l IH].
  { intros Hin. by apply elem_of_nil in Hin. }
  intros Hin. cbn [foldr]. apply elem_of_cons in Hin as [->|Hin]; [lia|].
  specialize (IH Hin). lia.
Qed.

Lemma fresh_oid_notin coll : Mongo.fresh_oid coll ∉ Mongo.oid_of <$> coll.
Proof. intros Hin. apply fresh_oid_above in Hin. lia. Qed.

Lemma omap_key_of_elem_of coll (k : string * Z) :
  k ∈ omap key_of coll ↔ Some k ∈ key_of <$> coll.
Proof.
  rewrite list_elem_of_omap, list_elem_of_fmap. naive_solver.
Qed.

Lemma added_invariant candles :
  ∀ coll, Forall new_candle candles →
    NoDup (omap key_of coll) → store_ok coll →
    NoDup (omap key_of (coll ++ added coll candles))
    ∧ store_ok (coll ++ added coll candles).
Proof.
  induction candles as [|c candles IH]; intros coll Hall Hnd Hok.
  { simpl. by rewrite app_nil_r. }
  apply Forall_cons in Hall as [Hc Hall]. cbn [added].
  case_bool_decide as Hin; [by apply IH|].
  rewrite (assoc_L (++) coll [_] _ : coll ++ _ :: _ = _).
  destruct (new_candle_key c Hc) as (s & t & _ & _ & Hk).
  apply IH; [done| |].
  - rewrite omap_app. cbn [omap list_omap].
    rewrite stored_candle_key, Hk by done.
    apply NoDup_app. split; [done|]. split; [|apply NoDup_singleton].
    intros k Hk1 Hk2. apply list_elem_of_singleton in Hk2 as ->.
    apply Hin. rewrite Hk. by apply omap_key_of_elem_of.
  - destruct Hok as [Hoids Hids]. split.
    + apply Forall_app. split; [done|]. apply Forall_singleton.
      eexists. by apply stored_candle_oid.
    + rewrite fmap_app. apply NoDup_app. split; [done|].
      split; [|apply NoDup_singleton].
      intros i Hi1 Hi2. apply list_elem_of_singleton in Hi2 as ->.
      apply (fresh_oid_notin coll).
      assert (Mongo.oid_of (stored_candle coll c) = Mongo.fresh_oid coll) as <-;
        [|done].
      unfold Mongo.oid_of. by rewrite (stored_candle_oid coll c Hc).
Qed.

(** X14: [upsert_candles] keeps the store well-formed: when no two
    stored documents carry the same key (ticker, ts) and the object
    ids are distinct, the same holds afterwards, also when the batch
    itself repeats a key. *)
Theorem upsert_candles_keeps_keys_unique (w : world F) candles :
  Forall new_candle candles →
  NoDup (omap key_of (price_snapshots w)) → store_ok (price_snapshots w) →
  let coll' := price_snapshots (PriceFetcher.upsert_candles candles w).2 in
  NoDup (omap key_of coll') ∧ store_ok coll'.
Proof.
  intros Hall Hnd Hok coll'. subst coll'. unfold PriceFetcher.upsert_candles.
  rewrite upsert_loop_spec by done. cbn [snd price_snapshots with_prices].
  by apply added_invariant.
Qed.

End fetcher_facts.

(** ** The sentiment worker *)
Section worker_facts.
Context {F : Type} `{!PyFloat F}.
Context (analyze_headline : string → string * F).

Implicit Types coll docs rest : list (document F).
Implicit Types d doc : document F.
Implicit Types w : world F.

Lemma score_fields_no_oid (label : string) (score : F) (now : Z) :
  SentimentWorker.score_fields label score now !! "_id" = None.
Proof. unfold SentimentWorker.score_fields. by lookup_literal. Qed.

(** One turn of the loop. *)
Lemma score_loop_cons doc rest (n : Z) w :
  SentimentWorker.score_loop analyze_headline (doc :: rest) n w
  = match getitem doc "_id" with
    | Raise e => (Raise e, w)
    | Ok oid =>
        match SentimentWorker.headline_text
                (dict_get_or doc "headline" (VStr EmptyString)) with
        | Raise e => (Raise e, w)
        | Ok text =>
            match SentimentWorker.object_id oid with
            | Raise e => (Raise e, w)
            | Ok oid' =>
                SentimentWorker.score_loop analyze_headline rest (n + 1)
                  {| news_events :=
                       Mongo.update_one [("_id", Mongo.CEq oid')]
                         (SentimentWorker.score_fields (analyze_headline text).1
                            (analyze_headline text).2
                            (wall_clock w (clock_reads w)))
                         false (news_events w);
                     price_snapshots := price_snapshots w;
                     daily_ticker_metrics := daily_ticker_metrics w;
                     wall_clock := wall_clock w;
                     clock_reads := S (clock_reads w) |}
            end
        end
    end.
Proof.
  cbn [SentimentWorker.score_loop]. unfold World.bind at 1, lift at 1.
  destruct (getitem doc "_id") as [oid|e]; [|done].
  unfold World.bind at 1, lift at 1.
  destruct (SentimentWorker.headline_text _) as [text|e]; [|done]. cbv zeta.
  unfold World.bind at 1, lift at 1.
  destruct (SentimentWorker.object_id oid) as [oid'|e]; [|done].
  reflexivity.
Qed.

Lemma headline_text_of doc :
  SentimentWorker.headline_text (dict_get_or doc "headline" (VStr EmptyString))
  = match headline_of doc with
    | Some text => Ok text
    | None => Raise AttributeError
    end.
Proof.
  unfold headline_of, dict_get_or.
  destruct (doc !! "headline") as [[]|]; done.
Qed.

(** The loop leaves alone every document that is not listed. *)
Lemma score_loop_untouched docs :
  ∀ (n : Z) w (p : nat) d,
    store_ok (news_events w) →
    news_events w !! p = Some d →
    Mongo.oid_of d ∉ Mongo.oid_of <$> docs →
    news_events (SentimentWorker.score_loop analyze_headline docs n w).2 !! p
    = Some d.
Proof.
  induction docs as [|doc docs IH]; intros n w p d Hok Hp Hd; [done|].
  rewrite fmap_cons in Hd. apply not_elem_of_cons in Hd as [Hne Hd].
  rewrite score_loop_cons.
  destruct (getitem doc "_id") as [oid|e] eqn:Hget; [|exact Hp].
  destruct (SentimentWorker.headline_text _) as [text|e]; [|exact Hp].
  destruct oid as [| | | | |i]; cbn [SentimentWorker.object_id];
    try exact Hp.
  assert (Mongo.oid_of doc = i) as Hoid.
  { revert Hget. unfold getitem, Mongo.oid_of.
    destruct (doc !! "_id"); by intros [= ->]. }
  apply IH; cbn [news_events]; [| |done].
  - rewrite update_one_by_oid by done.
    apply store_ok_set_on; [apply score_fields_no_oid|done].
  - rewrite update_one_by_oid by done.
    rewrite list_lookup_fmap, Hp. cbn [fmap option_fmap option_map]. f_equal.
    unfold set_on. rewrite bool_decide_eq_false_2; [done|].
    intros Heq. apply Hne. by rewrite Heq.
Qed.

Lemma score_loop_store_ok docs :
  ∀ (n : Z) w,
    store_ok (news_events w) →
    store_ok (news_events (SentimentWorker.score_loop analyze_headline docs n w).2).
Proof.
  induction docs as [|doc docs IH]; intros n w Hok; [done|].
  rewrite score_loop_cons.
  destruct (getitem doc "_id") as [oid|e]; [|exact Hok].
  destruct (SentimentWorker.headline_text _) as [text|e]; [|exact Hok].
  destruct oid as [| | | | |i]; cbn [SentimentWorker.object_id];
    try exact Hok.
  apply IH. cbn [news_events]. rewrite update_one_by_oid by done.
  apply store_ok_set_on; [apply score_fields_no_oid|done].
Qed.

Lemma process_batch_unfold (batch_size : Z) w :
  SentimentWorker.process_batch analyze_headline batch_size w
  = match SentimentWorker.fetch_unscored_batch (news_events w) batch_size with
    | [] => (Ok 0, w)
    | docs => SentimentWorker.score_loop analyze_headline docs 0 w
    end.
Proof.
  unfold SentimentWorker.process_batch, World.bind, get_news.
  by destruct (SentimentWorker.fetch_unscored_batch _ _).
Qed.

Lemma limit_sublist (n : Z) (l : list (document F)) : Mongo.limit n l `sublist_of` l.
Proof. unfold Mongo.limit. case_bool_decide; [done|apply sublist_take]. Qed.

Lemma sublist_elem_of_list {A} (l k : list A) (x : A) :
  l `sublist_of` k → x ∈ l → x ∈ k.
Proof.
  induction 1 as [|y l k _ IH|y l k _ IH]; [done| |].
  - intros [->|Hx]%elem_of_cons; [by left|]. right. by apply IH.
  - intros Hx. right. by apply IH.
Qed.

Lemma project_oid (keys : list string) d :
  Mongo.oid_of (Mongo.project keys d) = Mongo.oid_of d.
Proof. unfold Mongo.oid_of. rewrite project_lookup; [done|]. by left. Qed.

(** The documents of a batch are projections of unscored documents. *)
Lemma batch_origin coll (batch_size : Z) doc :
  doc ∈ SentimentWorker.fetch_unscored_batch coll batch_size →
  ∃ d, d ∈ unscored coll ∧ doc = Mongo.project ["headline"] d.
Proof.
  intros Hdoc. unfold SentimentWorker.fetch_unscored_batch in Hdoc.
  apply (sublist_elem_of_list _ _ _ (limit_sublist _ _)) in Hdoc.
  apply list_elem_of_fmap in Hdoc as (d & -> & Hd).
  apply sort_with_elem_of in Hd. by exists d.
Qed.

Lemma unscored_no_score d :
  Mongo.matches [("sentiment_score", Mongo.CEq VNull)] d = true → ¬ has_score d.
Proof.
  unfold Mongo.matches. cbn [forallb fst snd]. rewrite andb_true_r.
  intros Hm (v & Hv & Hne). rewrite Hv in Hm. simpl in Hm.
  by destruct v.
Qed.

Lemma process_batch_store_ok (batch_size : Z) w :
  store_ok (news_events w) →
  store_ok (news_events
              (SentimentWorker.process_batch analyze_headline batch_size w).2).
Proof.
  intros Hok. rewrite process_batch_unfold.
  destruct (SentimentWorker.fetch_unscored_batch _ _) as [|doc docs]; [done|].
  by apply score_loop_store_ok.
Qed.

Lemma process_batch_keeps_scored (batch_size : Z) w (p : nat) d :
  store_ok (news_events w) →
  news_events w !! p = Some d → has_score d →
  news_events (SentimentWorker.process_batch analyze_headline batch_size w).2 !! p
  = Some d.
Proof.
  intros Hok Hp Hscore. rewrite process_batch_unfold.
  destruct (SentimentWorker.fetch_unscored_batch _ _) as [|doc docs] eqn:Hbatch;
    [done|].
  apply score_loop_untouched; [done|done|].
  intros Hin. apply list_elem_of_fmap in Hin as (doc' & Hoid & Hdoc').
  rewrite <- Hbatch in Hdoc'.
  apply batch_origin in Hdoc' as (d0 & Hd0 & ->).
  rewrite project_oid in Hoid.
  apply find_elem_of in Hd0 as [Hm Hd0].
  assert (d = d0) as <-.
  { eapply store_ok_oid_inj; [done| |done|done].
    by eapply list_elem_of_lookup_2. }
  by apply (unscored_no_score d).
Qed.

(** X15: the worker never scores a document twice: a stored document
    that carries a score is left exactly as it is by [process_batch] and
    by a whole run of [run_worker], whatever the batch size and the
    number of loops, also when the run ends with an exception. *)
Theorem worker_keeps_scored_documents
    (w : world F) (max_loops batch_size : Z) (p : nat) d :
  store_ok (news_events w) →
  news_events w !! p = Some d → has_score d →
  news_events (SentimentWorker.process_batch analyze_headline batch_size w).2 !! p
  = Some d
  ∧ news_events
      (SentimentWorker.run_worker analyze_headline max_loops batch_size w).2 !! p
    = Some d.
Proof.
  intros Hok Hp Hscore. split; [by apply process_batch_keeps_scored|].
  unfold SentimentWorker.run_worker.
  generalize 0 as total. revert w Hok Hp.
  induction (Z.to_nat max_loops) as [|loops IH]; intros w Hok Hp total; [done|].
  cbn [SentimentWorker.worker_loop]. unfold World.bind at 1.
  pose proof (process_batch_store_ok batch_size w Hok) as Hok1.
  pose proof (process_batch_keeps_scored batch_size w p d Hok Hp Hscore) as Hp1.
  destruct (SentimentWorker.process_batch analyze_headline batch_size w)
    as [[updated|e] w1]; cbn [snd] in *; [|done].
  cbv zeta. case_bool_decide; [done|]. by apply IH.
Qed.

Lemma score_fields_label (label : string) (score : F) (now : Z) d :
  (SentimentWorker.score_fields label score now ∪ d) !! "sentiment_label"
  = Some (VStr label).
Proof.
  apply lookup_union_Some_l. unfold SentimentWorker.score_fields. by lookup_literal.
Qed.

Lemma score_fields_score (label : string) (score : F) (now : Z) d :
  (SentimentWorker.score_fields label score now ∪ d) !! "sentiment_score"
  = Some (VFloat score).
Proof.
  apply lookup_union_Some_l. unfold SentimentWorker.score_fields. by lookup_literal.
Qed.

Lemma score_fields_frame (label : string) (score : F) (now : Z) d (k : string) :
  k ≠ "sentiment_label" → k ≠ "sentiment_score" → k ≠ "sentiment_updated_at" →
  (SentimentWorker.score_fields label score now ∪ d) !! k = d !! k.
Proof.
  intros H1 H2 H3. apply lookup_union_r. unfold SentimentWorker.score_fields.
  rewrite !lookup_insert_ne by done. by rewrite lookup_singleton_ne.
Qed.

Lemma scored_row_step doc rest (clock : nat → datetime) (reads : nat)
    (i0 : N) (text : string) d :
  Mongo.oid_of doc = i0 → i0 ∉ Mongo.oid_of <$> rest →
  headline_of doc = Some text →
  scored_row analyze_headline rest clock (S reads)
    (set_on i0
       (SentimentWorker.score_fields (analyze_headline text).1
          (analyze_headline text).2 (clock reads)) d)
  = scored_row analyze_headline (doc :: rest) clock reads d.
Proof.
  intros Hdoc Hfresh Htext. unfold scored_row. cbn [list_find].
  rewrite (oid_of_set_on i0 _ d (score_fields_no_oid _ _ _)).
  rewrite Hdoc. unfold set_on.
  destruct (decide (i0 = Mongo.oid_of d)) as [Heq|Hne].
  - rewrite bool_decide_eq_true_2 by done. rewrite Htext.
    rewrite (Nat.add_0_r reads).
    destruct (list_find (λ x, Mongo.oid_of x = Mongo.oid_of d) rest)
      as [[k x]|] eqn:Hfind; [|reflexivity].
    exfalso. apply list_find_Some in Hfind as (Hk & Hx & _).
    apply Hfresh. rewrite Heq, <- Hx.
    apply list_elem_of_fmap_2. by eapply list_elem_of_lookup_2.
  - rewrite bool_decide_eq_false_2 by done.
    destruct (list_find (λ x, Mongo.oid_of x = Mongo.oid_of d) rest)
      as [[k x]|]; [|reflexivity].
    cbn [fmap option_fmap option_map prod_map fst snd].
    replace (reads + S k)%nat with (S reads + k)%nat by lia. reflexivity.
Qed.

(** The loop over well-formed documents scores them all. *)
Lemma score_loop_spec docs :
  ∀ (n : Z) w,
    store_ok (news_events w) →
    Forall has_oid docs → NoDup (Mongo.oid_of <$> docs) →
    Forall (λ doc, is_Some (headline_of doc)) docs →
    SentimentWorker.score_loop analyze_headline docs n w
    = (Ok (n + Z.of_nat (length docs)),
       {| news_events :=
            scored_row analyze_headline docs (wall_clock w) (clock_reads w)
              <$> news_events w;
          price_snapshots := price_snapshots w;
          daily_ticker_metrics := daily_ticker_metrics w;
          wall_clock := wall_clock w;
          clock_reads := (clock_reads w + length docs)%nat |}).
Proof.
  induction docs as [|doc docs IH]; intros n w Hok Hoids Hnd Htexts.
  { cbn [SentimentWorker.score_loop length]. unfold World.ret.
    rewrite Z.add_0_r, Nat.add_0_r. f_equal. destruct w. cbn. f_equal.
    symmetry. etrans; [|apply list_fmap_id]. by apply list_fmap_ext. }
  apply Forall_cons in Hoids as [Hid Hoids].
  rewrite fmap_cons in Hnd. apply NoDup_cons in Hnd as [Hfresh Hnd].
  apply Forall_cons in Htexts as [[text Htext] Htexts].
  rewrite score_loop_cons.
  rewrite (getitem_Some _ _ _ (has_oid_of doc Hid)).
  rewrite headline_text_of, Htext. cbn [SentimentWorker.object_id].
  rewrite IH; cbn [news_events price_snapshots daily_ticker_metrics wall_clock
                     clock_reads]; [|by rewrite update_one_by_oid by done;
                                       apply store_ok_set_on;
                                       [apply score_fields_no_oid|]
                                    |done|done|done].
  f_equal; [f_equal; cbn [length]; lia|].
  f_equal; [|cbn [length]; lia].
  rewrite update_one_by_oid by done. rewrite <- list_fmap_compose.
  apply list_fmap_ext. intros k d _. cbn [compose].
  by apply scored_row_step.
Qed.

Lemma headline_of_project d :
  headline_of (Mongo.project ["headline"] d) = headline_of d.
Proof. unfold headline_of. rewrite project_lookup; [done|]. set_solver. Qed.

(** The batch lists well-formed documents, each once. *)
Lemma batch_well_formed coll (batch_size : Z) :
  store_ok coll →
  Forall (λ d, is_Some (headline_of d)) (unscored coll) →
  let batch := SentimentWorker.fetch_unscored_batch coll batch_size in
  Forall has_oid batch ∧ NoDup (Mongo.oid_of <$> batch)
  ∧ Forall (λ doc, is_Some (headline_of doc)) batch.
Proof.
  intros [Hoids Hnd] Htexts batch. split; [|split].
  - apply Forall_forall. intros doc Hdoc.
    apply batch_origin in Hdoc as (d & Hd & ->).
    apply find_elem_of in Hd as [_ Hd].
    rewrite Forall_forall in Hoids. destruct (Hoids d Hd) as [i Hi].
    exists i. rewrite project_lookup; [done|]. by left.
  - eapply sublist_NoDup;
      [|apply fmap_sublist, limit_sublist].
    rewrite <- list_fmap_compose.
    erewrite list_fmap_ext; [|intros k d _; apply project_oid].
    unfold Mongo.sort_asc. rewrite sort_with_perm.
    eapply sublist_NoDup; [exact Hnd|]. apply fmap_sublist, sublist_filter.
  - apply Forall_forall. intros doc Hdoc.
    apply batch_origin in Hdoc as (d & Hd & ->).
    rewrite headline_of_project. rewrite Forall_forall in Htexts. by apply Htexts.
Qed.

(** X16: when the unscored documents carry a string headline or none,
    [process_batch] ends normally and returns the size of the batch;
    every document of the batch gets the label and the score that
    [analyze_headline] gives for its headline, every other document is
    left as it is, and no field other than [sentiment_label],
    [sentiment_score] and [sentiment_updated_at] changes. *)
Theorem process_batch_scores_the_batch (w : world F) (batch_size : Z) :
  store_ok (news_events w) →
  Forall (λ d, is_Some (headline_of d)) (unscored (news_events w)) →
  let batch := SentimentWorker.fetch_unscored_batch (news_events w) batch_size in
  let w' := (SentimentWorker.process_batch analyze_headline batch_size w).2 in
  (SentimentWorker.process_batch analyze_headline batch_size w).1
  = Ok (Z.of_nat (length batch))
  ∧ ∀ (p : nat) d,
      news_events w !! p = Some d →
      ∃ d',
        news_events w' !! p = Some d'
        ∧ (∀ k : string,
             k ≠ "sentiment_label" → k ≠ "sentiment_score" →
             k ≠ "sentiment_updated_at" → d' !! k = d !! k)
        ∧ (Mongo.oid_of d ∈ Mongo.oid_of <$> batch →
           ∃ text,
             headline_of d = Some text
             ∧ d' !! "sentiment_label" = Some (VStr (analyze_headline text).1)
             ∧ d' !! "sentiment_score" = Some (VFloat (analyze_headline text).2))
        ∧ (Mongo.oid_of d ∉ Mongo.oid_of <$> batch → d' = d).
Proof.
  intros Hok Htexts batch w'. subst w'.
  destruct (batch_well_formed (news_events w) batch_size Hok Htexts)
    as (Hoids & Hnd & Hbt). fold batch in Hoids, Hnd, Hbt.
  assert (SentimentWorker.process_batch analyze_headline batch_size w
          = SentimentWorker.score_loop analyze_headline batch 0 w) as ->.
  { rewrite process_batch_unfold. fold batch. by destruct batch. }
  rewrite score_loop_spec by done. cbn [fst snd news_events].
  split; [done|]. intros p d Hp.
  rewrite list_lookup_fmap, Hp. cbn [fmap option_fmap option_map].
  eexists. split; [reflexivity|].
  unfold scored_row.
  destruct (list_find (λ doc, Mongo.oid_of doc = Mongo.oid_of d) batch)
    as [[k doc]|] eqn:Hfind.
  - apply list_find_Some in Hfind as (Hk & Hoid & _).
    assert (doc ∈ batch) as Hdoc by (by eapply list_elem_of_lookup_2).
    destruct (batch_origin _ _ _ Hdoc) as (d0 & Hd0 & ->).
    rewrite project_oid in Hoid. rewrite headline_of_project.
    apply find_elem_of in Hd0 as [Hm Hd0].
    assert (d0 = d) as ->.
    { eapply store_ok_oid_inj; [done|done| |done].
      by eapply list_elem_of_lookup_2. }
    rewrite Forall_forall in Htexts.
    destruct (Htexts d) as [text Htext]; [by apply find_elem_of|].
    rewrite Htext. split; [|split].
    + intros key H1 H2 H3. by apply score_fields_frame.
    + intros _. exists text. split; [done|].
      split; [apply score_fields_label|apply score_fields_score].
    + intros Hnot. exfalso. apply Hnot.
      rewrite <- (project_oid ["headline"] d).
      by apply list_elem_of_fmap_2.
  - split; [done|]. split; [|done].
    intros Hin. exfalso. apply list_elem_of_fmap in Hin as (doc & Hoid & Hdoc).
    apply list_find_None in Hfind. rewrite Forall_forall in Hfind.
    by apply (Hfind doc Hdoc).
Qed.

End worker_facts.

(** ** Counting the documents still to score *)
Section counting.
Context {A B : Type}.

Lemma filter_ext_in (P Q : A → Prop) `{!∀ x, Decision (P x)} `{!∀ x, Decision (Q x)}
    (l : list A) :
  (∀ x, x ∈ l → P x ↔ Q x) → filter P l = filter Q l.
Proof.
  induction l as [|x l IH]; intros HPQ; [done|].
  rewrite !filter_cons.
  assert (P x ↔ Q x) as Hx by (apply HPQ; by left).
  rewrite IH by (intros y Hy; apply HPQ; by right).
  destruct (decide (P x)), (decide (Q x)); tauto || done.
Qed.

Lemma filter_fmap_length (P : B → Prop) (Q : A → Prop)
    `{!∀ y, Decision (P y)} `{!∀ x, Decision (Q x)} (f : A → B) (l : list A) :
  (∀ x, x ∈ l → P (f x) ↔ Q x) →
  length (filter P (f <$> l)) = length (filter Q l).
Proof.
  induction l as [|x l IH]; intros HPQ; [done|].
  rewrite fmap_cons, !filter_cons.
  assert (P (f x) ↔ Q x) as Hx by (apply HPQ; by left).
  assert (length (filter P (f <$> l)) = length (filter Q l)) as IH'
    by (apply IH; intros y Hy; apply HPQ; by right).
  destruct (decide (P (f x))), (decide (Q x)); simpl; tauto || lia.
Qed.

Lemma filter_split_length (P Q : A → Prop)
    `{!∀ x, Decision (P x)} `{!∀ x, Decision (Q x)} (l : list A) :
  (length (filter (λ x, P x ∧ ¬ Q x) l) + length (filter (λ x, Q x ∧ P x) l)
   = length (filter P l))%nat.
Proof.
  induction l as [|x l IH]; [done|]. rewrite !filter_cons.
  destruct (decide (P x ∧ ¬ Q x)), (decide (Q x ∧ P x)), (decide (P x));
    simpl; tauto || lia.
Qed.

(** In a list without repeated keys, the elements whose key is among
    those of a prefix are that prefix. *)
Lemma filter_keyed_take `{!EqDecision B} (g : A → B) (l : list A) (m : nat) :
  NoDup (g <$> l) → filter (λ x, g x ∈ g <$> take m l) l = take m l.
Proof.
  revert m. induction l as [|x l IH]; intros m Hnd; [by destruct m|].
  rewrite fmap_cons in Hnd. apply NoDup_cons in Hnd as [Hx Hnd].
  destruct m as [|m].
  - cbn [take fmap list_fmap]. clear.
    induction (x :: l) as [|y k IH]; [done|].
    rewrite filter_cons_False; [done|]. by intros ?%elem_of_nil.
  - cbn [take]. rewrite fmap_cons, filter_cons_True by left.
    f_equal. etrans; [|apply (IH m Hnd)]. apply filter_ext_in.
    intros y Hy. rewrite elem_of_cons. split; [|by right].
    intros [Heq|?]; [|done]. exfalso. apply Hx. rewrite <- Heq.
    by apply list_elem_of_fmap_2.
Qed.

End counting.

Section worker_counts.
Context {F : Type} `{!PyFloat F}.
Context (analyze_headline : string → string * F).

Implicit Types coll docs rest : list (document F).
Implicit Types d doc : document F.
Implicit Types w : world F.

Lemma limit_take (n : Z) (l : list (document F)) :
  Mongo.limit n l = take (batch_count n (length l)) l.
Proof.
  unfold Mongo.limit, batch_count. case_bool_decide.
  - by rewrite firstn_all.
  - destruct (decide (Z.to_nat (Z.abs n) ≤ length l)%nat).
    + by rewrite Nat.min_l.
    + rewrite Nat.min_r by lia. rewrite firstn_all. apply take_ge. lia.
Qed.

Lemma batch_as_prefix coll (batch_size : Z) :
  SentimentWorker.fetch_unscored_batch coll batch_size
  = Mongo.project ["headline"]
    <$> take (batch_count batch_size (length (unscored coll)))
          (Mongo.sort_asc "published_at" (unscored coll)).
Proof.
  unfold SentimentWorker.fetch_unscored_batch. fold (unscored coll).
  rewrite limit_take, length_fmap, fmap_take.
  unfold Mongo.sort_asc. by rewrite sort_with_length.
Qed.

Lemma batch_length coll (batch_size : Z) :
  length (SentimentWorker.fetch_unscored_batch coll batch_size)
  = batch_count batch_size (length (unscored coll)).
Proof.
  rewrite batch_as_prefix, length_fmap, length_take.
  unfold Mongo.sort_asc. rewrite sort_with_length.
  unfold batch_count. case_bool_decide; lia.
Qed.

Lemma scored_is_not_unscored (label : string) (score : F) (now : Z) d :
  Mongo.matches [("sentiment_score", Mongo.CEq VNull)]
    (SentimentWorker.score_fields label score now ∪ d) = false.
Proof.
  unfold Mongo.matches. cbn [forallb fst snd].
  by rewrite score_fields_score.
Qed.

(** What the loop makes of a stored document. *)
Lemma scored_row_cases docs (clock : nat → datetime) (reads : nat) d :
  Forall (λ doc, is_Some (headline_of doc)) docs →
  (Mongo.oid_of d ∈ Mongo.oid_of <$> docs
   ∧ ∃ label score now,
       scored_row analyze_headline docs clock reads d
       = SentimentWorker.score_fields label score now ∪ d)
  ∨ (Mongo.oid_of d ∉ Mongo.oid_of <$> docs
     ∧ scored_row analyze_headline docs clock reads d = d).
Proof.
  intros Htexts. unfold scored_row.
  destruct (list_find (λ doc, Mongo.oid_of doc = Mongo.oid_of d) docs)
    as [[k doc]|] eqn:Hfind.
  - apply list_find_Some in Hfind as (Hk & Hoid & _).
    assert (doc ∈ docs) as Hdoc by (by eapply list_elem_of_lookup_2).
    rewrite Forall_forall in Htexts. destruct (Htexts doc Hdoc) as [text ->].
    left. split; [|by eexists _, _, _].
    rewrite <- Hoid. by apply list_elem_of_fmap_2.
  - right. split; [|done]. apply list_find_None in Hfind.
    rewrite Forall_forall in Hfind.
    intros (doc & Hoid & Hdoc)%list_elem_of_fmap. by apply (Hfind doc Hdoc).
Qed.

Lemma unscored_after coll (batch_size : Z) (clock : nat → datetime) (reads : nat) :
  store_ok coll →
  Forall (λ d, is_Some (headline_of d)) (unscored coll) →
  let batch := SentimentWorker.fetch_unscored_batch coll batch_size in
  let coll' := scored_row analyze_headline batch clock reads <$> coll in
  length (unscored coll')
  = (length (unscored coll) - length batch)%nat
  ∧ ∀ d, d ∈ unscored coll' → d ∈ unscored coll.
Proof.
  intros Hok Htexts batch coll'.
  destruct (batch_well_formed coll batch_size Hok Htexts) as (_ & _ & Hbt).
  fold batch in Hbt.
  set (inB := λ d : document F, Mongo.oid_of d ∈ Mongo.oid_of <$> batch).
  set (P := λ d : document F,
              Is_true (Mongo.matches [("sentiment_score", Mongo.CEq VNull)] d)).
  assert (∀ d, P (scored_row analyze_headline batch clock reads d)
               ↔ P d ∧ ¬ inB d) as Hrow.
  { intros d. unfold P, inB.
    destruct (scored_row_cases batch clock reads d Hbt)
      as [[Hin (label & score & now & ->)]|[Hout ->]].
    - rewrite scored_is_not_unscored. simpl. tauto.
    - tauto. }
  split.
  - unfold coll', unscored, Mongo.find.
    rewrite (filter_fmap_length _ (λ d, P d ∧ ¬ inB d)) by (intros d _; apply Hrow).
    pose proof (filter_split_length P inB coll) as Hsplit.
    assert (length (filter (λ d, inB d ∧ P d) coll) = length batch) as Hbatch.
    { rewrite <- (list_filter_filter inB P).
      change (filter P coll) with (unscored coll).
      rewrite <- (sort_with_perm
                    (λ a b, Mongo.key_le (Mongo.sort_key "published_at" a)
                              (Mongo.sort_key "published_at" b))
                    (unscored coll)).
      fold (Mongo.sort_asc "published_at" (unscored coll)).
      unfold inB, batch. rewrite batch_as_prefix.
      rewrite <- list_fmap_compose.
      erewrite (list_fmap_ext (Mongo.oid_of ∘ Mongo.project ["headline"]));
        [|intros k d _; apply project_oid].
      rewrite filter_keyed_take.
      - by rewrite length_fmap.
      - unfold Mongo.sort_asc. rewrite sort_with_perm.
        destruct Hok as [_ Hnd].
        eapply sublist_NoDup; [exact Hnd|]. apply fmap_sublist, sublist_filter. }
    change (filter (λ d, Mongo.matches [("sentiment_score", Mongo.CEq VNull)] d) coll)
      with (filter P coll).
    lia.
  - intros d' Hd'. unfold coll' in Hd'.
    apply find_elem_of in Hd' as [Hm Hd'].
    apply list_elem_of_fmap in Hd' as (d & -> & Hd).
    apply Is_true_true in Hm. apply Hrow in Hm as [Hm Hout].
    destruct (scored_row_cases batch clock reads d Hbt)
      as [[Hin _]|[_ ->]]; [done|].
    apply find_elem_of. split; [by apply Is_true_true|done].
Qed.

Lemma process_batch_spec (batch_size : Z) w :
  store_ok (news_events w) →
  Forall (λ d, is_Some (headline_of d)) (unscored (news_events w)) →
  let batch := SentimentWorker.fetch_unscored_batch (news_events w) batch_size in
  SentimentWorker.process_batch analyze_headline batch_size w
  = (Ok (Z.of_nat (length batch)),
     {| news_events :=
          scored_row analyze_headline batch (wall_clock w) (clock_reads w)
            <$> news_events w;
        price_snapshots := price_snapshots w;
        daily_ticker_metrics := daily_ticker_metrics w;
        wall_clock := wall_clock w;
        clock_reads := (clock_reads w + length batch)%nat |}).
Proof.
  intros Hok Htexts batch.
  destruct (batch_well_formed (news_events w) batch_size Hok Htexts)
    as (Hoids & Hnd & Hbt). fold batch in Hoids, Hnd, Hbt.
  assert (SentimentWorker.process_batch analyze_headline batch_size w
          = SentimentWorker.score_loop analyze_headline batch 0 w) as ->.
  { rewrite process_batch_unfold. fold batch. by destruct batch. }
  by rewrite score_loop_spec.
Qed.

(** One batch: what it returns and what it leaves to score. *)
Lemma process_batch_progress (batch_size : Z) w :
  store_ok (news_events w) →
  Forall (λ d, is_Some (headline_of d)) (unscored (news_events w)) →
  let waiting := length (unscored (news_events w)) in
  let w' := (SentimentWorker.process_batch analyze_headline batch_size w).2 in
  (SentimentWorker.process_batch analyze_headline batch_size w).1
  = Ok (Z.of_nat (batch_count batch_size waiting))
  ∧ length (unscored (news_events w'))
    = (waiting - batch_count batch_size waiting)%nat
  ∧ store_ok (news_events w')
  ∧ Forall (λ d, is_Some (headline_of d)) (unscored (news_events w')).
Proof.
  intros Hok Htexts waiting w'. subst w'.
  pose proof (process_batch_store_ok analyze_headline batch_size w Hok) as Hok'.
  rewrite process_batch_spec in Hok' |- * by done. cbn [fst snd news_events] in *.
  destruct (unscored_after (news_events w) batch_size (wall_clock w) (clock_reads w)
              Hok Htexts) as [Hlen Hsub].
  rewrite batch_length in Hlen |- *.
  split; [done|]. split; [exact Hlen|]. split; [exact Hok'|].
  apply Forall_forall. intros d Hd. rewrite Forall_forall in Htexts.
  by apply Htexts, Hsub.
Qed.

(** X17: [process_batch] takes the first [batch_size] of the unscored
    documents, or all of them when fewer wait or when [batch_size] is
    0, which the cursor reads as no limit; it returns their number,
    and exactly that many documents fewer wait afterwards. *)
Theorem process_batch_takes_what_waits (w : world F) (batch_size : Z) :
  store_ok (news_events w) →
  Forall (λ d, is_Some (headline_of d)) (unscored (news_events w)) →
  0 ≤ batch_size →
  let waiting := length (unscored (news_events w)) in
  let taken := if bool_decide (batch_size = 0) then waiting
               else (Z.to_nat batch_size `min` waiting)%nat in
  let w' := (SentimentWorker.process_batch analyze_headline batch_size w).2 in
  (SentimentWorker.process_batch analyze_headline batch_size w).1
  = Ok (Z.of_nat taken)
  ∧ length (unscored (news_events w')) = (waiting - taken)%nat.
Proof.
  intros Hok Htexts Hsize waiting taken w'.
  destruct (process_batch_progress batch_size w Hok Htexts) as (Hres & Hlen & _).
  assert (batch_count batch_size waiting = taken) as Hcount.
  { unfold batch_count, taken. case_bool_decide; [done|].
    by rewrite Z.abs_eq. }
  fold waiting in Hres, Hlen. rewrite Hcount in Hres, Hlen. by split.
Qed.

Lemma worker_loop_step (batch_size : Z) (loops : nat) (total : Z) w :
  SentimentWorker.worker_loop analyze_headline (S loops) batch_size total w
  = match SentimentWorker.process_batch analyze_headline batch_size w with
    | (Ok updated, w1) =>
        if bool_decide (updated = 0) then (Ok (total + updated), w1)
        else SentimentWorker.worker_loop analyze_headline loops batch_size
               (total + updated) w1
    | (Raise e, w1) => (Raise e, w1)
    end.
Proof.
  cbn [SentimentWorker.worker_loop]. unfold World.bind.
  destruct (SentimentWorker.process_batch analyze_headline batch_size w)
    as [[updated|e] w1]; [|done].
  by case_bool_decide.
Qed.

Lemma worker_loop_spec (batch_size : Z) (loops : nat) :
  0 < batch_size →
  ∀ (total : Z) w,
    store_ok (news_events w) →
    Forall (λ d, is_Some (headline_of d)) (unscored (news_events w)) →
    let waiting := length (unscored (news_events w)) in
    let scored := (waiting `min` (loops * Z.to_nat batch_size))%nat in
    let w' :=
      (SentimentWorker.worker_loop analyze_headline loops batch_size total w).2 in
    (SentimentWorker.worker_loop analyze_headline loops batch_size total w).1
    = Ok (total + Z.of_nat scored)
    ∧ length (unscored (news_events w')) = (waiting - scored)%nat.
Proof.
  intros Hsize. induction loops as [|loops IH]; intros total w Hok Htexts.
  { cbn [SentimentWorker.worker_loop]. unfold World.ret. cbn [fst snd].
    rewrite Nat.mul_0_l, Nat.min_0_r, Z.add_0_r, Nat.sub_0_r. done. }
  cbv zeta. rewrite worker_loop_step.
  destruct (process_batch_progress batch_size w Hok Htexts)
    as (Hres & Hlen & Hok1 & Htexts1).
  cbv zeta in Hres, Hlen, Hok1, Htexts1.
  set (waiting := length (unscored (news_events w))) in *.
  assert (batch_count batch_size waiting
          = (Z.to_nat batch_size `min` waiting)%nat) as Hcount.
  { unfold batch_count. rewrite bool_decide_eq_false_2 by lia.
    by rewrite Z.abs_eq by lia. }
  rewrite Hcount in Hres, Hlen.
  destruct (SentimentWorker.process_batch analyze_headline batch_size w)
    as [[updated|e] w1]; cbn [fst snd] in *; [|done].
  injection Hres as ->.
  case_bool_decide as Hzero.
  - cbn [fst snd].
    assert (waiting = 0)%nat as Hnone by lia.
    rewrite Hlen, Hnone. rewrite Nat.min_0_l, Nat.min_0_r. done.
  - specialize (IH (total + Z.of_nat (Z.to_nat batch_size `min` waiting)) w1
                  Hok1 Htexts1).
    cbv zeta in IH. destruct IH as [IHres IHlen].
    rewrite IHres, IHlen, Hlen. split; [f_equal|]; lia.
Qed.

(** X18: with a batch size of one or more, [run_worker] scores the
    unscored documents batch after batch until none waits or the loops
    are used up: the total it prints is the smaller of the number of
    waiting documents and [max_loops * batch_size], and that many fewer
    wait afterwards; none is left when the loops suffice. *)
Theorem run_worker_scores_what_fits (w : world F) (max_loops batch_size : Z) :
  store_ok (news_events w) →
  Forall (λ d, is_Some (headline_of d)) (unscored (news_events w)) →
  0 < batch_size →
  let waiting := length (unscored (news_events w)) in
  let scored := (waiting `min` (Z.to_nat max_loops * Z.to_nat batch_size))%nat in
  let w' :=
    (SentimentWorker.run_worker analyze_headline max_loops batch_size w).2 in
  (SentimentWorker.run_worker analyze_headline max_loops batch_size w).1
  = Ok (Z.of_nat scored)
  ∧ length (unscored (news_events w')) = (waiting - scored)%nat
  ∧ (Z.of_nat waiting ≤ max_loops * batch_size → unscored (news_events w') = []).
Proof.
  intros Hok Htexts Hsize waiting scored w'.
  destruct (worker_loop_spec batch_size (Z.to_nat max_loops) Hsize 0 w Hok Htexts)
    as [Hres Hlen].
  cbv zeta in Hres, Hlen. fold waiting in Hres, Hlen. fold scored in Hres, Hlen.
  unfold SentimentWorker.run_worker in *. subst w'.
  split; [by rewrite Hres, Z.add_0_l|]. split; [exact Hlen|].
  intros Hfit. apply length_zero_iff_nil. rewrite Hlen. unfold scored. nia.
Qed.

End worker_counts.

(** ** The news ingestor *)
Section news_facts.
Context {F : Type} `{!PyFloat F}.
Context (fromtimestamp : value F → result datetime).

Implicit Types coll items new : list (document F).
Implicit Types d item : document F.
Implicit Types w : world F.

Lemma with_headline_lookup item :
  with_headline item = true → item !! "headline" = Some (dict_get item "headline").
Proof.
  unfold with_headline, dict_get. by destruct (item !! "headline").
Qed.

(** One turn of the loop. *)
Lemma insert_loop_cons (ticker : string) item items (n : Z) w :
  NewsIngestor.insert_loop fromtimestamp ticker (item :: items) n w
  = if with_headline item then
      match getitem item "datetime" with
      | Raise e => (Raise e, w)
      | Ok ts =>
          match fromtimestamp ts with
          | Raise e => (Raise e, w)
          | Ok t =>
              let now := wall_clock w (clock_reads w) in
              let stored := stored_item ticker item t (news_events w) in
              NewsIngestor.insert_loop fromtimestamp ticker items
                (if stored then n else n + 1)
                {| news_events :=
                     if stored then news_events w
                     else news_events w
                          ++ [stored_news ticker item t now (news_events w)];
                   price_snapshots := price_snapshots w;
                   daily_ticker_metrics := daily_ticker_metrics w;
                   wall_clock := wall_clock w;
                   clock_reads := S (clock_reads w) |}
          end
      end
    else NewsIngestor.insert_loop fromtimestamp ticker items n w.
Proof.
  cbn [NewsIngestor.insert_loop]. cbv zeta.
  unfold NewsIngestor.headline_or_empty, with_headline.
  destruct (DailyAggregator.truthy (dict_get item "headline")) eqn:Hh.
  2: { reflexivity. }
  rewrite Hh. cbn [negb].
  unfold World.bind at 1, lift at 1.
  destruct (getitem item "datetime") as [ts|e]; [|done].
  unfold World.bind at 1, lift at 1.
  destruct (fromtimestamp ts) as [t|e]; [|done].
  unfold World.bind at 1, read_clock at 1.
  unfold World.bind at 1, get_news at 1. cbn [news_events].
  unfold World.bind at 1, put_news at 1.
  unfold Mongo.upsert_on_insert, stored_item, stored_news, news_filter.
  by destruct (existsb _ _).
Qed.

Lemma stored_news_oid (ticker : string) item (t now : Z) coll :
  stored_news ticker item t now coll !! "_id" = Some (VId (Mongo.fresh_oid coll)).
Proof.
  unfold stored_news, Mongo.set_fields, NewsIngestor.news_doc.
  rewrite lookup_union_r by (by lookup_literal). by rewrite lookup_insert_eq.
Qed.

Lemma stored_news_field (ticker : string) item (t now : Z) coll (k : string) v :
  NewsIngestor.news_doc ticker (dict_get item "headline")
    (dict_get_or item "source" (VStr "unknown")) (dict_get item "url") t now !! k
  = Some v →
  stored_news ticker item t now coll !! k = Some v.
Proof. intros Hk. unfold stored_news, Mongo.set_fields. by apply lookup_union_Some_l. Qed.

Lemma stored_news_ingested (ticker : string) item ts (t now : Z) coll :
  with_headline item = true →
  item !! "datetime" = Some ts → fromtimestamp ts = Ok t →
  ingested fromtimestamp ticker item (stored_news ticker item t now coll).
Proof.
  intros Hh Hts Ht. unfold ingested.
  split; [done|]. rewrite (with_headline_lookup item Hh).
  split; [|split; [|split; [|split; [|split; [|split]]]]];
    try (apply stored_news_field; unfold NewsIngestor.news_doc; by lookup_literal).
  exists ts, t. split; [done|]. split; [done|].
  apply stored_news_field. unfold NewsIngestor.news_doc. by lookup_literal.
Qed.

(** The inserted document is found by the filter it was inserted
    under, when the headline is a string. *)
Lemma stored_news_matches (ticker : string) item (t now : Z) coll :
  with_headline item = true → text_item item →
  Mongo.matches (news_filter ticker (dict_get item "headline") t)
    (stored_news ticker item t now coll) = true.
Proof.
  intros Hh Htext. destruct (Htext Hh) as [s Hs].
  unfold Mongo.matches, news_filter. cbn [forallb fst snd].
  rewrite (stored_news_field ticker item t now coll "ticker" (VStr ticker))
    by (unfold NewsIngestor.news_doc; by lookup_literal).
  rewrite (stored_news_field ticker item t now coll "headline"
             (dict_get item "headline"))
    by (unfold NewsIngestor.news_doc; by lookup_literal).
  rewrite (stored_news_field ticker item t now coll "published_at" (VDate t))
    by (unfold NewsIngestor.news_doc; by lookup_literal).
  unfold dict_get. rewrite Hs.
  cbn [default id Mongo.cond_holds Mongo.value_eqb].
  by rewrite !bool_decide_eq_true_2.
Qed.

Lemma store_ok_snoc coll d :
  store_ok coll → d !! "_id" = Some (VId (Mongo.fresh_oid coll)) →
  store_ok (coll ++ [d]).
Proof.
  intros [Hoids Hnd] Hd. split.
  - apply Forall_app. split; [done|]. apply Forall_singleton. by eexists.
  - rewrite fmap_app. apply NoDup_app. split; [done|].
    split; [|apply NoDup_singleton].
    intros i Hi1 Hi2. apply list_elem_of_singleton in Hi2 as ->.
    apply (fresh_oid_notin coll).
    assert (Mongo.oid_of d = Mongo.fresh_oid coll) as <-; [|done].
    unfold Mongo.oid_of. by rewrite Hd.
Qed.

(** What the loop does whatever the items are: it appends documents
    made of the items, and counts them. *)
Lemma insert_loop_appends (ticker : string) items :
  ∀ (n : Z) w,
    ∃ new,
      news_events (NewsIngestor.insert_loop fromtimestamp ticker items n w).2
      = news_events w ++ new
      ∧ price_snapshots (NewsIngestor.insert_loop fromtimestamp ticker items n w).2
        = price_snapshots w
      ∧ daily_ticker_metrics
          (NewsIngestor.insert_loop fromtimestamp ticker items n w).2
        = daily_ticker_metrics w
      ∧ (∀ m : Z,
           (NewsIngestor.insert_loop fromtimestamp ticker items n w).1 = Ok m →
           m = n + Z.of_nat (length new))
      ∧ (∀ d, d ∈ new → ∃ item, item ∈ items ∧ ingested fromtimestamp ticker item d)
      ∧ (store_ok (news_events w) → store_ok (news_events w ++ new)).
Proof.
  induction items as [|item items IH]; intros n w.
  { exists []. cbn. rewrite app_nil_r.
    split; [done|]. split; [done|]. split; [done|].
    split; [intros m [= <-]; lia|]. split; [|done].
    intros d Hd. by apply elem_of_nil in Hd. }
  assert (∀ (e : exn),
            ∃ new,
              news_events (Raise (A:=Z) e, w).2 = news_events w ++ new
              ∧ price_snapshots (Raise (A:=Z) e, w).2 = price_snapshots w
              ∧ daily_ticker_metrics (Raise (A:=Z) e, w).2 = daily_ticker_metrics w
              ∧ (∀ m : Z, (Raise (A:=Z) e, w).1 = Ok m → m = n + Z.of_nat (length new))
              ∧ (∀ d, d ∈ new →
                   ∃ it, it ∈ item :: items ∧ ingested fromtimestamp ticker it d)
              ∧ (store_ok (news_events w) → store_ok (news_events w ++ new)))
    as Hstop.
  { intros e. exists []. cbn. rewrite app_nil_r.
    split; [done|]. split; [done|]. split; [done|]. split; [done|].
    split; [|done]. intros d Hd. by apply elem_of_nil in Hd. }
  rewrite insert_loop_cons.
  destruct (with_headline item) eqn:Hh.
  2: { destruct (IH n w) as (new & H1 & H2 & H3 & H4 & H5 & H6). exists new.
       split; [done|]. split; [done|]. split; [done|]. split; [done|].
       split; [|done]. intros d Hd. destruct (H5 d Hd) as (it & Hit & Hing).
       exists it. split; [by right|done]. }
  destruct (getitem item "datetime") as [ts|e] eqn:Hget; [|apply Hstop].
  destruct (fromtimestamp ts) as [t|e] eqn:Ht; [|apply Hstop].
  assert (item !! "datetime" = Some ts) as Hts.
  { unfold getitem in Hget. destruct (item !! "datetime"); by inversion Hget. }
  cbv zeta. destruct (stored_item ticker item t (news_events w)) eqn:Hst.
  - match goal with
    | |- context [NewsIngestor.insert_loop _ _ _ ?n' ?w'] =>
        destruct (IH n' w') as (new & H1 & H2 & H3 & H4 & H5 & H6)
    end.
    cbn [news_events price_snapshots daily_ticker_metrics] in *. exists new.
    split; [done|]. split; [done|]. split; [done|]. split; [done|].
    split; [|done]. intros d Hd. destruct (H5 d Hd) as (it & Hit & Hing).
    exists it. split; [by right|done].
  - match goal with
    | |- context [NewsIngestor.insert_loop _ _ _ ?n' ?w'] =>
        destruct (IH n' w') as (new & H1 & H2 & H3 & H4 & H5 & H6)
    end.
    cbn [news_events price_snapshots daily_ticker_metrics] in *.
    set (d0 := stored_news ticker item t (wall_clock w (clock_reads w)) (news_events w))
      in *.
    exists (d0 :: new).
    split; [by rewrite H1, <- app_assoc|]. split; [done|]. split; [done|].
    split; [|split].
    + intros m Hm. rewrite (H4 m Hm). cbn [length]. lia.
    + intros d [->|Hd]%elem_of_cons.
      * exists item. split; [by left|]. by eapply stored_news_ingested.
      * destruct (H5 d Hd) as (it & Hit & Hing). exists it. split; [by right|done].
    + intros Hok. rewrite (assoc_L (++) _ [d0] new : _ ++ d0 :: new = _).
      apply H6. apply store_ok_snoc; [done|]. apply stored_news_oid.
Qed.

Lemma unscored_app coll new :
  (∀ d, d ∈ new → d !! "sentiment_score" = Some VNull) →
  unscored (coll ++ new) = unscored coll ++ new.
Proof.
  intros Hnew. unfold unscored, Mongo.find. rewrite filter_app. f_equal.
  induction new as [|d new IH]; [done|].
  rewrite filter_cons_True.
  - f_equal. apply IH. intros d' Hd'. apply Hnew. by right.
  - unfold Mongo.matches. cbn [forallb fst snd].
    rewrite (Hnew d) by (by left). done.
Qed.

(** X19: an item without a headline (none, null, or the empty string)
    is skipped before anything else of it is read: the batch does what
    it does on the items that have one.  Such an item raises nothing,
    whatever else it lacks, reads no clock and stores nothing. *)
Theorem insert_news_batch_skips_items_without_headline
    (w : world F) (ticker : string) items :
  NewsIngestor.insert_news_batch fromtimestamp ticker items w
  = NewsIngestor.insert_news_batch fromtimestamp ticker
      (filter (λ item, with_headline item) items) w.
Proof.
  unfold NewsIngestor.insert_news_batch. generalize 0 as n. revert w.
  induction items as [|item items IH]; intros w n; [done|].
  rewrite insert_loop_cons. destruct (with_headline item) eqn:Hh.
  - rewrite filter_cons_True by (by rewrite Hh).
    rewrite insert_loop_cons, Hh.
    destruct (getitem item "datetime") as [ts|e]; [|done].
    destruct (fromtimestamp ts) as [t|e]; [|done].
    cbv zeta. apply IH.
  - rewrite filter_cons_False by (rewrite Hh; exact id). apply IH.
Qed.

(** X20: [insert_news_batch] only appends to the news events, whether
    it returns or raises: the stored events stay as and where they
    are, scores included, and the other collections are not touched.
    Each appended document is made of an item that has a headline, for
    the ticker of the call, and carries no sentiment; so the documents
    waiting for the sentiment worker are those that waited before
    followed by the appended ones.  When the batch returns, it returns
    the number of appended documents. *)
Theorem insert_news_batch_only_appends (w : world F) (ticker : string) items :
  ∃ new,
    news_events (NewsIngestor.insert_news_batch fromtimestamp ticker items w).2
    = news_events w ++ new
    ∧ price_snapshots (NewsIngestor.insert_news_batch fromtimestamp ticker items w).2
      = price_snapshots w
    ∧ daily_ticker_metrics
        (NewsIngestor.insert_news_batch fromtimestamp ticker items w).2
      = daily_ticker_metrics w
    ∧ unscored
        (news_events (NewsIngestor.insert_news_batch fromtimestamp ticker items w).2)
      = unscored (news_events w) ++ new
    ∧ (∀ d, d ∈ new → ∃ item, item ∈ items ∧ ingested fromtimestamp ticker item d)
    ∧ ∀ n : Z,
        (NewsIngestor.insert_news_batch fromtimestamp ticker items w).1 = Ok n →
        n = Z.of_nat (length new).
Proof.
  unfold NewsIngestor.insert_news_batch.
  destruct (insert_loop_appends ticker items 0 w)
    as (new & Hnews & Hprices & Hdaily & Hcount & Hnew & _).
  exists new. split; [done|]. split; [done|]. split; [done|].
  split; [|split; [done|]].
  - rewrite Hnews. apply unscored_app. intros d Hd.
    destruct (Hnew d Hd) as (item & _ & Hing). apply Hing.
  - intros n Hn. rewrite (Hcount n Hn). lia.
Qed.

Lemma stored_item_app (ticker : string) item (t : Z) coll new :
  stored_item ticker item t coll = true →
  stored_item ticker item t (coll ++ new) = true.
Proof. unfold stored_item. rewrite existsb_app. by intros ->. Qed.

(** On items with string headlines and timestamps that convert, the
    loop returns, and every item that has a headline is stored when it
    does. *)
Lemma insert_loop_stores (ticker : string) items :
  ∀ (n : Z) w,
    Forall text_item items → Forall (converts fromtimestamp) items →
    (∃ m : Z, (NewsIngestor.insert_loop fromtimestamp ticker items n w).1 = Ok m)
    ∧ ∀ item ts (t : Z),
        item ∈ items → with_headline item = true →
        item !! "datetime" = Some ts → fromtimestamp ts = Ok t →
        stored_item ticker item t
          (news_events (NewsIngestor.insert_loop fromtimestamp ticker items n w).2)
        = true.
Proof.
  induction items as [|item0 items IH]; intros n w Htext Hconv.
  { split; [by exists n|]. intros item ts t Hin. by apply elem_of_nil in Hin. }
  apply Forall_cons in Htext as [Htext0 Htext].
  apply Forall_cons in Hconv as [Hconv0 Hconv].
  rewrite insert_loop_cons. destruct (with_headline item0) eqn:Hh.
  2: { destruct (IH n w Htext Hconv) as [Hret Hstored]. split; [done|].
       intros item ts t [->|Hin]%elem_of_cons Hitem Hts Ht; [congruence|].
       by eapply Hstored. }
  destruct (Hconv0 Hh) as (ts0 & t0 & Hts0 & Ht0).
  rewrite (getitem_Some _ _ _ Hts0), Ht0. cbv zeta.
  match goal with
  | |- context [NewsIngestor.insert_loop _ _ _ ?n' ?w'] =>
      set (n2 := n'); set (w2 := w')
  end.
  destruct (IH n2 w2 Htext Hconv) as [Hret Hstored]. split; [done|].
  intros item ts t [->|Hin]%elem_of_cons Hitem Hts Ht; [|by eapply Hstored].
  assert (ts = ts0) as -> by congruence. assert (t = t0) as -> by congruence.
  destruct (insert_loop_appends ticker items n2 w2) as (new & -> & _).
  apply stored_item_app. unfold w2. cbn [news_events].
  destruct (stored_item ticker item0 t0 (news_events w)) eqn:Hst; [done|].
  unfold stored_item. rewrite existsb_app. cbn [existsb].
  rewrite stored_news_matches by done. by rewrite orb_true_r.
Qed.

(** A batch whose items are all stored inserts nothing. *)
Lemma insert_loop_nothing_new (ticker : string) items :
  ∀ (n : Z) w,
    Forall (converts fromtimestamp) items →
    (∀ item ts (t : Z),
       item ∈ items → with_headline item = true →
       item !! "datetime" = Some ts → fromtimestamp ts = Ok t →
       stored_item ticker item t (news_events w) = true) →
    (NewsIngestor.insert_loop fromtimestamp ticker items n w).1 = Ok n
    ∧ news_events (NewsIngestor.insert_loop fromtimestamp ticker items n w).2
      = news_events w.
Proof.
  induction items as [|item0 items IH]; intros n w Hconv Hstored; [done|].
  apply Forall_cons in Hconv as [Hconv0 Hconv].
  rewrite insert_loop_cons. destruct (with_headline item0) eqn:Hh.
  2: { apply IH; [done|]. intros item ts t Hin. apply Hstored. by right. }
  destruct (Hconv0 Hh) as (ts0 & t0 & Hts0 & Ht0).
  rewrite (getitem_Some _ _ _ Hts0), Ht0. cbv zeta.
  rewrite (Hstored item0 ts0 t0) by (done || by left).
  match goal with
  | |- context [NewsIngestor.insert_loop _ _ _ ?n' ?w'] =>
      destruct (IH n' w' Hconv) as [Hret Hnews]
  end.
  { cbn [news_events]. intros item ts t Hin. apply Hstored. by right. }
  by rewrite Hret, Hnews.
Qed.

(** X21: on items whose headlines are strings and whose timestamps
    convert, [insert_news_batch] returns the number of documents it has
    stored, and running it again with the same items returns 0 and
    leaves the news events as the first run left them: an item is
    stored once, whether the feed repeats it within a batch or from one
    batch to the next. *)
Theorem insert_news_batch_again (w : world F) (ticker : string) items :
  Forall text_item items → Forall (converts fromtimestamp) items →
  let w1 := (NewsIngestor.insert_news_batch fromtimestamp ticker items w).2 in
  (NewsIngestor.insert_news_batch fromtimestamp ticker items w).1
  = Ok (Z.of_nat (length (news_events w1) - length (news_events w)))
  ∧ (NewsIngestor.insert_news_batch fromtimestamp ticker items w1).1 = Ok 0
  ∧ news_events (NewsIngestor.insert_news_batch fromtimestamp ticker items w1).2
    = news_events w1.
Proof.
  intros Htext Hconv w1. subst w1. unfold NewsIngestor.insert_news_batch.
  destruct (insert_loop_stores ticker items 0 w Htext Hconv) as [[m Hm] Hstored].
  destruct (insert_loop_appends ticker items 0 w) as (new & Hnews & _ & _ & Hcount & _).
  split.
  - rewrite Hm, Hnews, (Hcount m Hm). f_equal. rewrite length_app. lia.
  - by apply insert_loop_nothing_new.
Qed.

End news_facts.

(** ** From the feed to the scores *)
Section ingest_then_score.
Context {F : Type} `{!PyFloat F}.
Context (fromtimestamp : value F → result datetime).
Context (analyze_headline : string → string * F).

Implicit Types items new : list (document F).
Implicit Types w : world F.

(** X22: the ingestor hands its documents over to the sentiment
    worker.  On a store whose waiting events have string headlines, and
    after a batch of items with string headlines, whether the batch
    returned or raised, a run of the worker with a batch size of one or
    more scores the events that waited before together with the events
    the batch has stored, up to [max_loops * batch_size] of them, and
    leaves none unscored when the loops suffice. *)
Theorem worker_scores_ingested_news
    (w : world F) (ticker : string) items (max_loops batch_size : Z) :
  store_ok (news_events w) →
  Forall (λ d, is_Some (headline_of d)) (unscored (news_events w)) →
  Forall text_item items →
  0 < batch_size →
  let w1 := (NewsIngestor.insert_news_batch fromtimestamp ticker items w).2 in
  let stored := (length (news_events w1) - length (news_events w))%nat in
  let waiting := (length (unscored (news_events w)) + stored)%nat in
  let scored := (waiting `min` (Z.to_nat max_loops * Z.to_nat batch_size))%nat in
  let w2 :=
    (SentimentWorker.run_worker analyze_headline max_loops batch_size w1).2 in
  (SentimentWorker.run_worker analyze_headline max_loops batch_size w1).1
  = Ok (Z.of_nat scored)
  ∧ length (unscored (news_events w2)) = (waiting - scored)%nat
  ∧ (Z.of_nat waiting ≤ max_loops * batch_size → unscored (news_events w2) = []).
Proof.
  intros Hok Htexts Hitems Hsize w1 stored waiting scored w2.
  destruct (insert_loop_appends fromtimestamp ticker items 0 w)
    as (new & Hnews & _ & _ & _ & Hnew & Hok1).
  fold (NewsIngestor.insert_news_batch fromtimestamp ticker items w) in Hnews.
  fold w1 in Hnews.
  assert (unscored (news_events w1) = unscored (news_events w) ++ new) as Hwait.
  { rewrite Hnews. apply unscored_app. intros d Hd.
    destruct (Hnew d Hd) as (item & _ & Hing). apply Hing. }
  assert (store_ok (news_events w1)) as Hok_1 by (rewrite Hnews; by apply Hok1).
  assert (Forall (λ d, is_Some (headline_of d)) (unscored (news_events w1)))
    as Htexts1.
  { rewrite Hwait. apply Forall_app. split; [done|].
    apply Forall_forall. intros d Hd.
    destruct (Hnew d Hd) as (item & Hitem & Hh & _ & Hhead & _).
    rewrite Forall_forall in Hitems. destruct (Hitems item Hitem Hh) as [s Hs].
    unfold headline_of. by rewrite Hhead, Hs. }
  assert (waiting = length (unscored (news_events w1))) as Hwaiting.
  { unfold waiting, stored. rewrite Hwait, Hnews, !length_app. lia. }
  destruct (worker_loop_spec analyze_headline batch_size (Z.to_nat max_loops)
              Hsize 0 w1 Hok_1 Htexts1) as [Hres Hlen].
  cbv zeta in Hres, Hlen. rewrite <- Hwaiting in Hres, Hlen.
  fold scored in Hres, Hlen.
  unfold w2, SentimentWorker.run_worker.
  split; [by rewrite Hres, Z.add_0_l|]. split; [exact Hlen|].
  intros Hfit. apply length_zero_iff_nil. rewrite Hlen. unfold scored. nia.
Qed.

End ingest_then_score.

(** * The theorems on the sample data *)

Import Binary64.

(** The theorem on the sample candles: three distinct dates with a
    weekend between the first two. *)
Lemma daily_return_law_on_sample :
  Forall candle_ok (candles "AAPL" Samples.prices)
  ∧ NoDup (candle_date <$> candles "AAPL" Samples.prices)
  ∧ ∃ series,
      DailyAggregator.build_price_series Samples.prices "AAPL" = Ok series
      ∧ covers_candles (candles "AAPL" Samples.prices) series
      ∧ daily_return_law series.
Proof.
  assert (Forall candle_ok (candles "AAPL" Samples.prices)) as Hok.
  { repeat constructor; eexists _, _; split; reflexivity. }
  assert (NoDup (candle_date <$> candles "AAPL" Samples.prices)) as Hnd.
  { by_evaluation. }
  exact (conj Hok (conj Hnd
           (daily_return_law_on_distinct_dates Samples.prices "AAPL" Hok Hnd))).
Defined.

(** C5 as stated fails: two candles in ascending timestamp order on
    the same calendar date give a series whose first (and only) entry
    carries the return between the two candles, not null. *)
Lemma same_day_candles_break_the_law :
  Forall candle_ok (candles "AAPL" Samples.prices_same_day)
  ∧ ∃ series,
      DailyAggregator.build_price_series Samples.prices_same_day "AAPL" = Ok series
      ∧ series !! 738890 =
          Some {| DailyAggregator.close_price := 110%float;
                  DailyAggregator.daily_return := Some 0.1%float |}
      ∧ first_date series 738890
      ∧ ¬ daily_return_law series.
Proof.
  split.
  { repeat constructor; eexists _, _; split; reflexivity. }
  exists {[ 738890 := {| DailyAggregator.close_price := 110%float;
                         DailyAggregator.daily_return := Some 0.1%float |} ]}.
  assert (first_date (F:=float)
            {[ 738890 := {| DailyAggregator.close_price := 110%float;
                            DailyAggregator.daily_return := Some 0.1%float |} ]}
            738890) as Hfirst.
  { split; [by rewrite lookup_singleton_eq|].
    intros e [info He]. apply lookup_singleton_Some in He as [<- _]. lia. }
  split; [vm_compute; reflexivity|]. split; [by rewrite lookup_singleton_eq|].
  split; [done|].
  intros [Hlaw _].
  specialize (Hlaw 738890 _ (lookup_singleton_eq _ _) Hfirst). discriminate.
Qed.

(** The theorem at two requests on an empty store: ZZZZ is not
    supported, AAPL is supported and has no row. *)
Lemma endpoint_errors_on_empty_store :
  Api.get_ticker_timeseries "zzzz" 7 Samples.empty_world
  = (Raise (HTTPException 404 "Ticker ZZZZ is not supported"), Samples.empty_world)
  ∧ Api.get_ticker_timeseries "aapl" 7 Samples.empty_world
    = (Raise (HTTPException 404 "No daily metrics found for ticker AAPL"),
       Samples.empty_world).
Proof.
  assert (1 ≤ 7 ≤ 90) as Hdays by lia.
  pose proof (endpoint_errors_differ_in_detail Samples.empty_world "zzzz" 7 Hdays)
    as Hz.
  pose proof (endpoint_errors_differ_in_detail Samples.empty_world "aapl" 7 Hdays)
    as Ha.
  cbv zeta in Hz, Ha.
  destruct Hz as (Hz & _ & _). destruct Ha as (_ & Ha & _).
  split.
  - apply Hz. refine (bool_decide_unpack _ _). vm_compute. exact I.
  - apply Ha; [|reflexivity].
    refine (bool_decide_unpack _ _). vm_compute. exact I.
Defined.

(** C10 as stated fails: AAPL is supported and has no row in the empty
    store, yet the endpoint returns no result with empty points; it
    raises the same status code as for an unsupported ticker. *)
Lemma supported_without_rows_is_an_error :
  str_upper "AAPL" ∈ Api.TICKERS
  ∧ Mongo.find [("ticker", Mongo.CEq (VStr "AAPL"))]
      (daily_ticker_metrics Samples.empty_world) = []
  ∧ ¬ answers_empty_result Samples.empty_world "AAPL" 7
  ∧ (Api.get_ticker_timeseries "AAPL" 7 Samples.empty_world).1
    = Raise (HTTPException 404 "No daily metrics found for ticker AAPL")
  ∧ (Api.get_ticker_timeseries "ZZZZ" 7 Samples.empty_world).1
    = Raise (HTTPException 404 "Ticker ZZZZ is not supported").
Proof.
  split; [|split; [|split; [|split]]].
  - refine (bool_decide_unpack _ _). vm_compute. exact I.
  - reflexivity.
  - intros (data & Hdata & _). vm_compute in Hdata. discriminate.
  - reflexivity.
  - reflexivity.
Qed.

(** Evaluations on the sample data. *)
Example aggregate_of_sample_day :
  DailyAggregator.aggregate_sentiment_for_day Samples.news "AAPL" 738890
  = Ok (Some 0.1%float, VStr "bullish", 2).
Proof. vm_compute. repeat split. Qed.

(** Three pairs whose coefficient is found by hand: both means are 2,
    [Σ(x-x̄)(y-ȳ) = 1] and [Σ(x-x̄)² = Σ(y-ȳ)² = 2], so that
    [r = 1 / sqrt 4]. *)
Example correlation_of_three_pairs :
  sum_products [(1, 1); (2, 3); (3, 2)]%float = 1%float
  ∧ sum_squares [1; 2; 3]%float = Ok 2%float
  ∧ sum_squares [1; 3; 2]%float = Ok 2%float
  ∧ pearson_or_null [(1, 1); (2, 3); (3, 2)]%float = Ok (Some 0.5%float)
  ∧ DailyCorrelation.pearson_corr
      (float_values [(1, 1); (2, 3); (3, 2)]%float) = Ok (Some 0.5%float).
Proof. vm_compute. repeat split. Qed.

(** Proportional series correlate fully, one way or the other. *)
Example correlation_of_proportional_series :
  DailyCorrelation.pearson_corr
    (float_values [(1, 2); (2, 4); (3, 6)]%float) = Ok (Some 1%float)
  ∧ DailyCorrelation.pearson_corr
      (float_values [(1, 6); (2, 4); (3, 2)]%float) = Ok (Some (-1)%float).
Proof. vm_compute. repeat split. Qed.

Example correlation_of_sample_pairs :
  DailyCorrelation.pearson_corr
    (float_values [(0.01, 0.3); (-0.02, -0.1); (0, 0); (0.015, 0.25)]%float)
  = Ok (Some 0.91305273136872989%float)
  ∧ pearson_or_null
      [(0.01, 0.3); (-0.02, -0.1); (0, 0); (0.015, 0.25)]%float
    = Ok (Some 0.91305273136872989%float).
Proof. vm_compute. repeat split. Qed.

(** The values of the pairs are used once two pairs are there: a
    single pair gives null whatever it holds, integers are computed
    with, and a string among two pairs stops the first sum. *)
Example correlation_of_other_values :
  DailyCorrelation.pearson_corr [(VStr "a", VFloat 1%float)] = Ok None
  ∧ DailyCorrelation.pearson_corr
      [(VInt 1, VFloat 1%float); (VInt 2, VFloat 3%float);
       (VInt 3, VFloat 2%float)] = Ok (Some 0.5%float)
  ∧ DailyCorrelation.pearson_corr
      [(VStr "a", VFloat 1%float); (VInt 2, VFloat 3%float)] = Raise TypeError.
Proof. vm_compute. repeat split. Qed.

(** The store of the samples is well-formed. *)
Lemma sample_store_ok : store_ok Samples.daily.
Proof.
  split; [|by_evaluation].
  repeat constructor; eexists; reflexivity.
Defined.

Lemma other_store_ok : store_ok Samples.daily_other_future.
Proof.
  split; [|by_evaluation].
  repeat constructor; eexists; reflexivity.
Defined.



(** C6 on the sample news: the two scored events of AAPL on
    2024-01-05. *)
Lemma sentiment_of_sample_day :
  Forall event_ok (qualifying_events Samples.news "AAPL" 738890)
  ∧ ∃ avg dominant,
      DailyAggregator.aggregate_sentiment_for_day Samples.news "AAPL" 738890
      = Ok (avg, dominant,
            Z.of_nat (length (qualifying_events Samples.news "AAPL" 738890)))
      ∧ (qualifying_events Samples.news "AAPL" 738890 = [] →
         avg = None ∧ dominant = VNull)
      ∧ (qualifying_events Samples.news "AAPL" 738890 ≠ [] →
         avg = Some (mean (omap event_score
                             (qualifying_events Samples.news "AAPL" 738890))))
      ∧ (omap event_label (qualifying_events Samples.news "AAPL" 738890) = [] →
         dominant = VNull)
      ∧ (omap event_label (qualifying_events Samples.news "AAPL" 738890) ≠ [] →
         ∃ x, dominant = VStr x
              ∧ dominant_of
                  (omap event_label (qualifying_events Samples.news "AAPL" 738890))
                  x).
Proof.
  assert (Forall event_ok (qualifying_events Samples.news "AAPL" 738890)) as Hok.
  { apply Forall_cons; split; [|apply Forall_cons; split; [|by apply Forall_nil]].
    - split; [by eexists|]. right. right. by exists "bullish".
    - split; [by eexists|]. right. right. by exists "bearish". }
  exact (conj Hok (sentiment_of_the_day Samples.news "AAPL" 738890 Hok)).
Defined.

(** The rows of the samples are dated from 2024-01-05 to
    2024-01-12. *)
Lemma sample_dates (ticker : string) (latest : Z) :
  latest_date_of (rows_of ticker Samples.daily) latest →
  738890 ≤ latest ≤ 738897.
Proof.
  intros [(doc & Hdoc & Hd) _]. apply find_elem_of in Hdoc as [_ Hdoc].
  unfold Samples.daily in Hdoc.
  repeat (apply elem_of_cons in Hdoc as [->|Hdoc];
          [vm_compute in Hd; injection Hd as <-; lia|]).
  by apply elem_of_nil in Hdoc.
Qed.

Lemma sample_range_in_calendar (ticker : string) (days_back : Z) :
  1 ≤ days_back ≤ 90 →
  ∀ latest, latest_date_of (rows_of ticker Samples.daily) latest →
            in_calendar (latest - (days_back - 1)).
Proof.
  intros Hdays latest Hlatest. apply sample_dates in Hlatest.
  unfold in_calendar, date_min, date_max. lia.
Qed.

(** C9 on the sample store, seven days back. *)
Lemma timeseries_of_sample :
  rows_of "AAPL" Samples.daily ≠ []
  ∧ Forall dated (rows_of "AAPL" Samples.daily)
  ∧ ∃ latest selected pts,
      TimeseriesBuilder.build_ticker_timeseries "AAPL" 7
        (Samples.world_of [] [] Samples.daily)
      = (Ok {| TimeseriesBuilder.ticker := "AAPL";
               TimeseriesBuilder.from_date := Some (strftime_ymd (latest - (7 - 1)));
               TimeseriesBuilder.to_date := Some (strftime_ymd latest);
               TimeseriesBuilder.points := pts |},
         Samples.world_of [] [] Samples.daily)
      ∧ latest_date_of (rows_of "AAPL" Samples.daily) latest
      ∧ selected ≡ₚ
          filter (λ doc, on_or_after "AAPL" (latest - (7 - 1)) doc) Samples.daily
      ∧ StronglySorted date_le selected
      ∧ Forall2 renders selected pts.
Proof.
  assert (rows_of "AAPL" Samples.daily ≠ []) as Hne.
  { intros Hnil. apply (f_equal length) in Hnil. vm_compute in Hnil.
    discriminate Hnil. }
  assert (Forall dated (rows_of "AAPL" Samples.daily)) as Hdated.
  { repeat constructor; eexists; reflexivity. }
  assert (1 ≤ 7 ≤ 90) as Hdays by lia.
  exact (conj Hne (conj Hdated
           (timeseries_trails_latest_date
              (Samples.world_of [] [] Samples.daily) "AAPL" 7 Hne Hdated
              (sample_range_in_calendar "AAPL" 7 Hdays)))).
Defined.

(** C9 as stated fails: AAPL has rows, the latest of 2024-01-12, yet
    with a million days back the reader returns neither dates nor
    rows.  The first day of the range would lie before 0001-01-01, and
    the subtraction of the days raises. *)
Lemma reader_leaves_the_calendar :
  rows_of "AAPL" Samples.daily ≠ []
  ∧ Forall dated (rows_of "AAPL" Samples.daily)
  ∧ TimeseriesBuilder.build_ticker_timeseries "AAPL" 1000000
      (Samples.world_of [] [] Samples.daily)
    = (Raise OverflowError, Samples.world_of [] [] Samples.daily)
  ∧ ¬ ∃ data,
        (TimeseriesBuilder.build_ticker_timeseries "AAPL" 1000000
           (Samples.world_of [] [] Samples.daily)).1 = Ok data.
Proof.
  assert (TimeseriesBuilder.build_ticker_timeseries "AAPL" 1000000
            (Samples.world_of [] [] Samples.daily)
          = (Raise OverflowError, Samples.world_of [] [] Samples.daily)) as Hrun
    by reflexivity.
  split; [|split; [|split; [exact Hrun|]]].
  - intros Hnil. apply (f_equal length) in Hnil. vm_compute in Hnil.
    discriminate Hnil.
  - repeat constructor; eexists; reflexivity.
  - intros [data Hdata]. rewrite Hrun in Hdata. discriminate Hdata.
Qed.

Example timeseries_dates_of_sample :
  let data :=
    (TimeseriesBuilder.build_ticker_timeseries "AAPL" 3
       (Samples.world_of [] [] Samples.daily)).1 in
  TimeseriesBuilder.from_date <$> data = Ok (Some "2024-01-10")
  ∧ TimeseriesBuilder.to_date <$> data = Ok (Some "2024-01-12")
  ∧ length <$> (TimeseriesBuilder.points <$> data) = Ok 3%nat.
Proof. vm_compute. repeat split. Qed.

(** The rows of the samples carry a date and typed metrics. *)
Lemma metric_fine oid ticker d close ret sent :
  dated (Samples.metric oid ticker d close ret sent)
  ∧ metrics_typed (Samples.metric oid ticker d close ret sent).
Proof.
  split; [eexists; unfold Samples.metric; lookup_literal; reflexivity|].
  split; unfold Samples.metric; lookup_literal.
  - destruct ret; [right; right; by eexists|right; by left].
  - destruct sent; [right; right; by eexists|right; by left].
Qed.

Lemma sample_rows_fine :
  Forall (λ doc, dated doc ∧ metrics_typed doc) Samples.daily.
Proof.
  unfold Samples.daily.
  repeat (apply Forall_cons_2; [apply metric_fine|]). apply Forall_nil_2.
Qed.


(** C4 on the sample store and the store with other returns and
    sentiments on the last two days: the row of 2024-01-10, the fourth
    visited, gets the same correlation in both. *)
Lemma no_look_ahead_on_samples :
  take 4 (DailyCorrelation.ticker_rows "AAPL" Samples.daily)
  = take 4 (DailyCorrelation.ticker_rows "AAPL" Samples.daily_other_future)
  ∧ valid_pair <$> DailyCorrelation.ticker_rows "AAPL" Samples.daily !! 4%nat
    = Some (Some (0.015, 0.25)%float)
  ∧ valid_pair
      <$> DailyCorrelation.ticker_rows "AAPL" Samples.daily_other_future !! 4%nat
    = Some (Some (-0.09, -0.7)%float)
  ∧ ∃ d1 d2,
      daily_ticker_metrics
        (DailyCorrelation.update_rolling_corr_for_ticker "AAPL" 7
           (Samples.world_of [] [] Samples.daily)).2 !! 4%nat = Some d1
      ∧ daily_ticker_metrics
          (DailyCorrelation.update_rolling_corr_for_ticker "AAPL" 7
             (Samples.world_of [] [] Samples.daily_other_future)).2 !! 4%nat
        = Some d2
      ∧ d1 !! "rolling_corr_7d" = d2 !! "rolling_corr_7d".
Proof.
  assert (take 4 (DailyCorrelation.ticker_rows "AAPL" Samples.daily)
          = take 4 (DailyCorrelation.ticker_rows "AAPL" Samples.daily_other_future))
    as Hsame by reflexivity.
  split; [exact Hsame|].
  split; [vm_compute; reflexivity|]. split; [vm_compute; reflexivity|].
  refine (rolling_corr_has_no_look_ahead
            (Samples.world_of [] [] Samples.daily)
            (Samples.world_of [] [] Samples.daily_other_future)
            "AAPL" 7 3 4 4
            (Samples.metric 5 "AAPL" 738895 99 (Some 0%float) (Some 0%float))
            sample_store_ok other_store_ok Hsame _ _ _);
    reflexivity.
Defined.

(** ** The correlation engine on the samples *)

Lemma overflow_store_ok : store_ok Samples.daily_overflow.
Proof.
  split; [|by_evaluation].
  repeat constructor; eexists; reflexivity.
Qed.

Lemma overflow_rows_fine :
  Forall (λ doc, dated doc ∧ metrics_typed doc) Samples.daily_overflow.
Proof.
  unfold Samples.daily_overflow.
  repeat (apply Forall_cons_2; [apply metric_fine|]). apply Forall_nil_2.
Qed.

(** X1 on the sample store. *)
Lemma run_on_sample_writes_two_fields :
  let w := Samples.world_of Samples.news Samples.prices Samples.daily in
  let w' := (DailyCorrelation.run_rolling_corr 7 w).2 in
  news_events w' = news_events w
  ∧ price_snapshots w' = price_snapshots w
  ∧ length (daily_ticker_metrics w') = length (daily_ticker_metrics w)
  ∧ ∀ (p : nat) d,
      daily_ticker_metrics w !! p = Some d →
      ∃ d', daily_ticker_metrics w' !! p = Some d'
            ∧ ∀ k : string,
                k ≠ "rolling_corr_7d" → k ≠ "corr_updated_at" → d' !! k = d !! k.
Proof.
  pose proof (run_rolling_corr_writes_two_fields
                (Samples.world_of Samples.news Samples.prices Samples.daily) 7
                sample_store_ok) as Hframe.
  exact Hframe.
Defined.

(** X2 on the sample store: the pass over AAPL and the row of MSFT. *)
Lemma pass_over_AAPL_leaves_MSFT :
  daily_ticker_metrics
    (DailyCorrelation.update_rolling_corr_for_ticker "AAPL" 7
       (Samples.world_of [] [] Samples.daily)).2 !! 2%nat
  = Some (Samples.metric 3 "MSFT" 738890 370 None None).
Proof.
  refine (pass_leaves_other_tickers (Samples.world_of [] [] Samples.daily)
            "AAPL" "MSFT" 7 2 _ sample_store_ok _ _ _);
    [reflexivity|reflexivity|discriminate].
Defined.

(** X3 on the rows whose returns overflow: the second row raises, the
    first is written, the second and the third are left alone. *)
Lemma overflow_stops_the_pass :
  let w := Samples.world_of [] [] Samples.daily_overflow in
  let docs := DailyCorrelation.ticker_rows "AAPL" Samples.daily_overflow in
  let w' := (DailyCorrelation.update_rolling_corr_for_ticker "AAPL" 7 w).2 in
  row_outcome 7 docs 1 = Raise OverflowError
  ∧ (DailyCorrelation.update_rolling_corr_for_ticker "AAPL" 7 w).1
    = Raise OverflowError
  ∧ ∀ (j p : nat) doc,
      docs !! j = Some doc → daily_ticker_metrics w !! p = Some doc →
      ((1 ≤ j)%nat → daily_ticker_metrics w' !! p = Some doc)
      ∧ ((j < 1)%nat →
         ∃ c doc',
           corr_at 7 docs j = Ok c
           ∧ daily_ticker_metrics w' !! p = Some doc'
           ∧ doc' !! "rolling_corr_7d" = Some (of_option VFloat c)).
Proof.
  assert (row_outcome 7 (DailyCorrelation.ticker_rows "AAPL" Samples.daily_overflow) 1
          = Raise OverflowError) as Hrow by (vm_compute; reflexivity).
  split; [exact Hrow|].
  refine (pass_stops_at_first_failing_row
            (Samples.world_of [] [] Samples.daily_overflow) "AAPL" 7 1 OverflowError
            overflow_store_ok _ _ _ Hrow).
  - apply ticker_rows_Forall.
    eapply Forall_impl; [apply overflow_rows_fine|]. by intros doc [_ ?].
  - vm_compute. lia.
  - intros j Hj. destruct j as [|j]; [vm_compute; reflexivity|lia].
Defined.

(** X4 on the sample store. *)
Lemma second_run_on_sample :
  let w := Samples.world_of [] [] Samples.daily in
  let w1 := (DailyCorrelation.run_rolling_corr 7 w).2 in
  let w2 := (DailyCorrelation.run_rolling_corr 7 w1).2 in
  length (daily_ticker_metrics w2) = length (daily_ticker_metrics w1)
  ∧ ∀ (p : nat) d1 d2,
      daily_ticker_metrics w1 !! p = Some d1 →
      daily_ticker_metrics w2 !! p = Some d2 →
      ∀ k : string, k ≠ "corr_updated_at" → d2 !! k = d1 !! k.
Proof.
  pose proof (run_rolling_corr_again (Samples.world_of [] [] Samples.daily) 7
                sample_store_ok) as Hagain.
  exact Hagain.
Defined.

(** The second run does write: the time of the write moves on. *)
Example second_run_moves_the_timestamp :
  let w := Samples.world_of [] [] Samples.daily in
  let w1 := (DailyCorrelation.run_rolling_corr 7 w).2 in
  let w2 := (DailyCorrelation.run_rolling_corr 7 w1).2 in
  (daily_ticker_metrics w1 !! 0%nat ≫= (.!! "corr_updated_at"))
  = Some (VDate (Samples.clock 1))
  ∧ (daily_ticker_metrics w2 !! 0%nat ≫= (.!! "corr_updated_at"))
    = Some (VDate (Samples.clock 8)).
Proof. vm_compute. split; reflexivity. Qed.



(** C8: the upserter at the key of a row that exists.  The row of AAPL
    for 2024-01-11 holds the close 100.5 and a correlation; the call is
    to store the close 120 and lists neither [rolling_corr_7d] nor
    [corr_updated_at] among the fields to set.  It raises [NameError]
    before the update and leaves the store as it was: the correlation
    fields are untouched, and so are the metric fields, which keep
    their old values. *)
Theorem upserter_overwrites_no_field :
  (daily_ticker_metrics Samples.correlated !! 5%nat ≫= (.!! "ticker"))
  = Some (VStr "AAPL")
  ∧ (daily_ticker_metrics Samples.correlated !! 5%nat ≫= (.!! "date"))
    = Some (VDate (datetime_at_midnight 738896))
  ∧ (daily_ticker_metrics Samples.correlated !! 5%nat ≫= (.!! "close_price"))
    = Some (VFloat 100.5%float)
  ∧ (daily_ticker_metrics Samples.correlated !! 5%nat ≫= (.!! "rolling_corr_7d"))
    = Some (VFloat 0.91305273136872989%float)
  ∧ (∀ now,
       DailyAggregator.daily_metric_fields "AAPL" (datetime_at_midnight 738896)
         120%float (Some 0.5%float) (Some 0.1%float) (VStr "bullish") 3 now
       !! "close_price" = Some (VFloat 120%float)
       ∧ DailyAggregator.daily_metric_fields "AAPL" (datetime_at_midnight 738896)
           120%float (Some 0.5%float) (Some 0.1%float) (VStr "bullish") 3 now
         !! "rolling_corr_7d" = None
       ∧ DailyAggregator.daily_metric_fields "AAPL" (datetime_at_midnight 738896)
           120%float (Some 0.5%float) (Some 0.1%float) (VStr "bullish") 3 now
         !! "corr_updated_at" = None)
  ∧ DailyAggregator.upsert_daily_metric "AAPL" 738896 120%float
      (Some 0.5%float) (Some 0.1%float) (VStr "bullish") 3 Samples.correlated
    = (Raise (NameError "UTC"), Samples.correlated).
Proof.
  split; [vm_compute; reflexivity|]. split; [vm_compute; reflexivity|].
  split; [vm_compute; reflexivity|]. split; [vm_compute; reflexivity|].
  split; [|apply upsert_raises].
  intros now. unfold DailyAggregator.daily_metric_fields.
  split; [by lookup_literal|]. split; by lookup_literal.
Qed.

(** X5 on the sample store with a window of one row. *)
Lemma window_of_one_on_sample :
  let w := Samples.world_of [] [] Samples.daily in
  let docs := DailyCorrelation.ticker_rows "AAPL" Samples.daily in
  let w' := (DailyCorrelation.update_rolling_corr_for_ticker "AAPL" 1 w).2 in
  (DailyCorrelation.update_rolling_corr_for_ticker "AAPL" 1 w).1 = Ok ()
  ∧ ∀ (i p : nat) doc,
      docs !! i = Some doc → daily_ticker_metrics w !! p = Some doc →
      ∃ doc', daily_ticker_metrics w' !! p = Some doc'
              ∧ doc' !! "rolling_corr_7d" = Some VNull.
Proof.
  refine (narrow_window_writes_null (Samples.world_of [] [] Samples.daily)
            "AAPL" 1 sample_store_ok _ _ _); [| |lia].
  - apply ticker_rows_Forall.
    eapply Forall_impl; [apply sample_rows_fine|]. by intros doc [? _].
  - apply ticker_rows_Forall.
    eapply Forall_impl; [apply sample_rows_fine|]. by intros doc [_ ?].
Defined.

(** ** The reader and the endpoint on the samples *)

Lemma sample_rows_dated (ticker : string) :
  Forall dated (rows_of ticker Samples.daily).
Proof.
  apply Forall_forall. intros doc Hdoc. apply find_elem_of in Hdoc as [_ Hdoc].
  pose proof sample_rows_fine as Hfine. rewrite Forall_forall in Hfine.
  by apply Hfine.
Qed.

Lemma sample_rows_nonempty : rows_of "AAPL" Samples.daily ≠ [].
Proof.
  intros Hnil. apply (f_equal length) in Hnil. vm_compute in Hnil.
  discriminate Hnil.
Qed.

(** X6 on the sample store: six rows of AAPL, three days back. *)
Lemma three_days_of_sample :
  ∃ data,
    (TimeseriesBuilder.build_ticker_timeseries "AAPL" 3
       (Samples.world_of [] [] Samples.daily)).1 = Ok data
    ∧ (length (TimeseriesBuilder.points data) ≤ Z.to_nat 3)%nat.
Proof.
  refine (timeseries_has_at_most_days_back_points
            (Samples.world_of [] [] Samples.daily) "AAPL" 3
            sample_rows_nonempty (sample_rows_dated "AAPL") _ _).
  - by_evaluation.
  - apply sample_range_in_calendar. lia.
Defined.

(** X7 on the sample store, the ticker in lower case. *)
Lemma endpoint_on_sample :
  ∃ data,
    Api.get_ticker_timeseries "aapl" 7 (Samples.world_of [] [] Samples.daily)
    = (Ok data, Samples.world_of [] [] Samples.daily)
    ∧ TimeseriesBuilder.build_ticker_timeseries (str_upper "aapl") 7
        (Samples.world_of [] [] Samples.daily)
      = (Ok data, Samples.world_of [] [] Samples.daily)
    ∧ TimeseriesBuilder.points data ≠ [].
Proof.
  assert (1 ≤ 7 ≤ 90) as Hdays by lia.
  refine (endpoint_returns_the_series
            (Samples.world_of [] [] Samples.daily) "aapl" 7 _
            sample_rows_nonempty (sample_rows_dated "AAPL") Hdays
            (sample_range_in_calendar "AAPL" 7 Hdays)).
  refine (bool_decide_unpack _ _). vm_compute. exact I.
Defined.

(** X8 on the sample store: TSLA has no row. *)
Lemma timeseries_of_TSLA_on_sample :
  TimeseriesBuilder.build_ticker_timeseries "TSLA" 7
    (Samples.world_of [] [] Samples.daily)
  = (Ok {| TimeseriesBuilder.ticker := "TSLA";
           TimeseriesBuilder.from_date := None;
           TimeseriesBuilder.to_date := None;
           TimeseriesBuilder.points := [] |},
     Samples.world_of [] [] Samples.daily).
Proof.
  refine (proj1 (timeseries_without_dates_iff_no_rows
                   (Samples.world_of [] [] Samples.daily) "TSLA" 7
                   (sample_rows_dated "TSLA")) _).
  reflexivity.
Defined.

(** ** The aggregator on the samples *)

Lemma candle_fine oid ticker ts close : candle_ok (Samples.candle oid ticker ts close).
Proof. exists ts, close. unfold Samples.candle. split; by lookup_literal. Qed.

Lemma sample_candles_ok (ticker : string) :
  Forall candle_ok (candles ticker Samples.prices).
Proof.
  apply Forall_forall. intros doc Hdoc.
  apply sort_with_elem_of, find_elem_of in Hdoc as [_ Hdoc].
  unfold Samples.prices in Hdoc.
  repeat (apply elem_of_cons in Hdoc as [->|Hdoc]; [apply candle_fine|]).
  by apply elem_of_nil in Hdoc.
Qed.

Lemma headline_fine oid ticker published_at (label : string) (score : float) :
  label ≠ EmptyString →
  event_ok (Samples.headline oid ticker published_at (VStr label) (VFloat score)).
Proof.
  intros Hlabel. unfold Samples.headline. split.
  - exists score. by lookup_literal.
  - right. right. exists label. split; [by lookup_literal|done].
Qed.

Lemma unscored_headline oid ticker published_at label (t : string) (d : date) :
  scored_on t d (Samples.headline oid ticker published_at label VNull) = false.
Proof.
  unfold scored_on, Samples.headline. lookup_literal.
  cbn [is_not_none]. apply andb_false_r.
Qed.

Lemma sample_events_ok (ticker : string) (d : date) :
  Forall event_ok (qualifying_events Samples.news ticker d).
Proof.
  apply Forall_forall. intros doc Hdoc.
  rewrite qualifying_events_filter in Hdoc.
  apply list_elem_of_filter in Hdoc as [Hscored Hdoc].
  unfold Samples.news in Hdoc.
  apply elem_of_cons in Hdoc as [->|Hdoc]; [by apply headline_fine|].
  apply elem_of_cons in Hdoc as [->|Hdoc]; [by apply headline_fine|].
  apply elem_of_cons in Hdoc as [->|Hdoc]; [by apply headline_fine|].
  apply elem_of_cons in Hdoc as [->|Hdoc].
  { by rewrite unscored_headline in Hscored. }
  apply elem_of_cons in Hdoc as [->|Hdoc]; [by apply headline_fine|].
  by apply elem_of_nil in Hdoc.
Qed.

(** X9 on the sample news: the two scored events of AAPL published on
    2024-01-05; the event of the next midnight belongs to the next
    day. *)
Lemma article_count_of_sample_day :
  2 = Z.of_nat (length (filter (λ doc, scored_on "AAPL" 738890 doc) Samples.news)).
Proof.
  refine (article_count_is_of_the_day Samples.news "AAPL" 738890
            (Some 0.1%float) (VStr "bullish") 2 _).
  vm_compute. reflexivity.
Defined.

(** X10 on the two candles of one day: the entry of the day is made
    from the second candle. *)
Lemma series_of_same_day_candles :
  ∃ series,
    DailyAggregator.build_price_series Samples.prices_same_day "AAPL" = Ok series
    ∧ (∀ d, is_Some (series !! d)
            ↔ Some d ∈ candle_date <$> candles "AAPL" Samples.prices_same_day)
    ∧ ∀ (i : nat) doc t c,
        candles "AAPL" Samples.prices_same_day !! i = Some doc →
        doc !! "ts" = Some (VDate t) → doc !! "close" = Some (VFloat c) →
        (∀ (j : nat) doc',
           candles "AAPL" Samples.prices_same_day !! j = Some doc' → (i < j)%nat →
           candle_date doc' ≠ Some (datetime_date t)) →
        series !! datetime_date t
        = Some {| DailyAggregator.close_price := c;
                  DailyAggregator.daily_return :=
                    return_on_previous (candles "AAPL" Samples.prices_same_day) i c |}.
Proof.
  refine (price_series_keeps_last_candle_of_a_date Samples.prices_same_day "AAPL" _).
  apply Forall_forall. intros doc Hdoc.
  apply sort_with_elem_of, find_elem_of in Hdoc as [_ Hdoc].
  unfold Samples.prices_same_day in Hdoc.
  repeat (apply elem_of_cons in Hdoc as [->|Hdoc]; [apply candle_fine|]).
  by apply elem_of_nil in Hdoc.
Defined.

(** X11 on the sample candles: with thirty days back the run stops at
    the first candle of AAPL; with no day back but the clock's own, it
    still meets the candle of 2024-01-09. *)
Lemma aggregation_of_samples_stops :
  (DailyAggregator.run_daily_aggregation 30
     (Samples.world_of Samples.news Samples.prices [])).1
  = Raise (NameError "UTC").
Proof.
  pose proof (aggregation_run_outcome
                (Samples.world_of Samples.news Samples.prices []) 30
                (λ ticker _, sample_candles_ok ticker) sample_events_ok) as Hrun.
  cbv zeta in Hrun. rewrite Hrun. vm_compute. reflexivity.
Defined.

Example aggregation_without_recent_candles :
  (DailyAggregator.run_daily_aggregation (-1)
     (Samples.world_of Samples.news Samples.prices [])).1
  = Ok ().
Proof. vm_compute. reflexivity. Qed.

(** A window of a million days would start before 0001-01-01. *)
Example aggregation_out_of_calendar :
  (DailyAggregator.run_daily_aggregation 1000000
     (Samples.world_of Samples.news Samples.prices [])).1
  = Raise OverflowError.
Proof. vm_compute. reflexivity. Qed.

(** ** The price fetcher on the samples *)

Lemma fetched_new ticker ts close : new_candle (Samples.fetched ticker ts close).
Proof.
  unfold new_candle, key_of, Samples.fetched. split.
  - lookup_literal. by eexists.
  - by lookup_literal.
Qed.

Lemma batch_new : Forall new_candle Samples.batch.
Proof. unfold Samples.batch. repeat constructor; apply fetched_new. Qed.

Example upsert_of_sample_batch :
  (PriceFetcher.upsert_candles Samples.batch
     (Samples.world_of [] Samples.prices [])).1 = Ok 1
  ∧ length (price_snapshots
              (PriceFetcher.upsert_candles Samples.batch
                 (Samples.world_of [] Samples.prices [])).2) = 5%nat.
Proof. vm_compute. split; reflexivity. Qed.

(** X12 on the sample batch. *)
Lemma sample_batch_is_appended :
  ∃ new,
    PriceFetcher.upsert_candles Samples.batch (Samples.world_of [] Samples.prices [])
    = (Ok (Z.of_nat (length new)),
       with_prices (Samples.world_of [] Samples.prices []) (Samples.prices ++ new))
    ∧ (∀ c, c ∈ Samples.batch → key_of c ∈ key_of <$> (Samples.prices ++ new))
    ∧ ∀ d, d ∈ new →
        ∃ c, c ∈ Samples.batch ∧ key_of d = key_of c
             ∧ key_of c ∉ key_of <$> Samples.prices
             ∧ ∀ k : string, k ≠ "_id" → d !! k = c !! k.
Proof.
  pose proof (upsert_candles_appends_new_keys
                (Samples.world_of [] Samples.prices []) Samples.batch batch_new)
    as Happend.
  exact Happend.
Defined.

(** X13 on the sample batch. *)
Lemma sample_batch_again :
  PriceFetcher.upsert_candles Samples.batch
    (PriceFetcher.upsert_candles Samples.batch
       (Samples.world_of [] Samples.prices [])).2
  = (Ok 0,
     (PriceFetcher.upsert_candles Samples.batch
        (Samples.world_of [] Samples.prices [])).2).
Proof.
  pose proof (upsert_candles_again
                (Samples.world_of [] Samples.prices []) Samples.batch batch_new)
    as Hagain.
  exact Hagain.
Defined.

Lemma sample_prices_ok : store_ok Samples.prices.
Proof.
  split; [|by_evaluation].
  repeat constructor; eexists; reflexivity.
Qed.

(** X14 on the sample batch. *)
Lemma sample_batch_keeps_keys_unique :
  NoDup (omap key_of
           (price_snapshots
              (PriceFetcher.upsert_candles Samples.batch
                 (Samples.world_of [] Samples.prices [])).2))
  ∧ store_ok
      (price_snapshots
         (PriceFetcher.upsert_candles Samples.batch
            (Samples.world_of [] Samples.prices [])).2).
Proof.
  pose proof (upsert_candles_keeps_keys_unique
                (Samples.world_of [] Samples.prices []) Samples.batch batch_new)
    as Hunique.
  apply Hunique; [by_evaluation|apply sample_prices_ok].
Defined.

(** ** The sentiment worker on the samples *)

Lemma sample_news_ok : store_ok Samples.news.
Proof.
  split; [|by_evaluation].
  repeat constructor; eexists; reflexivity.
Qed.

Lemma headline_has_text oid ticker published_at label score :
  is_Some (headline_of (Samples.headline oid ticker published_at label score)).
Proof. unfold headline_of, Samples.headline. lookup_literal. by eexists. Qed.

Lemma sample_headlines_ok :
  Forall (λ d, is_Some (headline_of d)) (unscored Samples.news).
Proof.
  apply Forall_forall. intros doc Hdoc. apply find_elem_of in Hdoc as [_ Hdoc].
  unfold Samples.news in Hdoc.
  repeat (apply elem_of_cons in Hdoc as [->|Hdoc]; [apply headline_has_text|]).
  by apply elem_of_nil in Hdoc.
Qed.

Example worker_on_sample_news :
  (SentimentWorker.run_worker Samples.classifier 100 50
     (Samples.world_of Samples.news [] [])).1 = Ok 1
  ∧ (news_events
       (SentimentWorker.run_worker Samples.classifier 100 50
          (Samples.world_of Samples.news [] [])).2 !! 3%nat
     ≫= (.!! "sentiment_label")) = Some (VStr "bullish").
Proof. vm_compute. split; reflexivity. Qed.

(** X15 on the sample news: the first event carries a score. *)
Lemma worker_keeps_first_sample_event :
  news_events
    (SentimentWorker.process_batch Samples.classifier 50
       (Samples.world_of Samples.news [] [])).2 !! 0%nat
  = Some (Samples.headline 1 "AAPL" (Samples.at_hour 738890 9)
            (VStr "bullish") (VFloat 0.4%float))
  ∧ news_events
      (SentimentWorker.run_worker Samples.classifier 100 50
         (Samples.world_of Samples.news [] [])).2 !! 0%nat
    = Some (Samples.headline 1 "AAPL" (Samples.at_hour 738890 9)
              (VStr "bullish") (VFloat 0.4%float)).
Proof.
  refine (worker_keeps_scored_documents Samples.classifier
            (Samples.world_of Samples.news [] []) 100 50 0 _
            sample_news_ok _ _); [reflexivity|].
  exists (VFloat 0.4%float). split; [|discriminate].
  unfold Samples.headline. by lookup_literal.
Defined.

(** X16 on the sample news. *)
Lemma sample_batch_is_scored :
  let w := Samples.world_of Samples.news [] [] in
  let batch := SentimentWorker.fetch_unscored_batch (news_events w) 50 in
  let w' := (SentimentWorker.process_batch Samples.classifier 50 w).2 in
  (SentimentWorker.process_batch Samples.classifier 50 w).1
  = Ok (Z.of_nat (length batch))
  ∧ ∀ (p : nat) d,
      news_events w !! p = Some d →
      ∃ d',
        news_events w' !! p = Some d'
        ∧ (∀ k : string,
             k ≠ "sentiment_label" → k ≠ "sentiment_score" →
             k ≠ "sentiment_updated_at" → d' !! k = d !! k)
        ∧ (Mongo.oid_of d ∈ Mongo.oid_of <$> batch →
           ∃ text,
             headline_of d = Some text
             ∧ d' !! "sentiment_label" = Some (VStr (Samples.classifier text).1)
             ∧ d' !! "sentiment_score" = Some (VFloat (Samples.classifier text).2))
        ∧ (Mongo.oid_of d ∉ Mongo.oid_of <$> batch → d' = d).
Proof.
  pose proof (process_batch_scores_the_batch Samples.classifier
                (Samples.world_of Samples.news [] []) 50
                sample_news_ok sample_headlines_ok) as Hbatch.
  exact Hbatch.
Defined.

(** X17 on the sample news: one document waits. *)
Lemma sample_batch_takes_one :
  (SentimentWorker.process_batch Samples.classifier 50
     (Samples.world_of Samples.news [] [])).1 = Ok 1
  ∧ length (unscored
              (news_events
                 (SentimentWorker.process_batch Samples.classifier 50
                    (Samples.world_of Samples.news [] [])).2)) = 0%nat.
Proof.
  pose proof (process_batch_takes_what_waits Samples.classifier
                (Samples.world_of Samples.news [] []) 50
                sample_news_ok sample_headlines_ok) as Htakes.
  cbv zeta in Htakes.
  assert (length (unscored (news_events (Samples.world_of Samples.news [] [])))
          = 1%nat) as Hone by (vm_compute; reflexivity).
  rewrite Hone in Htakes. apply Htakes. lia.
Defined.

(** X18 on the sample news. *)
Lemma sample_run_scores_all :
  (SentimentWorker.run_worker Samples.classifier 100 50
     (Samples.world_of Samples.news [] [])).1 = Ok 1
  ∧ unscored
      (news_events
         (SentimentWorker.run_worker Samples.classifier 100 50
            (Samples.world_of Samples.news [] [])).2) = [].
Proof.
  pose proof (run_worker_scores_what_fits Samples.classifier
                (Samples.world_of Samples.news [] []) 100 50
                sample_news_ok sample_headlines_ok) as Hrun.
  cbv zeta in Hrun.
  assert (length (unscored (news_events (Samples.world_of Samples.news [] [])))
          = 1%nat) as Hone by (vm_compute; reflexivity).
  rewrite Hone in Hrun. destruct Hrun as (Hres & _ & Hnone); [lia|].
  split; [exact Hres|]. apply Hnone. lia.
Defined.

(** ** The news ingestor on the samples *)

Lemma feed_item_text text seconds : text_item (Samples.feed_item text seconds).
Proof. intros _. exists text. unfold Samples.feed_item. by lookup_literal. Qed.

Lemma feed_item_converts text seconds :
  converts Samples.utc_seconds (Samples.feed_item text seconds).
Proof.
  intros _. exists (VInt seconds), (719163 * us_per_day + seconds * 1000000).
  split; [|reflexivity]. unfold Samples.feed_item. by lookup_literal.
Qed.

Lemma sample_feed_text : Forall text_item Samples.feed.
Proof.
  unfold Samples.feed.
  repeat (apply Forall_cons_2; [first [apply feed_item_text|intros [=]]|]).
  apply Forall_nil_2.
Qed.

Lemma sample_feed_converts : Forall (converts Samples.utc_seconds) Samples.feed.
Proof.
  unfold Samples.feed.
  repeat (apply Forall_cons_2; [first [apply feed_item_converts|intros [=]]|]).
  apply Forall_nil_2.
Qed.

(** Of the five items of the feed one is stored: the first is stored
    already, two have no headline, and the last repeats the second.
    The clock is read for the three items that have a headline. *)
Example ingest_of_sample_feed :
  (NewsIngestor.insert_news_batch Samples.utc_seconds "AAPL" Samples.feed
     (Samples.world_of Samples.news [] [])).1 = Ok 1
  ∧ length (news_events
              (NewsIngestor.insert_news_batch Samples.utc_seconds "AAPL" Samples.feed
                 (Samples.world_of Samples.news [] [])).2) = 6%nat
  ∧ clock_reads
      (NewsIngestor.insert_news_batch Samples.utc_seconds "AAPL" Samples.feed
         (Samples.world_of Samples.news [] [])).2 = 3%nat
  ∧ (news_events
       (NewsIngestor.insert_news_batch Samples.utc_seconds "AAPL" Samples.feed
          (Samples.world_of Samples.news [] [])).2 !! 5%nat
     ≫= (.!! "published_at")) = Some (VDate (Samples.at_hour 738894 9)).
Proof. vm_compute. repeat split. Qed.

(** An item with a headline and without a timestamp raises, and what
    the batch has stored before it stays. *)
Example ingest_of_undated_item :
  (NewsIngestor.insert_news_batch Samples.utc_seconds "AAPL" Samples.feed_undated
     (Samples.world_of Samples.news [] [])).1 = Raise (KeyError "datetime")
  ∧ length (news_events
              (NewsIngestor.insert_news_batch Samples.utc_seconds "AAPL"
                 Samples.feed_undated (Samples.world_of Samples.news [] [])).2)
    = 6%nat.
Proof. vm_compute. repeat split. Qed.

(** X21 on the sample feed. *)
Lemma sample_feed_again :
  let w := Samples.world_of Samples.news [] [] in
  let w1 :=
    (NewsIngestor.insert_news_batch Samples.utc_seconds "AAPL" Samples.feed w).2 in
  (NewsIngestor.insert_news_batch Samples.utc_seconds "AAPL" Samples.feed w).1
  = Ok (Z.of_nat (length (news_events w1) - length (news_events w)))
  ∧ (NewsIngestor.insert_news_batch Samples.utc_seconds "AAPL" Samples.feed w1).1
    = Ok 0
  ∧ news_events
      (NewsIngestor.insert_news_batch Samples.utc_seconds "AAPL" Samples.feed w1).2
    = news_events w1.
Proof.
  pose proof (insert_news_batch_again Samples.utc_seconds
                (Samples.world_of Samples.news [] []) "AAPL" Samples.feed
                sample_feed_text sample_feed_converts) as Hagain.
  exact Hagain.
Defined.

(** X22 on the samples: the event that waited and the event the feed
    has added are scored. *)
Lemma sample_feed_gets_scored :
  let w := Samples.world_of Samples.news [] [] in
  let w1 :=
    (NewsIngestor.insert_news_batch Samples.utc_seconds "AAPL" Samples.feed w).2 in
  (SentimentWorker.run_worker Samples.classifier 100 50 w1).1 = Ok 2
  ∧ unscored
      (news_events (SentimentWorker.run_worker Samples.classifier 100 50 w1).2)
    = [].
Proof.
  intros w w1.
  assert (0 < 50) as Hsize by lia.
  pose proof (worker_scores_ingested_news Samples.utc_seconds Samples.classifier
                w "AAPL" Samples.feed 100 50
                sample_news_ok sample_headlines_ok sample_feed_text Hsize) as Hrun.
  cbv zeta in Hrun. fold w1 in Hrun.
  assert ((length (unscored (news_events w))
           + (length (news_events w1) - length (news_events w)))%nat = 2%nat)
    as Htwo by (vm_compute; reflexivity).
  rewrite Htwo in Hrun. destruct Hrun as (Hres & _ & Hnone).
  split; [exact Hres|]. apply Hnone. lia.
Defined.
